(** * eduMFA: mobile-OTP, SMS token, LUKS application and federation handler

    A shallow embedding of
      - edumfa/lib/tokens/mOTP.py           (module [MOTP])
      - edumfa/lib/tokens/smstoken.py       (module [SMS])
      - edumfa/lib/applications/luks.py     (module [LUKS])
      - edumfa/lib/applications/base.py     (module [Applications])
      - edumfa/lib/eventhandler/federationhandler.py (module [Federation])
    together with the properties of these functions.

    Python strings are modelled as [string] (the bytes of their UTF-8
    encoding), Python ints as [Z], dicts with string keys as [gmap string _],
    and code that can raise or that changes shared state as an explicit
    state-and-exception monad. *)

From Stdlib Require Import ZArith List String Ascii Lia DecimalString.
From stdpp Require Import gmap strings list.

Local Open Scope string_scope.
Local Open Scope Z_scope.

(** ** Python values and string helpers *)

Module Py.

(** The exceptions that the modelled code can raise; [Exception_] is the
    plain [Exception(msg)]. [Unmodelled] is not a Python exception: it
    marks an input on which the model gives no answer. *)
Inductive exn : Type :=
| AttributeError
| TypeError
| KeyError (k : string)
| IndexError
| ValueError (msg : string)
| TokenAdminError
| GatewayError (msg : string)
| Exception_ (msg : string)
| OverflowError (msg : string)
| Unmodelled (what : string).

(** The outcome of a call that has no effect on shared state. *)
Inductive res (A : Type) : Type :=
| Ok (a : A)
| Err (e : exn).
Arguments Ok {A} a.
Arguments Err {A} e.

(** The outcome of a call on shared state of type [S]: the value or the
    exception, with the state as the call left it. What was written before
    an exception stays written. *)
Inductive outcome (S A : Type) : Type :=
| Return (a : A) (s : S)
| Raise (e : exn) (s : S).
Arguments Return {S A} a s.
Arguments Raise {S A} e s.

Definition M (S A : Type) : Type := S -> outcome S A.

#[global] Instance M_ret {S} : MRet (M S) :=
  fun A a s => Return a s.

#[global] Instance M_bind {S} : MBind (M S) :=
  fun A B f m s =>
    match m s with
    | Return a s' => f a s'
    | Raise e s' => Raise e s'
    end.

Definition raise {S A} (e : exn) : M S A := fun s => Raise e s.
Definition get_state {S} : M S S := fun s => Return s s.
Definition modify {S} (f : S -> S) : M S unit := fun s => Return tt (f s).

(** [try: body except Exception as e: handler e]. *)
Definition try_except {S A} (body : M S A) (handler : exn -> M S A) : M S A :=
  fun s =>
    match body s with
    | Return a s' => Return a s'
    | Raise e s' => handler e s'
    end.

(** A call without effect that may raise. *)
Definition lift_res {S A} (r : res A) : M S A :=
  fun s => match r with Ok a => Return a s | Err e => Raise e s end.

(** A log record: level, format string and the values formatted into it. *)
Inductive level : Type := DEBUG | INFO | WARNING | ERROR.
Record log_entry := Log { lvl : level; fmt : string; args : list string }.

(** The world in which an outcome ends. *)
Definition final_state {S A} (o : outcome S A) : S :=
  match o with Return _ s => s | Raise _ s => s end.

(** Python values, as far as the modelled code handles them. *)
#[local] Set Warnings "-register-all".
Inductive pyval : Type :=
| PNone
| PBool (b : bool)
| PInt (z : Z)
| PStr (s : string)
| PList (l : list pyval)
| PDict (d : gmap string pyval).

(** [bool(v)]: the truth value that [if v:] tests. *)
Definition truthy (v : pyval) : bool :=
  match v with
  | PNone => false
  | PBool b => b
  | PInt z => negb (z =? 0)
  | PStr s => negb (String.eqb s "")
  | PList l => match l with [] => false | _ => true end
  | PDict d => negb (bool_decide (d = ∅))
  end.

(** [d.get(k)] and [d.get(k, dflt)]. *)
Definition dict_get (d : gmap string pyval) (k : string) : pyval :=
  default PNone (d !! k).
Definition dict_get_default (d : gmap string pyval) (k : string)
    (dflt : pyval) : pyval :=
  default dflt (d !! k).

(** [f"{z:d}"]: decimal digits, a leading minus sign for negatives. *)
Definition str_of_int (z : Z) : string :=
  NilZero.string_of_int (Z.to_int z).

(** [str(x)] for a value that is a string or [None]. *)
Definition str_of_opt (o : option string) : string :=
  match o with
  | Some s => s
  | None => "None"
  end.

(** [s[:n]] on a string: a negative [n] counts from the end. *)
Definition slice_to (n : Z) (s : string) : string :=
  if 0 <=? n
  then String.substring 0 (Z.to_nat n) s
  else String.substring 0 (Z.to_nat (Z.of_nat (String.length s) + n)) s.

(** [s.startswith(p)]. *)
Definition startswith (p s : string) : bool := String.prefix p s.

Definition lower_ascii (c : ascii) : ascii :=
  let n := nat_of_ascii c in
  if ((65 <=? n) && (n <=? 90))%nat then ascii_of_nat (n + 32) else c.

Definition upper_ascii (c : ascii) : ascii :=
  let n := nat_of_ascii c in
  if ((97 <=? n) && (n <=? 122))%nat then ascii_of_nat (n - 32) else c.

(** [s.lower()] and [s.upper()] on the ASCII letters; other bytes are
    kept. HTTP verbs and token type tags are ASCII. *)
Fixpoint lower (s : string) : string :=
  match s with
  | EmptyString => EmptyString
  | String c r => String (lower_ascii c) (lower r)
  end.

Fixpoint upper (s : string) : string :=
  match s with
  | EmptyString => EmptyString
  | String c r => String (upper_ascii c) (upper r)
  end.

(** Modelled from the spec: [safe_compare] of edumfa.lib.crypto is not
    among the sources; the spec calls it a constant-time comparison of the
    submitted value with the expected one, that is, their equality. *)
Definition safe_compare (a b : string) : bool := String.eqb a b.

(** [a or b]. *)
Definition py_or (a b : pyval) : pyval := if truthy a then a else b.

(** [s.rsplit(sep, 1)] when it yields two parts: the split at the last
    [sep]. *)
Fixpoint rsplit1 (sep : ascii) (s : string) : option (string * string) :=
  match s with
  | EmptyString => None
  | String c r =>
      match rsplit1 sep r with
      | Some (a, b) => Some (String c a, b)
      | None => if Ascii.eqb c sep then Some (EmptyString, r) else None
      end
  end.

(** [range(a, b)]. *)
Definition range (a b : Z) : list Z := seqZ a (b - a).

(** [str(v)] for the values whose text does not depend on a [repr]. *)
Definition str_of (v : pyval) : option string :=
  match v with
  | PNone => Some "None"
  | PBool true => Some "True"
  | PBool false => Some "False"
  | PInt z => Some (str_of_int z)
  | PStr s => Some s
  | _ => None
  end.

(** [s.replace(old, new)] for a non-empty [old]: every occurrence, from the
    left, without overlap. [skip] counts the bytes of an occurrence that are
    still to be dropped. *)
Fixpoint replace_from (old new : string) (skip : nat) (s : string) : string :=
  match s with
  | EmptyString => EmptyString
  | String c r =>
      match skip with
      | Datatypes.S k => replace_from old new k r
      | O =>
          if String.prefix old s
          then new ++ replace_from old new (String.length old - 1) r
          else String c (replace_from old new 0 r)
      end
  end.

Definition replace (old new s : string) : string :=
  replace_from old new 0 s.

(** *** [str.format] with keyword arguments

    The format string is cut into literal text and replacement fields; a
    field is a keyword name followed by [[key]] look-ups. Conversions
    ([!r]), format specifications ([:>8]) and attribute access ([.name])
    are outside the model and answered with [Unmodelled]. *)
Inductive piece : Type :=
| Lit (c : ascii)
| Field (f : string)
| Bad (e : exn).

(** Where the scan of the format string stands: in literal text, after an
    opening or a closing brace, or inside a field ([bracket] tells whether a
    [[] is still open). *)
Inductive fmt_mode : Type :=
| Text
| Open
| Close
| InField (f : string) (bracket : bool).

Definition snoc (s : string) (c : ascii) : string :=
  s ++ String c EmptyString.

(** The pieces of a format string from left to right. The string is scanned
    as far as it is used: a malformed place shows as a [Bad] piece behind
    the pieces before it, and ends the list. *)
Fixpoint pieces (m : fmt_mode) (s : string) : list piece :=
  match s with
  | EmptyString =>
      match m with
      | Text => []
      | Open => [Bad (ValueError "Single '{' encountered in format string")]
      | Close => [Bad (ValueError "Single '}' encountered in format string")]
      | InField _ _ => [Bad (ValueError "expected '}' before end of string")]
      end
  | String c r =>
      let in_field f (bracket : bool) :=
        if bracket then pieces (InField (snoc f c) (negb (Ascii.eqb c "]"))) r
        else if Ascii.eqb c "{" then
          [Bad (ValueError "unexpected '{' in field name")]
        else if Ascii.eqb c "}" then Field f :: pieces Text r
        else if Ascii.eqb c ":" || Ascii.eqb c "!" then
          [Bad (Unmodelled "conversion or format specification")]
        else pieces (InField (snoc f c) (Ascii.eqb c "[")) r in
      match m with
      | Text =>
          if Ascii.eqb c "{" then pieces Open r
          else if Ascii.eqb c "}" then pieces Close r
          else Lit c :: pieces Text r
      | Open =>
          if Ascii.eqb c "{" then Lit "{"%char :: pieces Text r
          else in_field EmptyString false
      | Close =>
          if Ascii.eqb c "}" then Lit "}"%char :: pieces Text r
          else [Bad (ValueError "Single '}' encountered in format string")]
      | InField f bracket => in_field f bracket
      end
  end.

Definition all_digits (s : string) : bool :=
  forallb (fun c => (48 <=? nat_of_ascii c)%nat && (nat_of_ascii c <=? 57)%nat)
          (list_ascii_of_string s).

(** The part of [s] before the first byte that satisfies [stop], and the
    rest from that byte on. *)
Fixpoint break_at (stop : ascii -> bool) (s : string) : string * string :=
  match s with
  | EmptyString => (EmptyString, EmptyString)
  | String c r =>
      if stop c then (EmptyString, s)
      else let '(a, b) := break_at stop r in (String c a, b)
  end.

(** [v[key]] as the format machinery does it: a key of digits is an int,
    any other key a string. *)
Definition getitem (v : pyval) (k : string) : res pyval :=
  match v with
  | PDict d =>
      if all_digits k then Err (KeyError k)
      else match d !! k with
           | Some x => Ok x
           | None => Err (KeyError k)
           end
  | PList _ | PStr _ =>
      if all_digits k then Err (Unmodelled "index into a sequence")
      else Err TypeError
  | _ => Err TypeError
  end.

(** The [[key]] look-ups that follow the name of a field; [fuel] bounds
    their number by the length of the field. *)
Fixpoint accessors (fuel : nat) (v : pyval) (rest : string) : res pyval :=
  match fuel with
  | O => Ok v
  | Datatypes.S fuel' =>
      match rest with
      | EmptyString => Ok v
      | String c r =>
          if Ascii.eqb c "[" then
            let '(k, after) := break_at (Ascii.eqb "]") r in
            match after with
            | EmptyString => Err (ValueError "Missing ']' in format string")
            | String _ after' =>
                if String.eqb k "" then
                  Err (ValueError "Empty attribute in format string")
                else
                  match getitem v k with
                  | Err e => Err e
                  | Ok x =>
                      match after' with
                      | EmptyString => Ok x
                      | String c' _ =>
                          if Ascii.eqb c' "[" || Ascii.eqb c' "."
                          then accessors fuel' x after'
                          else Err (ValueError
                            "Only '.' or '[' may follow ']' in format field specifier")
                      end
                  end
            end
          else Err (Unmodelled "attribute access in a format field")
      end
  end.

(** The text that one replacement field stands for. *)
Definition field_text (kwargs : gmap string pyval) (f : string) : res string :=
  let '(name, rest) :=
    break_at (fun c => Ascii.eqb c "[" || Ascii.eqb c ".") f in
  if all_digits name then Err IndexError
  else
    match kwargs !! name with
    | None => Err (KeyError name)
    | Some v =>
        match accessors (String.length f) v rest with
        | Err e => Err e
        | Ok x =>
            match str_of x with
            | Some t => Ok t
            | None => Err (Unmodelled "text of a container")
            end
        end
    end.

(** The pieces are turned into text one after the other; the first piece
    that fails decides the exception. *)
Fixpoint render (kwargs : gmap string pyval) (ps : list piece) : res string :=
  match ps with
  | [] => Ok EmptyString
  | p :: rest =>
      match (match p with
             | Lit c => Ok (String c EmptyString)
             | Field f => field_text kwargs f
             | Bad e => Err e
             end) with
      | Err e => Err e
      | Ok t =>
          match render kwargs rest with
          | Ok u => Ok (t ++ u)
          | Err e => Err e
          end
      end
  end.

(** [template.format] applied to the keyword arguments [kwargs]. *)
Definition format (template : string) (kwargs : gmap string pyval)
    : res string :=
  render kwargs (pieces Text template).

(** Is [c] one of the digits of a lowercase hexadecimal number? *)
Definition is_hex (c : ascii) : bool :=
  existsb (Ascii.eqb c) (list_ascii_of_string "0123456789abcdef").

(** [s.endswith(suffix)]. *)
Definition endswith (suffix s : string) : bool :=
  (String.length suffix <=? String.length s)%nat
  && String.eqb suffix
       (String.substring (String.length s - String.length suffix)
          (String.length suffix) s).

End Py.

(** ** MD5 (RFC 1321), as [hashlib.md5(data).hexdigest()] computes it *)

Module MD5.

Definition mask32 (x : Z) : Z := Z.land x 0xffffffff.
Definition add32 (x y : Z) : Z := mask32 (x + y).
Definition not32 (x : Z) : Z := Z.lxor x 0xffffffff.
Definition rotl32 (x c : Z) : Z :=
  mask32 (Z.lor (Z.shiftl x c) (Z.shiftr x (32 - c))).

Definition S : list Z :=
  [ 7; 12; 17; 22; 7; 12; 17; 22; 7; 12; 17; 22; 7; 12; 17; 22;
    5; 9; 14; 20; 5; 9; 14; 20; 5; 9; 14; 20; 5; 9; 14; 20;
    4; 11; 16; 23; 4; 11; 16; 23; 4; 11; 16; 23; 4; 11; 16; 23;
    6; 10; 15; 21; 6; 10; 15; 21; 6; 10; 15; 21; 6; 10; 15; 21 ].

Definition K : list Z :=
  [ 0xd76aa478; 0xe8c7b756; 0x242070db; 0xc1bdceee; 0xf57c0faf; 0x4787c62a; 0xa8304613; 0xfd469501;
    0x698098d8; 0x8b44f7af; 0xffff5bb1; 0x895cd7be; 0x6b901122; 0xfd987193; 0xa679438e; 0x49b40821;
    0xf61e2562; 0xc040b340; 0x265e5a51; 0xe9b6c7aa; 0xd62f105d; 0x02441453; 0xd8a1e681; 0xe7d3fbc8;
    0x21e1cde6; 0xc33707d6; 0xf4d50d87; 0x455a14ed; 0xa9e3e905; 0xfcefa3f8; 0x676f02d9; 0x8d2a4c8a;
    0xfffa3942; 0x8771f681; 0x6d9d6122; 0xfde5380c; 0xa4beea44; 0x4bdecfa9; 0xf6bb4b60; 0xbebfbc70;
    0x289b7ec6; 0xeaa127fa; 0xd4ef3085; 0x04881d05; 0xd9d4d039; 0xe6db99e5; 0x1fa27cf8; 0xc4ac5665;
    0xf4292244; 0x432aff97; 0xab9423a7; 0xfc93a039; 0x655b59c3; 0x8f0ccc92; 0xffeff47d; 0x85845dd1;
    0x6fa87e4f; 0xfe2ce6e0; 0xa3014314; 0x4e0811a1; 0xf7537e82; 0xbd3af235; 0x2ad7d2bb; 0xeb86d391 ].

Definition bytes_of_string (s : string) : list Z :=
  List.map (fun c => Z.of_nat (nat_of_ascii c)) (list_ascii_of_string s).

(** Little-endian bytes of the low [8 * n] bits of [x]. *)
Fixpoint le_bytes (n : nat) (x : Z) : list Z :=
  match n with
  | O => []
  | Datatypes.S n' => Z.land x 0xff :: le_bytes n' (Z.shiftr x 8)
  end.

Fixpoint le_word (bs : list Z) : Z :=
  match bs with
  | [] => 0
  | b :: r => Z.lor b (Z.shiftl (le_word r) 8)
  end.

(** Message padding: a 0x80 byte, zeros up to 56 modulo 64, then the bit
    length on 64 bits. *)
Definition pad (msg : list Z) : list Z :=
  let len := Z.of_nat (List.length msg) in
  let zeros := Z.to_nat ((55 - len) mod 64) in
  (msg ++ 0x80 :: List.repeat 0 zeros ++ le_bytes 8 (8 * len))%list.

(** Cut a list into consecutive pieces of [n] elements; [fuel] bounds the
    number of pieces. *)
Fixpoint chunks {A} (fuel n : nat) (l : list A) : list (list A) :=
  match fuel with
  | O => []
  | Datatypes.S fuel' =>
      match l with
      | [] => []
      | _ => List.firstn n l :: chunks fuel' n (List.skipn n l)
      end
  end.

Definition words (block : list Z) : list Z :=
  List.map le_word (chunks 16 4 block).

Record state := St { sa : Z; sb : Z; sc : Z; sd : Z }.

Definition init : state :=
  St 0x67452301 0xefcdab89 0x98badcfe 0x10325476.

Definition step (M : list Z) (st : state) (i : nat) : state :=
  let '(St A B C D) := st in
  let iz := Z.of_nat i in
  let '(F, g) :=
    if iz <? 16 then (Z.lor (Z.land B C) (Z.land (not32 B) D), iz)
    else if iz <? 32 then (Z.lor (Z.land D B) (Z.land (not32 D) C), (5 * iz + 1) mod 16)
    else if iz <? 48 then (Z.lxor (Z.lxor B C) D, (3 * iz + 5) mod 16)
    else (Z.lxor C (Z.lor B (not32 D)), (7 * iz) mod 16) in
  let F' := add32 (add32 (add32 F A) (List.nth i K 0)) (List.nth (Z.to_nat g) M 0) in
  St D (add32 B (rotl32 F' (List.nth i S 0))) B C.

Definition compress (st : state) (block : list Z) : state :=
  let M := words block in
  let '(St A B C D) := List.fold_left (step M) (List.seq 0 64) st in
  St (add32 (sa st) A) (add32 (sb st) B) (add32 (sc st) C) (add32 (sd st) D).

Definition digest (msg : list Z) : list Z :=
  let p := pad msg in
  let '(St A B C D) :=
    List.fold_left compress (chunks (List.length p) 64 p) init in
  (le_bytes 4 A ++ le_bytes 4 B ++ le_bytes 4 C ++ le_bytes 4 D)%list.

Definition hex_digit (n : Z) : ascii :=
  if n <? 10 then ascii_of_nat (Z.to_nat (48 + n))
  else ascii_of_nat (Z.to_nat (87 + n)).

Fixpoint hex (bs : list Z) : string :=
  match bs with
  | [] => EmptyString
  | b :: r => String (hex_digit (Z.shiftr b 4)) (String (hex_digit (Z.land b 0xf)) (hex r))
  end.

(** [md5(data).hexdigest()]: 32 lowercase hexadecimal digits. *)
Definition hexdigest (data : string) : string :=
  hex (digest (bytes_of_string data)).

End MD5.

(** ** edumfa/lib/tokens/mOTP.py *)

Module MOTP.
Import Py.

(** A secret object of the token: [getKey()] hands out the decrypted
    value. *)
Record SecretObj := { getKey : string }.

(** The fields that [mTimeOtp.__init__] stores. *)
Record mTimeOtp := {
  secretObject : option SecretObj;
  secPin : option SecretObj;
  key : option string;
  pin : option string;
  oldtime : Z;
  digits : Z
}.

(** [calcOtp]: the first [digits] hexadecimal digits of the MD5 of the
    decimal counter followed by key and pin. *)
Definition calcOtp (self : mTimeOtp) (counter : Z)
    (key0 pin0 : option string) : string :=
  let pin1 := match pin0 with None => pin self | Some _ => pin0 end in
  let key1 := match key0 with None => key self | Some _ => key0 end in
  let vhash := str_of_int counter ++ str_of_opt key1 ++ str_of_opt pin1 in
  slice_to (digits self) (MD5.hexdigest vhash).

(** Lines 104-109: the key and pin come from the object itself or from the
    two secret objects; [self.secPin.getKey()] on a missing [secPin] is an
    AttributeError. *)
Definition secrets (self : mTimeOtp) : res (option string * option string) :=
  match secretObject self with
  | None => Ok (key self, pin self)
  | Some so =>
      match secPin self with
      | Some sp => Ok (Some (getKey so), Some (getKey sp))
      | None => Err AttributeError
      end
  end.

(** Lines 95-102: the base time slice. [options] is the dict of the caller
    restricted to its integer entries, [clock] is [time.time()] in whole
    seconds. *)
Definition base_slice (options : option (gmap string Z)) (clock : Z) : Z :=
  let initTime :=
    match options with
    | Some o => default 0 (o !! "initTime")
    | None => 0
    end in
  if initTime =? 0 then clock / 10 else initTime.

(** Does slice [i] produce the submitted value? (lines 112-113) *)
Definition matches (self : mTimeOtp) (key0 pin0 : option string)
    (anOtpVal : string) (i : Z) : bool :=
  safe_compare anOtpVal (calcOtp self i key0 pin0).

(** The [for] loop of lines 111-116: [res] keeps its value until the first
    matching slice, which ends the loop. *)
Fixpoint scan (self : mTimeOtp) (key0 pin0 : option string)
    (anOtpVal : string) (slices : list Z) (res0 : Z) : Z :=
  match slices with
  | [] => res0
  | i :: rest =>
      if matches self key0 pin0 anOtpVal i then i
      else scan self key0 pin0 anOtpVal rest res0
  end.

(** [checkOtp], lines 80-134. *)
Definition checkOtp (self : mTimeOtp) (anOtpVal : string) (window : Z)
    (options : option (gmap string Z)) (clock : Z) : res Z :=
  let res0 := -1 in
  let window2 := window * 2 in
  let otime := base_slice options clock in
  match secrets self with
  | Err e => Err e
  | Ok (key0, pin0) =>
      let res1 :=
        scan self key0 pin0 anOtpVal
          (range (otime - window2) (otime + window2)) res0 in
      let res2 := if res1 <=? oldtime self then -1 else res1 in
      Ok res2
  end.


(** The object that [mTimeOtp(..., oldtime=t, ...)] builds from the same
    secrets and digits: what a caller that stores an accepted slice uses
    for the next check. *)
Definition with_oldtime (self : mTimeOtp) (t : Z) : mTimeOtp :=
  {| secretObject := secretObject self; secPin := secPin self;
     key := key self; pin := pin self; oldtime := t;
     digits := digits self |}.

End MOTP.

(** ** edumfa/lib/applications/luks.py *)

Module LUKS.
Import Py.

(** A token object as [get_tokens] returns it. [get_otp challenge
    do_truncation] is the method of the token class, which is not part of
    this module; it answers a 4-tuple or raises. *)
Record Token := {
  get_otp : string -> bool -> res (Z * string * string * string)
}.

(** The collaborators of the module: the random source and the token
    query. *)
Record env := {
  urandom : nat -> Z;
  get_tokens : string -> bool -> list Token
}.

(** What the call can change: the position in the random source and the
    log. *)
Record world := World { rng_pos : nat; log : list log_entry }.

(** [geturandom(n)]: the next [n] bytes of the random source. *)
Definition geturandom (E : env) (n : nat) : M world (list Z) :=
  fun w =>
    Return (List.map (urandom E) (List.seq (rng_pos w) n))
           (World (rng_pos w + n) (log w)).

Definition hexlify_and_unicode (bs : list Z) : string := MD5.hex bs.

Definition log_info (f : string) (a : list string) : M world unit :=
  modify (fun w => World (rng_pos w) (log w ++ [Log INFO f a])%list).

(** [MachineApplication.get_authentication_item], lines 44-82. *)
Definition get_authentication_item (E : env) (token_type serial : string)
    (challenge : option string) : M world (gmap string string) :=
  let ret : gmap string string := ∅ in
  if String.eqb (lower token_type) "totp" && startswith "UBOM" serial then
    challenge_hex ←
      match challenge with
      | None =>
          c ← geturandom E 32;
          mret (hexlify_and_unicode c)
      | Some c => mret c
      end;
    let ret := <["challenge" := challenge_hex]> ret in
    let toks := get_tokens E serial true in
    if Nat.eqb (List.length toks) 1 then
      match toks with
      | t :: _ =>
          '(_, _, otp, _) ← lift_res (get_otp t challenge_hex false);
          mret (<["response" := otp]> ret)
      | [] => raise IndexError
      end
    else mret ret
  else
    log_info
      "Token {serial!r}, type {token_type!r} is not supported by LUKS application module"
      [serial; token_type];;
    mret ret.

(** The challenge that ends up in the result: the caller's, or 32 fresh
    random bytes in hexadecimal. *)
Definition challenge_hex_of (E : env) (challenge : option string)
    (w : world) : string :=
  match challenge with
  | Some c => c
  | None => hexlify_and_unicode
              (List.map (urandom E) (List.seq (rng_pos w) 32))
  end.

End LUKS.

(** ** edumfa/lib/applications/base.py *)

Module Applications.
Import Py.

(** A [MachineApplication] class of an application module: its name, its
    bulk-call flag and its two static methods. The handlers run in the
    world of the LUKS handler (random source and log). *)
Record AppClass := {
  application_name : string;
  allow_bulk_call : bool;
  get_authentication_item :
    string -> string -> option string -> gmap string pyval -> pyval ->
    M LUKS.world pyval;
  get_options : res pyval
}.

(** The collaborators: [os.listdir] of the package directory and
    [import_module(name).MachineApplication], which answers the class or
    raises. *)
Record env := {
  listdir : list string;
  import_module : string -> res AppClass
}.

Definition package : string := "edumfa.lib.applications.".

(** [f.split(".")[0]]. *)
Definition first_part (f : string) : string :=
  fst (break_at (Ascii.eqb ".") f).

(** [get_machine_application_class_list], lines 33-50. *)
Definition get_machine_application_class_list (E : env) : list string :=
  let files := listdir E in
  let modules :=
    List.map first_part
      (List.filter
         (fun f => endswith ".py" f && negb (String.eqb f "__init__.py"))
         files) in
  List.map (fun module => package ++ module ++ ".MachineApplication") modules.

(** [".".join(long_class_name.split(".")[:-1])]: the name without its last
    part; the empty string for a name without a dot. *)
Definition module_name_of (long_class_name : string) : string :=
  match rsplit1 "." long_class_name with
  | Some (a, _) => a
  | None => EmptyString
  end.

(** The loop of [get_machine_application_class_dict], lines 64-73: a later
    class takes the place of an earlier one of the same name, and an import
    that raises ends the loop. *)
Fixpoint class_dict_loop (E : env) (long_class_names : list string)
    (ret : gmap string AppClass) : res (gmap string AppClass) :=
  match long_class_names with
  | [] => Ok ret
  | long_class_name :: rest =>
      match import_module E (module_name_of long_class_name) with
      | Err e => Err e
      | Ok auth_class =>
          class_dict_loop E rest (<[application_name auth_class := auth_class]> ret)
      end
  end.

(** [get_machine_application_class_dict], lines 53-74. *)
Definition get_machine_application_class_dict (E : env)
    : res (gmap string AppClass) :=
  class_dict_loop E (get_machine_application_class_list E) ∅.

(** [get_auth_item], lines 117-133: [class_dict.get(application)] is [None]
    for an unknown application, and the method call on it an
    AttributeError. *)
Definition get_auth_item (E : env) (application token_type serial : string)
    (challenge : option string) (options : option (gmap string pyval))
    (filter_param : pyval) : M LUKS.world pyval :=
  let options := default ∅ options in
  class_dict ← lift_res (get_machine_application_class_dict E);
  match class_dict !! application with
  | Some auth_class =>
      get_authentication_item auth_class token_type serial challenge
        options filter_param
  | None => raise AttributeError
  end.

(** [is_application_allow_bulk_call], lines 136-140. *)
Definition is_application_allow_bulk_call (E : env)
    (application_module : string) : res bool :=
  match import_module E application_module with
  | Ok auth_class => Ok (allow_bulk_call auth_class)
  | Err e => Err e
  end.

(** The loop of [get_application_types], lines 164-175: a module that
    cannot be imported, or whose [get_options] raises, is logged and
    skipped. *)
Fixpoint types_loop (E : env) (files : list string) (ret : gmap string pyval)
    : M LUKS.world (gmap string pyval) :=
  match files with
  | [] => mret ret
  | f :: rest =>
      if negb (String.eqb f "base" || String.eqb f "__init__") then
        match (match import_module E (package ++ f) with
               | Err e => Err e
               | Ok c =>
                   match get_options c with
                   | Err e => Err e
                   | Ok options => Ok (application_name c, options)
                   end
               end) with
        | Ok (name, options) =>
            types_loop E rest (<[name := PDict {[ "options" := options ]}]> ret)
        | Err exx =>
            LUKS.log_info "Can not get application type: {exx!s}" [];;
            types_loop E rest ret
        end
      else types_loop E rest ret
  end.

(** [get_application_types], lines 143-177; the names that [os.listdir]
    answers have no directory part, [os.path.basename] keeps them. *)
Definition get_application_types (E : env) : M LUKS.world (gmap string pyval) :=
  let files :=
    List.map (slice_to (-3))
      (List.filter (fun f => endswith ".py" f) (listdir E)) in
  types_loop E files ∅.

(** The class of base.py, lines 77-114; [TYPE.BOOL] and [TYPE.STRING] of
    edumfa.lib.policy are parameters. *)
Definition base_class (TYPE_BOOL TYPE_STRING : pyval) : AppClass :=
  {| application_name := "base";
     allow_bulk_call := false;
     get_authentication_item := fun _ _ _ _ _ => mret (PStr "nothing");
     get_options :=
       Ok (PDict
             {[ "optionA" := PDict {[ "type" := TYPE_BOOL;
                                      "required" := PBool true ]};
                "optionB" := PDict {[ "type" := TYPE_STRING;
                                      "value" := PList [PStr "val1";
                                                        PStr "val2"] ]} ]}) |}.

(** The class of luks.py; its bulk-call flag comes from
    [MachineApplicationBase], which is not among the sources, and is a
    parameter, as are [TYPE.INT] and [TYPE.STRING]. *)
Definition luks_class (L : LUKS.env) (bulk : bool)
    (TYPE_INT TYPE_STRING : pyval) : AppClass :=
  {| application_name := "luks";
     allow_bulk_call := bulk;
     get_authentication_item := fun token_type serial challenge _ _ =>
       ret ← LUKS.get_authentication_item L token_type serial challenge;
       mret (PDict (PStr <$> ret));
     get_options :=
       Ok (PDict
             {[ "slot" := PDict {[ "type" := TYPE_INT;
                                   "value" := PList (List.map PInt
                                                [0; 1; 2; 3; 4; 5; 6; 7]) ]};
                "partition" := PDict {[ "type" := TYPE_STRING ]} ]}) |}.

End Applications.

(** ** edumfa/lib/eventhandler/federationhandler.py *)

Module Federation.
Import Py.

(** [pi_server.config]. *)
Record Server := { url : string; tls : bool }.

(** The flask request, without its payload: [request.all_data] is a dict
    that the handler writes to, it lives in the world. *)
Record Request := {
  path : string;
  method : string;
  headers : gmap string string
}.

(** One call of [requests.get], [requests.post] or [requests.delete]. *)
Inductive verb : Type := GET | POST | DELETE.
Record HttpCall := {
  requestor : verb;
  call_url : string;
  params : option (gmap string pyval);
  data : option (gmap string pyval);
  call_headers : gmap string (option string);
  verify : bool
}.

(** The answer [r] of the remote server. *)
Record HttpResponse := { text : string; status_code : Z }.

(** [current_app.response_class(body, mimetype=...)] with its status. *)
Record Response := {
  body : string;
  mimetype : string;
  response_status : Z
}.

(** The collaborators: the server table, the network, the JSON codec and
    [is_true] of edumfa.lib.utils. *)
Record env := {
  get_edumfaserver : pyval -> res Server;
  send : HttpCall -> res HttpResponse;
  json_loads : string -> res pyval;
  json_dumps : pyval -> string;
  is_true : pyval -> bool
}.

(** The entries of [options] that [do] reads: [g.client_ip], the request
    and [handler_def["options"]] ([{}] when absent). *)
Record options := {
  g_client_ip : pyval;
  request : Request;
  handler_options : gmap string pyval
}.

(** What [do] can change: the payload dict of the request,
    [options["response"]], the calls that went out, the log. *)
Record world := World {
  all_data : gmap string pyval;
  response : Response;
  calls : list HttpCall;
  log : list log_entry
}.

Definition set_data (k : string) (v : pyval) : M world unit :=
  modify (fun w => World (<[k := v]> (all_data w)) (response w)
                         (calls w) (log w)).

Definition set_response (r : Response) : M world unit :=
  modify (fun w => World (all_data w) r (calls w) (log w)).

Definition write_log (l : level) (f : string) (a : list string)
    : M world unit :=
  modify (fun w => World (all_data w) (response w) (calls w)
                         (log w ++ [Log l f a])%list).

(** The call leaves the process, then the network answers or raises. *)
Definition perform (E : env) (c : HttpCall) : M world HttpResponse :=
  modify (fun w => World (all_data w) (response w) (calls w ++ [c])%list
                         (log w));;
  lift_res (send E c).

(** [when c m]: [if c: m]. *)
Definition when {S} (c : bool) (m : M S unit) : M S unit :=
  if c then m else mret tt.

(** Lines 151-158: the requestor chosen for a method and whether the payload
    travels as query parameters. *)
Definition choose_requestor (method0 : string) : option verb :=
  if String.eqb (upper method0) "GET" then Some GET
  else if String.eqb (upper method0) "POST" then Some POST
  else if String.eqb (upper method0) "DELETE" then Some DELETE
  else None.

(** ["detail" in response_dict], for whatever JSON value came back. *)
Definition has_detail (v : pyval) : res bool :=
  match v with
  | PDict d => Ok (bool_decide (is_Some (d !! "detail")))
  | PList l =>
      Ok (existsb (fun x => match x with
                            | PStr s => String.eqb s "detail"
                            | _ => false
                            end) l)
  | PStr s => Ok (match String.index 0 "detail" s with
                  | Some _ => true
                  | None => false
                  end)
  | _ => Err TypeError
  end.

(** Lines 166-169: [setdefault] finds the present detail and
    [detail["origin"] = url] writes into it; only a dict takes the item. *)
Definition add_origin (v : pyval) (url0 : string) : res pyval :=
  match has_detail v with
  | Err e => Err e
  | Ok false => Ok v
  | Ok true =>
      match v with
      | PDict d =>
          match d !! "detail" with
          | Some (PDict detail) =>
              Ok (PDict (<["detail" := PDict (<["origin" := PStr url0]> detail)]> d))
          | _ => Err TypeError
          end
      | _ => Err AttributeError
      end
  end.

(** [FederationEventHandler.do], lines 108-180. *)
Definition do (E : env) (action : string) (o : options) : M world bool :=
  let hopts := handler_options o in
  (if String.eqb action "forward" then
     let server_def := dict_get hopts "eduMFA" in
     pi_server ← lift_res (get_edumfaserver E server_def);
     let url0 := url pi_server ++ path (request o) in
     let method0 := method (request o) in
     let tls0 := tls pi_server in
     when (is_true E (dict_get_default hopts "forward_client_ip" (PBool false)))
          (set_data "client" (g_client_ip o));;
     when (truthy (dict_get hopts "realm"))
          (set_data "realm" (dict_get hopts "realm"));;
     when (truthy (dict_get hopts "resolver"))
          (set_data "resolver" (dict_get hopts "resolver"));;
     write_log INFO "Sending {method} request to {url!r}" [method0; url0];;
     let headers0 : gmap string (option string) :=
       if is_true E (dict_get_default hopts "forward_authorization_token"
                       (PBool false))
       then {[ "Authorization" := headers (request o) !! "Authorization" ]}
       else ∅ in
     w ← get_state;
     let payload := all_data w in
     match choose_requestor method0 with
     | Some v =>
         let '(params0, data0) :=
           match v with
           | GET => (Some payload, None)
           | _ => (None, Some payload)
           end in
         r ← perform E (Build_HttpCall v url0 params0 data0 headers0 tls0);
         response_dict ← lift_res (json_loads E (text r));
         response_dict ← lift_res (add_origin response_dict url0);
         set_response (Build_Response (json_dumps E response_dict)
                         "application/json" 200);;
         w ← get_state;
         set_response (Build_Response (body (response w))
                         (mimetype (response w)) (status_code r))
     | None =>
         write_log WARNING "Unsupported method: {method!r}" [method0]
     end
   else mret tt);;
  mret true.

(** The payload as [do] sends it: the request data with the entries that
    the handler options add. *)
Definition forwarded_payload (E : env) (o : options)
    (d : gmap string pyval) : gmap string pyval :=
  let hopts := handler_options o in
  let d1 := if is_true E (dict_get_default hopts "forward_client_ip" (PBool false))
            then <["client" := g_client_ip o]> d else d in
  let d2 := if truthy (dict_get hopts "realm")
            then <["realm" := dict_get hopts "realm"]> d1 else d1 in
  if truthy (dict_get hopts "resolver")
  then <["resolver" := dict_get hopts "resolver"]> d2 else d2.

(** The headers as [do] sends them: the caller's Authorization header when
    the handler is told to forward it, none otherwise. *)
Definition forwarded_headers (E : env) (o : options)
    : gmap string (option string) :=
  if is_true E (dict_get_default (handler_options o)
                  "forward_authorization_token" (PBool false))
  then {[ "Authorization" := headers (request o) !! "Authorization" ]}
  else ∅.

(** The address of the relayed call, line 128. *)
Definition relay_url (srv : Server) (o : options) : string :=
  url srv ++ path (request o).

(** The call that [do] hands to the requestor [v], line 161: the payload
    travels as [params] for [requests.get] and as [data] for the other
    two. *)
Definition relay_call (E : env) (o : options) (srv : Server) (v : verb)
    (payload : gmap string pyval) : HttpCall :=
  {| requestor := v;
     call_url := relay_url srv o;
     params := match v with GET => Some payload | _ => None end;
     data := match v with GET => None | _ => Some payload end;
     call_headers := forwarded_headers E o;
     verify := tls srv |}.

(** The world in which [do] reaches the choice of the requestor: the
    payload dict has its additions and the call is announced in the log. *)
Definition before_relay (E : env) (o : options) (srv : Server) (w : world)
    : world :=
  World (forwarded_payload E o (all_data w)) (response w) (calls w)
    (log w ++ [Log INFO "Sending {method} request to {url!r}"
                 [method (request o); relay_url srv o]])%list.

End Federation.

(** ** edumfa/lib/tokens/smstoken.py *)

Module SMS.
Import Py.

(** A user object: its login, its [info] dict, what
    [get_user_phone("mobile")] answers and its truth value [bool(user)]. *)
Record User := {
  login : pyval;
  info : gmap string pyval;
  mobile : pyval;
  nonempty : bool
}.

(** The policy side of the flask [g] object: for an action and a user, the
    values that [Match.user(...).action_values(...)] yields and the number
    of policies that [Match.user(...).policies()] lists. *)
Record G := {
  action_values : string -> option User -> list string;
  policies : string -> option User -> nat
}.

(** The [options] dict of a request: the two objects it carries and its
    plain entries ("session", "challenge", "exception", "data",
    "smstoken_post_check"). [None] and [{}] are the record without user,
    without g and with no entry. *)
Record options := {
  user : option User;
  g : option G;
  vals : gmap string pyval
}.

(** An SMS provider instance. *)
Record Provider := {
  send_to_uid : bool;
  option_dict : gmap string pyval;
  provider_config : gmap string pyval;
  submit_message : pyval -> string -> res bool;
  submit_post_check : pyval -> string -> res bool
}.

(** The token [self], apart from its counter. *)
Record Token := {
  serial : string;
  active : bool;
  locked : bool;
  tokeninfo : gmap string pyval;
  owner : option User
}.

(** A row of the challenge table. *)
Record Challenge := {
  ch_serial : string;
  ch_transaction_id : pyval;
  ch_challenge : pyval;
  ch_data : pyval;
  ch_session : pyval;
  ch_validitytime : Z
}.

(** A message handed to the gateway. *)
Record Sms := { post_check : bool; destination : pyval; sms_text : string }.

(** What the calls can change: the OTP counter of the token, the challenge
    table, the messages handed to the gateway, the log. *)
Record world := World {
  count : Z;
  db : list Challenge;
  outbox : list Sms;
  log : list log_entry
}.

(** The collaborators that are not among the sources. *)
Record env := {
  (* get_from_config: the system configuration *)
  config : gmap string pyval;
  (* edumfa.lib.utils.is_true *)
  is_true : pyval -> bool;
  (* the builtin int() *)
  py_int : pyval -> res Z;
  (* json.loads *)
  loads : string -> res pyval;
  (* HotpTokenClass.get_otp()[2]: the OTP value at a counter *)
  hotp : Z -> string;
  (* get_otp()[2] as line 354 calls it once more after the sending has
     returned: the value at a counter, or the exception of the call *)
  get_otp_data : Z -> res string;
  (* Challenge(...) and db_challenge.save() of lines 355-363: what the
     database layer answers for a row *)
  db_save : Challenge -> res unit;
  (* HotpTokenClass.check_otp: token, counter, value, counter and window
     arguments *)
  hotp_check_otp : Token -> Z -> string -> pyval -> pyval -> Z;
  (* get_action_values_from_options(SCOPE.AUTH, "sms_challenge_text", _) *)
  challenge_text : options -> pyval;
  (* edumfa.lib.utils.create_tag_dict(serial, tokenowner, tokentype,
     recipient, challenge) *)
  create_tag_dict :
    string -> option User -> string -> gmap string pyval -> pyval ->
    gmap string pyval;
  (* edumfa.lib.smsprovider: the gateway of an identifier, and the provider
     class of the old configuration style with its load_config *)
  create_sms_instance : pyval -> res Provider;
  get_sms_provider_class : string -> string -> res Provider;
  load_config : Provider -> pyval -> res Provider;
  (* CHALLENGE_SESSION.ENROLLMENT *)
  ENROLLMENT : string;
  (* Challenge.create_transaction_id, for a table of the given size *)
  create_transaction_id : nat -> string;
  (* str(datetime.now() + timedelta(seconds=validity)); the sum raises
     OverflowError when the date is out of range *)
  expiry_text : Z -> res string
}.

Definition get_from_config (E : env) (k : string) (dflt : pyval) : pyval :=
  dict_get_default (config E) k dflt.

Definition get_tokeninfo (self : Token) (k : string) : pyval :=
  dict_get (tokeninfo self) k.

Definition write_log (l : level) (f : string) (a : list string)
    : M world unit :=
  modify (fun w => World (count w) (db w) (outbox w)
                         (log w ++ [Log l f a])%list).

(** [get_otp()[2]]: the OTP value at the counter of the token. *)
Definition get_otp (E : env) : M world string :=
  w ← get_state; mret (hotp E (count w)).

Definition get_otp_count : M world Z :=
  w ← get_state; mret (count w).

(** Modelled from the spec: [inc_otp_counter] of the token base class is not
    among the sources; the stored counter advances to the given value
    plus one. *)
Definition inc_otp_counter (counter : Z) : M world unit :=
  modify (fun w => World (counter + 1) (db w) (outbox w) (log w)).

(** Modelled from the spec: the [Challenge] model and its [save] are not
    among the sources; creating a challenge generates a transaction
    identifier if none is supplied, and saving adds the row to the table.
    The database may refuse ([db_save]): the exception leaves the call and
    no row is added. *)
Definition save_challenge (E : env) (serial0 : string)
    (transaction_id challenge0 data0 session0 : pyval) (validity : Z)
    : M world Challenge :=
  w ← get_state;
  let tid := py_or transaction_id
               (PStr (create_transaction_id E (List.length (db w)))) in
  let row := Build_Challenge serial0 tid challenge0 data0 session0 validity in
  lift_res (db_save E row);;
  modify (fun w => World (count w) (db w ++ [row])%list (outbox w) (log w));;
  mret row.

(** The provider is called: the message leaves, then the gateway answers
    or raises. *)
Definition submit (sms : Provider) (post : bool) (dest : pyval)
    (message : string) : M world bool :=
  modify (fun w => World (count w) (db w)
                         (outbox w ++ [Build_Sms post dest message])%list
                         (log w));;
  lift_res (if post then submit_post_check sms dest message
            else submit_message sms dest message).

(** [options.get("user")] in a condition. *)
Definition user_true (u : option User) : bool :=
  match u with Some x => nonempty x | None => false end.

(** [_get_sms_provider], lines 518-532. *)
Definition _get_sms_provider (E : env) : res (string * string) :=
  match get_from_config E "sms.provider"
          (PStr "edumfa.lib.smsprovider.HttpSMSProvider.HttpSMSProvider") with
  | PStr smsProvider =>
      match rsplit1 "." smsProvider with
      | Some p => Ok p
      | None => Err (ValueError "not enough values to unpack")
      end
  | _ => Err AttributeError
  end.

(** [_get_sms_provider_config], lines 534-545. *)
Definition _get_sms_provider_config (E : env) : res pyval :=
  match get_from_config E "sms.providerConfig" (PStr "{}") with
  | PStr tConfig => loads E tConfig
  | _ => Err TypeError
  end.

(** [_get_sms_timeout], lines 547-561. *)
Definition _get_sms_timeout (E : env) : Z :=
  match py_int E (get_from_config E "sms.providerTimeout" (PInt (5 * 60))) with
  | Ok timeout => timeout
  | Err _ => 5 * 60
  end.

(** [_get_sms_text], lines 563-597. *)
Definition _get_sms_text (o : options) : string :=
  let message := "<otp>" in
  let user_object := user o in
  match g o with
  | Some g0 =>
      let messages :=
        action_values g0
          (if truthy (dict_get (vals o) "smstoken_post_check")
           then "smspostchecktext" else "smstext")
          (if user_true user_object then user_object else None) in
      match messages with
      | [m] => m
      | _ => message
      end
  | None => message
  end.

(** [_get_auto_sms], lines 599-618. *)
Definition _get_auto_sms (o : options) : bool :=
  match g o with
  | Some g0 => (1 <=? policies g0 "smsautosend" (user o))%nat
  | None => false
  end.

(** Lines 439-442: the [recipient] argument of [create_tag_dict]. *)
Definition recipient_of (User : option User) : gmap string pyval :=
  {[ "givenname" :=
       if user_true User
       then match User with
            | Some u => dict_get (info u) "givenname"
            | None => PNone
            end
       else PStr "";
     "surname" :=
       if user_true User
       then match User with
            | Some u => dict_get (info u) "surname"
            | None => PNone
            end
       else PStr "" ]}.

(** Lines 435-444: the tags of a message. *)
Definition tags_of (E : env) (serial0 : string) (o : options)
    : gmap string pyval :=
  create_tag_dict E serial0 (user o) "sms" (recipient_of (user o))
    (dict_get (vals o) "challenge").

(** Lines 428-445 of [_send_sms]: the two legacy placeholders are replaced,
    then the tags are formatted in; a tag named "otp" would clash with the
    keyword [otp=otp]. *)
Definition render_message (E : env) (message otp serial0 : string)
    (o : options) : res string :=
  let message := replace "<otp>" otp message in
  let message := replace "<serial>" serial0 message in
  let tags := tags_of E serial0 o in
  match tags !! "otp" with
  | Some _ => Err TypeError
  | None => format message (<["otp" := PStr otp]> tags)
  end.

(** Lines 447-478 of [_send_sms]: the provider, from the gateway identifier
    or from the old configuration entries. *)
Definition get_provider (E : env) (self : Token) (ident : pyval)
    : M world Provider :=
  if truthy ident then lift_res (create_sms_instance E ident)
  else
    '(SMSProvider, SMSProviderClass) ← lift_res (_get_sms_provider E);
    write_log DEBUG "smsprovider: {SMSProvider!s}, class: {SMSProviderClass!s}"
      [SMSProvider; SMSProviderClass];;
    sms ← try_except
            (lift_res (get_sms_provider_class E SMSProvider SMSProviderClass))
            (fun exc =>
               write_log ERROR "Failed to load SMSProvider: {exc!r}" [];;
               write_log DEBUG "{traceback.format_exc()!s}" [];;
               raise exc);
    try_except
      (write_log DEBUG "loading SMS configuration for class {sms!s}" [];;
       config0 ← lift_res (_get_sms_provider_config E);
       write_log DEBUG "config: {config!r}" [];;
       lift_res (load_config E sms config0))
      (fun exc =>
         write_log ERROR "Failed to load sms.providerConfig: {exc!r}" [];;
         write_log DEBUG "{traceback.format_exc()!s}" [];;
         raise (Exception_ "Failed to load sms.providerConfig: {exc!r}")).

(** Lines 480-508 of [_send_sms]: where the message goes. *)
Definition get_destination (E : env) (self : Token) (o : options)
    (ident : pyval) (sms : Provider) : M world pyval :=
  if send_to_uid sms then
    let uid := PNone in
    let uid := match user o with
               | Some u => if nonempty u then login u else uid
               | None => uid
               end in
    let uid :=
      if negb (truthy uid) then
        let uid_attribute_name :=
          if truthy ident
          then dict_get (option_dict sms) "UID_TOKENINFO_ATTRIBUTE"
          else dict_get (provider_config sms) "UID_TOKENINFO_ATTRIBUTE" in
        if truthy uid_attribute_name then
          match uid_attribute_name with
          | PStr a => get_tokeninfo self a
          | _ => PNone
          end
        else uid
      else uid in
    (if negb (truthy uid)
     then write_log WARNING "Token {self.token.serial!s} does not have a uid!"
            [serial self]
     else mret tt);;
    mret uid
  else
    phone ←
      (if is_true E (get_tokeninfo self "dynamic_phone") then
         match owner self with
         | None => raise AttributeError
         | Some u =>
             match mobile u with
             | PList (first :: _) => mret first
             | phone => mret phone
             end
         end
       else mret (get_tokeninfo self "phone"));
    (if negb (truthy phone)
     then write_log WARNING
            "Token {self.token.serial!s} does not have a phone number!"
            [serial self]
     else mret tt);;
    mret phone.

(** [_send_sms], lines 413-516. *)
Definition _send_sms (E : env) (self : Token) (message : string)
    (o : options) : M world (bool * string) :=
  otp ← get_otp E;
  let serial0 := serial self in
  write_log DEBUG "sending SMS with template text: {0!s}" [message];;
  message ← lift_res (render_message E message otp serial0 o);
  let sms_gateway_identifier :=
    py_or (get_tokeninfo self "sms.identifier")
          (get_from_config E "sms.identifier" PNone) in
  sms ← get_provider E self sms_gateway_identifier;
  dest ← get_destination E self o sms_gateway_identifier sms;
  let post := truthy (dict_get (vals o) "smstoken_post_check") in
  write_log DEBUG
    (if post then "submitPostCheck: {message!r}, to {destination!r}"
     else "submitMessage: {message!r}, to {destination!r}") [message];;
  ret ← submit sms post dest message;
  mret (ret, message).

Definition info_not_sent : string :=
  "The PIN was correct, but the SMS could not be sent!".

(** The reply dict of [create_challenge]. *)
Definition reply_dict (transactionid : pyval) (valid_until : string)
    : gmap string pyval :=
  {[ "attributes" :=
       PDict {[ "state" := transactionid;
                "valid_until" := PStr valid_until ]} ]}.

(** The [try] of [create_challenge] runs on the world and on the local
    variable [success]: an exception reaches the handler with the value
    that [success] holds at that moment. *)
Definition local : Type := world * bool.

(** A call on the world, made where the local variable is in scope. *)
Definition lift_w {A} (m : M world A) : M local A :=
  fun s =>
    match m (fst s) with
    | Return a w' => Return a (w', snd s)
    | Raise e w' => Raise e (w', snd s)
    end.

Definition set_success (b : bool) : M local unit :=
  modify (fun s => (fst s, b)).

Definition get_success : M local bool :=
  s ← get_state; mret (snd s).

(** The scope of the local variable, which starts at [b0]. *)
Definition with_success {A} (b0 : bool) (m : M local A) : M world A :=
  fun w =>
    match m (w, b0) with
    | Return a s => Return a (fst s)
    | Raise e s => Raise e (fst s)
    end.

(** [get_otp()[2]] of line 354. *)
Definition get_otp_again (E : env) : M world string :=
  w ← get_state; lift_res (get_otp_data E (count w)).

(** Lines 343-364: the body of the [try] of [create_challenge]; its value
    is the new [transactionid]. *)
Definition challenge_body (E : env) (self : Token) (transactionid : pyval)
    (o : options) (counter validity : Z) : M local pyval :=
  let data := PNone in
  data ←
    (if negb (match dict_get (vals o) "session" with
              | PStr s => String.eqb s (ENROLLMENT E)
              | _ => false
              end)
     then
       lift_w (inc_otp_counter counter);;
       let message_template := _get_sms_text o in
       '(success, sent_message) ←
         lift_w (_send_sms E self message_template o);
       set_success success;;
       (if is_true E (get_from_config E "sms.concurrent_challenges" PNone)
        then otp ← lift_w (get_otp_again E); mret (PStr otp)
        else mret data)
     else mret data);
  db_challenge ←
    lift_w (save_challenge E (serial self) transactionid
              (dict_get (vals o) "challenge") data
              (dict_get (vals o) "session") validity);
  mret (py_or transactionid (ch_transaction_id db_challenge)).

(** [create_challenge], lines 311-376. *)
Definition create_challenge (E : env) (self : Token) (transactionid : pyval)
    (o : options)
    : M world (bool * pyval * pyval * gmap string pyval) :=
  let success := false in
  let return_message :=
    py_or (challenge_text E o) (PStr "Enter the OTP from the SMS:") in
  let state0 := transactionid in
  let validity := _get_sms_timeout E in
  '(success, return_message, transactionid) ←
    (if active self then
       counter ← get_otp_count;
       write_log DEBUG "counter={counter!r}" [str_of_int counter];;
       with_success success
         (try_except
            (transactionid ←
               challenge_body E self transactionid o counter validity;
             success ← get_success;
             mret (success, return_message, transactionid))
            (fun e =>
               let info0 := info_not_sent in
               lift_w (write_log WARNING (info0 ++ " ({e!r})") []);;
               lift_w (write_log DEBUG "{traceback.format_exc()!s}" []);;
               let return_message := PStr info0 in
               (if is_true E (dict_get (vals o) "exception")
                then raise (Exception_ info0)
                else mret tt);;
               success ← get_success;
               mret (success, return_message, transactionid)))
     else mret (success, return_message, transactionid));
  valid_until ← lift_res (expiry_text E validity);
  mret (success, return_message, transactionid,
        reply_dict state0 valid_until).

(** The comparison of line 394; [safe_compare] is given the stored data and
    the submitted value. What it does with a value other than a string is
    not known here. *)
Definition compare_data (o : options) (anOtpVal : string) : res bool :=
  match dict_get (vals o) "data" with
  | PStr d => Ok (safe_compare d anOtpVal)
  | _ => Err (Unmodelled "safe_compare of a value that is not a string")
  end.

(** Lines 398-409 of [check_otp]: what follows a success, a new SMS when
    the auto-send policy is set and the post-check message otherwise. The
    entry "smstoken_post_check" is written into the caller's dict; within
    [check_otp] only the two calls below read it. *)
Definition after_success (E : env) (self : Token) (o : options) (ret : Z)
    : M world unit :=
  if _get_auto_sms o then
    let message := _get_sms_text o in
    inc_otp_counter ret;;
    '(success, message) ← _send_sms E self message o;
    write_log DEBUG "AutoSMS: send new SMS: {success!s}" [];;
    write_log DEBUG "AutoSMS: {message!r}" [message]
  else
    let o := Build_options (user o) (g o)
               (<["smstoken_post_check" := PInt 1]> (vals o)) in
    let message := _get_sms_text o in
    _send_sms E self message o;;
    mret tt.

(** [check_otp], lines 378-411, below its decorator. *)
Definition check_otp_body (E : env) (self : Token) (anOtpVal : string)
    (counter window : pyval) (o : options) : M world Z :=
  w ← get_state;
  let ret := hotp_check_otp E self (count w) anOtpVal counter window in
  ret ←
    (if (ret <? 0)
        && is_true E (get_from_config E "sms.concurrent_challenges" PNone)
     then
       same ← lift_res (compare_data o anOtpVal);
       mret (if same : bool then 1 else ret)
     else mret ret);
  (if 0 <=? ret then after_success E self o ret else mret tt);;
  mret ret.

(** Modelled from the spec: the decorator [check_token_locked] of
    edumfa.lib.decorators is not among the sources; a token carries a
    locked flag, and the decorated method is refused with an error on a
    locked token. *)
Definition check_token_locked {A} (self : Token) (f : M world A)
    : M world A :=
  if locked self then raise TokenAdminError else f.

(** [check_otp] as callers see it. *)
Definition check_otp (E : env) (self : Token) (anOtpVal : string)
    (counter window : pyval) (o : options) : M world Z :=
  check_token_locked self (check_otp_body E self anOtpVal counter window o).

(** A call keeps the challenge table and the counter, however it ends. *)
Definition keeps {A} (m : M world A) : Prop :=
  forall w, db (final_state (m w)) = db w
            /\ count (final_state (m w)) = count w.

(** The world in which [create_challenge] calls [_send_sms]: the counter
    has been read, logged and advanced. *)
Definition at_send (w : world) : world :=
  World (count w + 1) (db w) (outbox w)
    (log w ++ [Log DEBUG "counter={counter!r}" [str_of_int (count w)]])%list.

(** The world that the [except] branch of [create_challenge] leaves: two
    log lines more. *)
Definition after_handler (w : world) : world :=
  World (count w) (db w) (outbox w)
    ((log w ++ [Log WARNING (info_not_sent ++ " ({e!r})") []])
       ++ [Log DEBUG "{traceback.format_exc()!s}" []])%list.

(** The claim that a challenge row is written although the delivery
    raised, in its mildest reading: the caller did not ask for an
    exception. *)
Definition persists_despite_failure_claim : Prop :=
  forall (E : env) (self : Token) (transactionid : pyval) (o : options)
         (w : world) (e : exn) (w2 : world),
    active self = true ->
    dict_get (vals o) "session" <> PStr (ENROLLMENT E) ->
    is_true E (dict_get (vals o) "exception") = false ->
    _send_sms E self (_get_sms_text o) o (at_send w) = Raise e w2 ->
    exists row s tid reply w',
      create_challenge E self transactionid o w
      = Return (s, PStr info_not_sent, tid, reply) w'
      /\ db w' = (db w ++ [row])%list.

(** The claim that the fallback to the stored challenge data makes
    [check_otp] return a success value. *)
Definition fallback_returns_claim : Prop :=
  forall (E : env) (self : Token) (anOtpVal : string)
         (counter window : pyval) (o : options) (w : world),
    hotp_check_otp E self (count w) anOtpVal counter window < 0 ->
    is_true E (get_from_config E "sms.concurrent_challenges" PNone) = true ->
    compare_data o anOtpVal = Ok true ->
    exists r w',
      check_otp E self anOtpVal counter window o w = Return r w' /\ 0 <= r.

(** Modelled from the spec: [add_tokeninfo] and [del_tokeninfo] of the
    token base class are not among the sources; the tokeninfo is the
    key-value metadata of the token, the one sets an entry and the other
    removes it. *)
Definition add_tokeninfo (self : Token) (k : string) (v : pyval) : Token :=
  {| serial := serial self; active := active self; locked := locked self;
     tokeninfo := <[k := v]> (tokeninfo self); owner := owner self |}.

Definition del_tokeninfo (self : Token) (k : string) : Token :=
  {| serial := serial self; active := active self; locked := locked self;
     tokeninfo := delete k (tokeninfo self); owner := owner self |}.

(** [enroll_via_validate_2nd_step], lines 674-690: the token as the two
    tokeninfo calls leave it. *)
Definition enroll_via_validate_2nd_step (self : Token) (passw : string)
    : Token :=
  add_tokeninfo (del_tokeninfo self "dynamic_phone") "phone" (PStr passw).

(** [prepare_verify_enrollment], lines 620-632: [create_challenge] without
    arguments, then the message; [VERIFY_ENROLLMENT_MESSAGE] of the HOTP
    token module is a parameter. *)
Definition prepare_verify_enrollment (E : env) (self : Token)
    (VERIFY_ENROLLMENT_MESSAGE : pyval) : M world (gmap string pyval) :=
  create_challenge E self PNone (Build_options None None ∅);;
  mret {[ "message" := VERIFY_ENROLLMENT_MESSAGE ]}.

(** A call keeps the messages handed to the gateway, however it ends. *)
Definition keeps_outbox {A} (m : M world A) : Prop :=
  forall w, outbox (final_state (m w)) = outbox w.

(** The row that [create_challenge] saves for a token in world [w] (the
    table of [w] decides a generated transaction id). *)
Definition challenge_row (E : env) (self : Token) (transactionid : pyval)
    (o : options) (data0 : pyval) (w : world) : Challenge :=
  {| ch_serial := serial self;
     ch_transaction_id :=
       py_or transactionid
         (PStr (create_transaction_id E (List.length (db w))));
     ch_challenge := dict_get (vals o) "challenge";
     ch_data := data0;
     ch_session := dict_get (vals o) "session";
     ch_validitytime := _get_sms_timeout E |}.

(** No byte of [s] is one of "<", "{" and "}". *)
Definition plain_text (s : string) : bool :=
  forallb (fun c => negb (Ascii.eqb c "<") && negb (Ascii.eqb c "{")
                    && negb (Ascii.eqb c "}"))
          (list_ascii_of_string s).

(** Lines 343 and 353-354: the data of the row that [create_challenge]
    saves after a sending from world [w], the OTP value at the advanced
    counter when concurrent challenges are switched on, or the exception of
    reading it. *)
Definition challenge_data (E : env) (w : world) : res pyval :=
  if is_true E (get_from_config E "sms.concurrent_challenges" PNone)
  then match get_otp_data E (count w + 1) with
       | Ok v => Ok (PStr v)
       | Err e => Err e
       end
  else Ok PNone.

(** Lines 373-376: how [create_challenge] ends once the [try] statement is
    over; the expiry date is computed outside the [try], so its exception
    leaves the function. *)
Definition ends_with (E : env) (success : bool)
    (return_message transactionid state0 : pyval) (w : world)
    : outcome world (bool * pyval * pyval * gmap string pyval) :=
  match expiry_text E (_get_sms_timeout E) with
  | Ok valid_until =>
      Return (success, return_message, transactionid,
              reply_dict state0 valid_until) w
  | Err e => Raise e w
  end.

(** Lines 365-371 and what follows: how [create_challenge] ends when an
    exception reached the handler in world [w] while [success] held the
    given value. *)
Definition handled (E : env) (o : options) (success : bool)
    (transactionid : pyval) (w : world)
    : outcome world (bool * pyval * pyval * gmap string pyval) :=
  if is_true E (dict_get (vals o) "exception")
  then Raise (Exception_ info_not_sent) (after_handler w)
  else ends_with E success (PStr info_not_sent) transactionid transactionid
         (after_handler w).

(** The world in which the [try] of [create_challenge] starts: the counter
    has been read and logged. *)
Definition at_try (w : world) : world :=
  World (count w) (db w) (outbox w)
    (log w ++ [Log DEBUG "counter={counter!r}" [str_of_int (count w)]])%list.

(** Line 407: the options as [check_otp] leaves them for the post-check
    message. *)
Definition post_check_options (o : options) : options :=
  Build_options (user o) (g o) (<["smstoken_post_check" := PInt 1]> (vals o)).

(** The claim that a truthy "exception" option turns a failed delivery
    into an exception, as the specification words it. *)
Definition truthy_exception_raises_claim : Prop :=
  forall (E : env) (self : Token) (transactionid : pyval) (o : options)
         (w : world) (e : exn) (w2 : world),
    active self = true ->
    dict_get (vals o) "session" <> PStr (ENROLLMENT E) ->
    _send_sms E self (_get_sms_text o) o (at_send w) = Raise e w2 ->
    truthy (dict_get (vals o) "exception") = true ->
    exists e' w', create_challenge E self transactionid o w = Raise e' w'.


End SMS.

(** ** Concrete inputs used by the examples below *)

Module Samples.
Import Py.

Definition motp_token : MOTP.mTimeOtp :=
  {| MOTP.secretObject := None; MOTP.secPin := None;
     MOTP.key := Some "0123456789abcdef"; MOTP.pin := Some "1234";
     MOTP.oldtime := 0; MOTP.digits := 6 |}.

(** The same token after slice 129612120 has been accepted. *)
Definition motp_replayed : MOTP.mTimeOtp :=
  {| MOTP.secretObject := None; MOTP.secPin := None;
     MOTP.key := Some "0123456789abcdef"; MOTP.pin := Some "1234";
     MOTP.oldtime := 129612120; MOTP.digits := 6 |}.

Definition motp_options : option (gmap string Z) :=
  Some {[ "initTime" := 129612120 ]}.

(** [is_true] as the examples use it: 1, True and the strings "1" and
    "true" in any letter case; every other value, truthy ones such as 2 or
    "yes" included, is rejected. *)
Definition is_true_sample (v : pyval) : bool :=
  match v with
  | PBool b => b
  | PInt z => z =? 1
  | PStr s => String.eqb (lower s) "1" || String.eqb (lower s) "true"
  | _ => false
  end.

(** Modelled from the spec: [create_tag_dict] of edumfa.lib.utils is not
    among the sources; the spec names the recipient's given name and
    surname and the challenge text as tags and addresses the given name as
    [recipient[givenname]]. *)
Definition sms_tags (serial0 : string) (tokenowner : option SMS.User)
    (tokentype : string) (recipient : gmap string pyval) (challenge : pyval)
    : gmap string pyval :=
  {[ "serial" := PStr serial0;
     "tokentype" := PStr tokentype;
     "recipient" := PDict recipient;
     "challenge" := py_or challenge (PStr "") ]}.

(** A gateway that accepts every message and one that is down. *)
Definition gateway_up : SMS.Provider :=
  {| SMS.send_to_uid := false; SMS.option_dict := ∅;
     SMS.provider_config := ∅;
     SMS.submit_message := fun _ _ => Ok true;
     SMS.submit_post_check := fun _ _ => Ok true |}.

Definition gateway_down : SMS.Provider :=
  {| SMS.send_to_uid := false; SMS.option_dict := ∅;
     SMS.provider_config := ∅;
     SMS.submit_message := fun _ _ => Err (GatewayError "no route");
     SMS.submit_post_check := fun _ _ => Err (GatewayError "no route") |}.

(** A system with the gateway "gw" and concurrent challenges switched on;
    the HOTP check finds nothing. *)
Definition sms_env (gw : SMS.Provider) : SMS.env :=
  {| SMS.config := {[ "sms.identifier" := PStr "gw";
                      "sms.concurrent_challenges" := PStr "True" ]};
     SMS.is_true := is_true_sample;
     SMS.py_int := fun v => match v with
                            | PInt z => Ok z
                            | _ => Err (ValueError "invalid literal for int()")
                            end;
     SMS.loads := fun _ => Ok (PDict ∅);
     SMS.hotp := fun c => str_of_int (123456 + c);
     SMS.get_otp_data := fun c => Ok (str_of_int (123456 + c));
     SMS.db_save := fun _ => Ok tt;
     SMS.hotp_check_otp := fun _ _ _ _ _ => -1;
     SMS.challenge_text := fun _ => PNone;
     SMS.create_tag_dict := sms_tags;
     SMS.create_sms_instance := fun _ => Ok gw;
     SMS.get_sms_provider_class := fun _ _ => Ok gw;
     SMS.load_config := fun p _ => Ok p;
     SMS.ENROLLMENT := "enrollment";
     SMS.create_transaction_id := fun n => "tx" ++ str_of_int (Z.of_nat n);
     SMS.expiry_text := fun v => Ok ("now + " ++ str_of_int v) |}.

Definition sms_token : SMS.Token :=
  {| SMS.serial := "SMS0001"; SMS.active := true; SMS.locked := false;
     SMS.tokeninfo := {[ "phone" := PStr "+4915100000" ]};
     SMS.owner := None |}.

Definition sms_options (v : gmap string pyval) : SMS.options :=
  {| SMS.user := None; SMS.g := None; SMS.vals := v |}.

Definition sms_world : SMS.world := SMS.World 0 [] [] [].

(** A request under the auto-send policy, for a challenge whose stored data
    is "123456". *)
Definition sms_options_auto : SMS.options :=
  {| SMS.user := None;
     SMS.g := Some {| SMS.action_values := fun _ _ => [];
                      SMS.policies := fun _ _ => 1%nat |};
     SMS.vals := {[ "data" := PStr "123456" ]} |}.

Definition luks_token : LUKS.Token :=
  {| LUKS.get_otp := fun ch _ => Ok (1, "", "a1b2c3", "") |}.

(** Two active tokens answer the serial "UBOM0001", none any other. *)
Definition luks_env : LUKS.env :=
  {| LUKS.urandom := fun i => Z.of_nat i;
     LUKS.get_tokens := fun serial _ =>
       if String.eqb serial "UBOM0001" then [luks_token; luks_token]
       else [] |}.

Definition luks_world : LUKS.world := LUKS.World 0 [].

(** A child server that answers every call with a JSON object holding an
    empty detail. *)
Definition fed_env : Federation.env :=
  {| Federation.get_edumfaserver := fun _ =>
       Ok {| Federation.url := "https://child.example.org";
             Federation.tls := true |};
     Federation.send := fun _ =>
       Ok {| Federation.text := "{}"; Federation.status_code := 200 |};
     Federation.json_loads := fun _ => Ok (PDict {[ "detail" := PDict ∅ ]});
     Federation.json_dumps := fun _ => "{}";
     Federation.is_true := is_true_sample |}.

Definition fed_options (m : string) : Federation.options :=
  {| Federation.g_client_ip := PStr "10.0.0.1";
     Federation.request :=
       {| Federation.path := "/validate/check"; Federation.method := m;
          Federation.headers := ∅ |};
     Federation.handler_options :=
       {[ "eduMFA" := PStr "child"; "realm" := PStr "realm1" ]} |}.

Definition fed_world : Federation.world :=
  Federation.World {[ "user" := PStr "cornelius" ]}
    {| Federation.body := "original"; Federation.mimetype := "text/plain";
       Federation.response_status := 200 |}
    [] [].

(** One active token answers the serial "UBOM0002". *)
Definition luks_env_single : LUKS.env :=
  {| LUKS.urandom := fun i => Z.of_nat i;
     LUKS.get_tokens := fun serial _ =>
       if String.eqb serial "UBOM0002" then [luks_token] else [] |}.

(** The package directory with a module that cannot be imported
    ("broken.py") and a file that is no module. *)
Definition apps_import (name : string) : res Applications.AppClass :=
  if String.eqb name "edumfa.lib.applications.base"
  then Ok (Applications.base_class (PStr "bool") (PStr "str"))
  else if String.eqb name "edumfa.lib.applications.luks"
  then Ok (Applications.luks_class luks_env_single false
             (PStr "int") (PStr "str"))
  else Err (Exception_ "No module named").

Definition apps_env : Applications.env :=
  {| Applications.listdir := ["__init__.py"; "base.py"; "luks.py"; "README.md"];
     Applications.import_module := apps_import |}.

Definition apps_env_broken : Applications.env :=
  {| Applications.listdir := ["__init__.py"; "base.py"; "broken.py"; "luks.py"];
     Applications.import_module := apps_import |}.

(** A child server that answers 404 with a JSON object without detail, and
    one whose detail is [null]. *)
Definition fed_env_plain : Federation.env :=
  {| Federation.get_edumfaserver := fun _ =>
       Ok {| Federation.url := "https://child.example.org";
             Federation.tls := true |};
     Federation.send := fun _ =>
       Ok {| Federation.text := "{}"; Federation.status_code := 404 |};
     Federation.json_loads := fun _ => Ok (PDict {[ "result" := PNone ]});
     Federation.json_dumps := fun _ => "{}";
     Federation.is_true := is_true_sample |}.

Definition fed_env_null : Federation.env :=
  {| Federation.get_edumfaserver := fun _ =>
       Ok {| Federation.url := "https://child.example.org";
             Federation.tls := true |};
     Federation.send := fun _ =>
       Ok {| Federation.text := "{}"; Federation.status_code := 200 |};
     Federation.json_loads := fun _ => Ok (PDict {[ "detail" := PNone ]});
     Federation.json_dumps := fun _ => "{}";
     Federation.is_true := is_true_sample |}.

(** A system in the old configuration style (no gateway identifier, the
    default provider) without concurrent challenges; the HOTP check finds
    every value three counters ahead. *)
Definition sms_env_hit (gw : SMS.Provider) : SMS.env :=
  {| SMS.config := ∅;
     SMS.is_true := is_true_sample;
     SMS.py_int := fun v => match v with
                            | PInt z => Ok z
                            | _ => Err (ValueError "invalid literal for int()")
                            end;
     SMS.loads := fun _ => Ok (PDict ∅);
     SMS.hotp := fun c => str_of_int (123456 + c);
     SMS.get_otp_data := fun c => Ok (str_of_int (123456 + c));
     SMS.db_save := fun _ => Ok tt;
     SMS.hotp_check_otp := fun _ c _ _ _ => c + 3;
     SMS.challenge_text := fun _ => PNone;
     SMS.create_tag_dict := sms_tags;
     SMS.create_sms_instance := fun _ => Err (Exception_ "no such gateway");
     SMS.get_sms_provider_class := fun _ _ => Ok gw;
     SMS.load_config := fun p _ => Ok p;
     SMS.ENROLLMENT := "enrollment";
     SMS.create_transaction_id := fun n => "tx" ++ str_of_int (Z.of_nat n);
     SMS.expiry_text := fun v => Ok ("now + " ++ str_of_int v) |}.

(** A request under the auto-send policy with the text policy
    "Next: <otp>". *)
Definition sms_options_policy (auto : nat) : SMS.options :=
  {| SMS.user := None;
     SMS.g := Some {| SMS.action_values := fun a _ =>
                        if String.eqb a "smstext" then ["Next: <otp>"]
                        else if String.eqb a "smspostchecktext"
                        then ["Used: <otp> on <serial>"] else [];
                      SMS.policies := fun _ _ => auto |};
     SMS.vals := ∅ |}.

(** The system of [sms_env] with a database that refuses every row. *)
Definition sms_env_db_down (gw : SMS.Provider) : SMS.env :=
  {| SMS.config := SMS.config (sms_env gw);
     SMS.is_true := is_true_sample;
     SMS.py_int := SMS.py_int (sms_env gw);
     SMS.loads := SMS.loads (sms_env gw);
     SMS.hotp := SMS.hotp (sms_env gw);
     SMS.get_otp_data := SMS.get_otp_data (sms_env gw);
     SMS.db_save := fun _ => Err (Exception_ "database is down");
     SMS.hotp_check_otp := SMS.hotp_check_otp (sms_env gw);
     SMS.challenge_text := SMS.challenge_text (sms_env gw);
     SMS.create_tag_dict := sms_tags;
     SMS.create_sms_instance := SMS.create_sms_instance (sms_env gw);
     SMS.get_sms_provider_class := SMS.get_sms_provider_class (sms_env gw);
     SMS.load_config := SMS.load_config (sms_env gw);
     SMS.ENROLLMENT := "enrollment";
     SMS.create_transaction_id := SMS.create_transaction_id (sms_env gw);
     SMS.expiry_text := SMS.expiry_text (sms_env gw) |}.

(** The system of [sms_env] with a challenge validity of 10^12 seconds, for
    which the expiry date is out of the range of [datetime]. *)
Definition sms_env_overflow (gw : SMS.Provider) : SMS.env :=
  {| SMS.config := <["sms.providerTimeout" := PInt 1000000000000]>
                     (SMS.config (sms_env gw));
     SMS.is_true := is_true_sample;
     SMS.py_int := SMS.py_int (sms_env gw);
     SMS.loads := SMS.loads (sms_env gw);
     SMS.hotp := SMS.hotp (sms_env gw);
     SMS.get_otp_data := SMS.get_otp_data (sms_env gw);
     SMS.db_save := SMS.db_save (sms_env gw);
     SMS.hotp_check_otp := SMS.hotp_check_otp (sms_env gw);
     SMS.challenge_text := SMS.challenge_text (sms_env gw);
     SMS.create_tag_dict := sms_tags;
     SMS.create_sms_instance := SMS.create_sms_instance (sms_env gw);
     SMS.get_sms_provider_class := SMS.get_sms_provider_class (sms_env gw);
     SMS.load_config := SMS.load_config (sms_env gw);
     SMS.ENROLLMENT := "enrollment";
     SMS.create_transaction_id := SMS.create_transaction_id (sms_env gw);
     SMS.expiry_text := fun v =>
       if v <? 100000000000 then SMS.expiry_text (sms_env gw) v
       else Err (OverflowError "date value out of range") |}.





End Samples.

(** * Properties *)

Example md5_empty : MD5.hexdigest "" = "d41d8cd98f00b204e9800998ecf8427e".
Proof. vm_compute. reflexivity. Qed.

Example md5_abc : MD5.hexdigest "abc" = "900150983cd24fb0d6963f7d28e17f72".
Proof. vm_compute. reflexivity. Qed.

Example md5_two_blocks :
  MD5.hexdigest
    ("The quick brown fox jumps over the lazy dog" ++
     "The quick brown fox jumps over the lazy dog" ++
     "The quick brown fox jumps over the lazy dog")
  = "4e67db4a7a406b0cfdadd887cde7888e".
Proof. vm_compute. reflexivity. Qed.

(** ** mOTP: the scan of the time window *)

Section MotpScan.
Import Py MOTP.
Variables (self : mTimeOtp) (key0 pin0 : option string) (anOtpVal : string).


Lemma scan_app_none (l1 l2 : list Z) (r : Z) :
  (forall j, j ∈ l1 -> matches self key0 pin0 anOtpVal j = false) ->
  scan self key0 pin0 anOtpVal (l1 ++ l2)%list r
  = scan self key0 pin0 anOtpVal l2 r.
Proof.
  induction l1 as [|x l1 IH]; intros Hno; simpl; [reflexivity|].
  rewrite Hno by (left).
  apply IH. intros j Hj. apply Hno. now right.
Qed.

Lemma range_split (a b i : Z) :
  a <= i < b -> range a b = (range a i ++ i :: range (i + 1) b)%list.
Proof.
  intros H. unfold range.
  replace (b - a) with ((i - a) + (b - i)) by lia.
  rewrite seqZ_app by lia.
  replace (a + (i - a)) with i by lia.
  rewrite (seqZ_cons i (b - i)) by lia.
  do 3 f_equal; lia.
Qed.

Lemma elem_of_range (a b j : Z) : j ∈ range a b <-> a <= j < b.
Proof. unfold range. rewrite elem_of_seqZ. lia. Qed.

Lemma scan_range_first (a b i r : Z) :
  a <= i < b ->
  matches self key0 pin0 anOtpVal i = true ->
  (forall j, a <= j < i -> matches self key0 pin0 anOtpVal j = false) ->
  scan self key0 pin0 anOtpVal (range a b) r = i.
Proof.
  intros Hi Hm Hbefore.
  rewrite (range_split a b i Hi), scan_app_none.
  - simpl. now rewrite Hm.
  - intros j Hj. apply Hbefore. now apply elem_of_range.
Qed.


(** What the loop leaves in [res]: the start value or a matching slice of
    the list. *)
Lemma scan_result (l : list Z) (r : Z) :
  scan self key0 pin0 anOtpVal l r = r \/
  (scan self key0 pin0 anOtpVal l r ∈ l /\
   matches self key0 pin0 anOtpVal (scan self key0 pin0 anOtpVal l r) = true).
Proof.
  induction l as [|x l IH]; simpl; [now left|].
  destruct (matches self key0 pin0 anOtpVal x) eqn:Hx.
  - right. split; [left | exact Hx].
  - destruct IH as [IH | [IH1 IH2]]; [now left | right].
    split; [now right | exact IH2].
Qed.

End MotpScan.

(** ** mOTP: [checkOtp] *)

Lemma checkOtp_first_match
    (self : MOTP.mTimeOtp) (anOtpVal : string) (w : Z)
    (options : option (gmap string Z)) (clock : Z)
    (key0 pin0 : option string) (i : Z) :
  MOTP.secrets self = Py.Ok (key0, pin0) ->
  MOTP.base_slice options clock - 2 * w <= i
    < MOTP.base_slice options clock + 2 * w ->
  MOTP.matches self key0 pin0 anOtpVal i = true ->
  (forall j, MOTP.base_slice options clock - 2 * w <= j < i ->
             MOTP.matches self key0 pin0 anOtpVal j = false) ->
  MOTP.checkOtp self anOtpVal w options clock
  = Py.Ok (if i <=? MOTP.oldtime self then -1 else i).
Proof.
  intros Hsec Hi Hm Hfirst. unfold MOTP.checkOtp. rewrite Hsec.
  rewrite (scan_range_first self key0 pin0 anOtpVal _ _ i (-1));
    [reflexivity | lia | exact Hm |].
  intros j Hj. apply Hfirst. lia.
Qed.


(** C3. The replay rule of [checkOtp]: when the scan stops at slice [i] (the
    first slice of the scanned range whose digest equals the submitted
    value), the call answers -1 if [i <= oldtime] and [i] if [oldtime < i];
    whatever the input, an answer other than -1 lies strictly above
    [oldtime]. *)
Theorem checkOtp_replay_rule
    (self : MOTP.mTimeOtp) (anOtpVal : string) (w : Z)
    (options : option (gmap string Z)) (clock : Z)
    (key0 pin0 : option string) :
  MOTP.secrets self = Py.Ok (key0, pin0) ->
  (forall i : Z,
      MOTP.base_slice options clock - 2 * w <= i
        < MOTP.base_slice options clock + 2 * w ->
      MOTP.matches self key0 pin0 anOtpVal i = true ->
      (forall j, MOTP.base_slice options clock - 2 * w <= j < i ->
                 MOTP.matches self key0 pin0 anOtpVal j = false) ->
      (i <= MOTP.oldtime self ->
       MOTP.checkOtp self anOtpVal w options clock = Py.Ok (-1)) /\
      (MOTP.oldtime self < i ->
       MOTP.checkOtp self anOtpVal w options clock = Py.Ok i)) /\
  (forall r : Z,
      MOTP.checkOtp self anOtpVal w options clock = Py.Ok r ->
      r <> -1 -> MOTP.oldtime self < r).
Proof.
  intros Hsec. split.
  - intros i Hi Hm Hfirst.
    rewrite (checkOtp_first_match self anOtpVal w options clock key0 pin0 i
               Hsec Hi Hm Hfirst).
    split; intros Hcmp.
    + apply Z.leb_le in Hcmp. now rewrite Hcmp.
    + apply Z.leb_gt in Hcmp. now rewrite Hcmp.
  - intros r Hr Hne. unfold MOTP.checkOtp in Hr. rewrite Hsec in Hr.
    destruct (Z.leb_spec
                (MOTP.scan self key0 pin0 anOtpVal
                   (Py.range (MOTP.base_slice options clock - w * 2)
                             (MOTP.base_slice options clock + w * 2)) (-1))
                (MOTP.oldtime self)) as [Hle|Hgt];
      inversion Hr; subst; [congruence | exact Hgt].
Qed.

Lemma checkOtp_replay_rule_witness :
  MOTP.checkOtp Samples.motp_token "60db3b" 1 Samples.motp_options 0
    = Py.Ok 129612120
  /\ MOTP.checkOtp Samples.motp_replayed "60db3b" 1 Samples.motp_options 0
    = Py.Ok (-1).
Proof.
  split.
  - refine (proj2 (proj1 (checkOtp_replay_rule Samples.motp_token "60db3b" 1
             Samples.motp_options 0 (Some "0123456789abcdef") (Some "1234")
             eq_refl) 129612120 _ _ _) _).
    + vm_compute. split; congruence.
    + vm_compute. reflexivity.
    + intros j Hj.
      change (MOTP.base_slice Samples.motp_options 0) with 129612120 in Hj.
      assert (Hc : j = 129612118 \/ j = 129612119) by lia.
      destruct Hc as [-> | ->]; vm_compute; reflexivity.
    + vm_compute. reflexivity.
  - refine (proj1 (proj1 (checkOtp_replay_rule Samples.motp_replayed "60db3b" 1
             Samples.motp_options 0 (Some "0123456789abcdef") (Some "1234")
             eq_refl) 129612120 _ _ _) _).
    + vm_compute. split; congruence.
    + vm_compute. reflexivity.
    + intros j Hj.
      change (MOTP.base_slice Samples.motp_options 0) with 129612120 in Hj.
      assert (Hc : j = 129612118 \/ j = 129612119) by lia.
      destruct Hc as [-> | ->]; vm_compute; reflexivity.
    + vm_compute. congruence.
Defined.




(** ** LUKS machine application *)

(** C8. When the token type is not "totp" (in any letter case) or the serial
    does not start with "UBOM", [get_authentication_item] returns the empty
    dictionary without raising; its only effect is one info line in the
    log. *)
Theorem luks_unsupported_returns_empty
    (E : LUKS.env) (token_type serial : string) (challenge : option string)
    (w : LUKS.world) :
  Py.lower token_type <> "totp" \/ Py.startswith "UBOM" serial = false ->
  exists line,
    LUKS.get_authentication_item E token_type serial challenge w
    = Py.Return ∅ (LUKS.World (LUKS.rng_pos w) (LUKS.log w ++ [line])%list)
    /\ Py.lvl line = Py.INFO.
Proof.
  intros Hcond. unfold LUKS.get_authentication_item.
  assert (Hguard : String.eqb (Py.lower token_type) "totp"
                   && Py.startswith "UBOM" serial = false).
  { destruct Hcond as [Hty | Hser].
    - apply String.eqb_neq in Hty. now rewrite Hty.
    - rewrite Hser. apply andb_false_r. }
  rewrite Hguard. eexists. split; reflexivity.
Qed.

Lemma luks_unsupported_returns_empty_witness :
  exists line,
    LUKS.get_authentication_item Samples.luks_env "hotp" "UBOM0001" None
      Samples.luks_world
    = Py.Return ∅ (LUKS.World 0 [line]) /\ Py.lvl line = Py.INFO.
Proof.
  apply (luks_unsupported_returns_empty Samples.luks_env "hotp" "UBOM0001"
           None Samples.luks_world).
  left. vm_compute. congruence.
Defined.

(** C9. For type "totp" and a serial starting with "UBOM", when the number
    of active tokens with that serial is not one, the call returns the
    dictionary that holds the challenge under "challenge" and has no
    "response" key; that result is not empty. *)
Theorem luks_challenge_without_response
    (E : LUKS.env) (token_type serial : string) (challenge : option string)
    (w : LUKS.world) :
  Py.lower token_type = "totp" ->
  Py.startswith "UBOM" serial = true ->
  List.length (LUKS.get_tokens E serial true) <> 1%nat ->
  exists (ret : gmap string string) (w' : LUKS.world),
    LUKS.get_authentication_item E token_type serial challenge w
    = Py.Return ret w'
    /\ ret !! "challenge" = Some (LUKS.challenge_hex_of E challenge w)
    /\ ret !! "response" = None
    /\ ret <> ∅.
Proof.
  intros Hty Hser Hlen. unfold LUKS.get_authentication_item.
  rewrite Hty, Hser. simpl.
  apply Nat.eqb_neq in Hlen.
  destruct challenge as [c|]; cbn; unfold mbind, Py.M_bind; cbn;
    rewrite Hlen; cbn; eexists; eexists; (split; [reflexivity|]);
    (split; [apply lookup_insert_eq|]);
    (split; [rewrite lookup_insert_ne by discriminate; apply lookup_empty|]);
    apply insert_non_empty.
Qed.

Lemma luks_challenge_without_response_witness :
  exists (ret : gmap string string) (w' : LUKS.world),
    LUKS.get_authentication_item Samples.luks_env "TOTP" "UBOM0001"
      (Some "00ff") Samples.luks_world
    = Py.Return ret w'
    /\ ret !! "challenge" = Some "00ff"
    /\ ret !! "response" = None
    /\ ret <> ∅.
Proof.
  apply (luks_challenge_without_response Samples.luks_env "TOTP" "UBOM0001"
           (Some "00ff") Samples.luks_world).
  - reflexivity.
  - reflexivity.
  - vm_compute. congruence.
Defined.

(** ** Federation handler *)

(** C6. In [do] with the forward action: for a method that reads "GET" the
    one relay call carries the payload as [params] and no [data]; for a
    method that reads neither "GET" nor "POST" nor "DELETE" no call is made
    and [options["response"]] stays as it was, and the handler returns
    [True] once the child server is known. *)
Theorem federation_forward_get_and_unsupported
    (E : Federation.env) (o : Federation.options) (w : Federation.world) :
  (forall srv : Federation.Server,
     Federation.get_edumfaserver E
       (Py.dict_get (Federation.handler_options o) "eduMFA") = Py.Ok srv ->
     Py.upper (Federation.method (Federation.request o)) = "GET" ->
     Federation.calls (Py.final_state (Federation.do E "forward" o w))
     = (Federation.calls w ++
        [ {| Federation.requestor := Federation.GET;
             Federation.call_url :=
               Federation.url srv ++ Federation.path (Federation.request o);
             Federation.params :=
               Some (Federation.forwarded_payload E o (Federation.all_data w));
             Federation.data := None;
             Federation.call_headers := Federation.forwarded_headers E o;
             Federation.verify := Federation.tls srv |} ])%list) /\
  (Py.upper (Federation.method (Federation.request o)) <> "GET" ->
   Py.upper (Federation.method (Federation.request o)) <> "POST" ->
   Py.upper (Federation.method (Federation.request o)) <> "DELETE" ->
   Federation.calls (Py.final_state (Federation.do E "forward" o w))
     = Federation.calls w
   /\ Federation.response (Py.final_state (Federation.do E "forward" o w))
     = Federation.response w
   /\ (forall srv : Federation.Server,
         Federation.get_edumfaserver E
           (Py.dict_get (Federation.handler_options o) "eduMFA") = Py.Ok srv ->
         exists w', Federation.do E "forward" o w = Py.Return true w')).
Proof.
  split.
  - intros srv Hsrv Hget.
    unfold Federation.do, Federation.forwarded_payload,
      Federation.forwarded_headers.
    cbn. unfold mbind, Py.M_bind, Py.lift_res. rewrite Hsrv.
    unfold Federation.choose_requestor. rewrite Hget. cbn.
    destruct (Federation.is_true E _), (Py.truthy _), (Py.truthy _); cbn;
      unfold Federation.perform; cbn;
      unfold mbind, Py.M_bind, Py.lift_res; cbn;
      (destruct (Federation.send E _) as [r|e]; cbn; [|reflexivity]);
      (destruct (Federation.json_loads E _) as [j|e]; cbn; [|reflexivity]);
      (destruct (Federation.add_origin j _) as [j'|e]; cbn; reflexivity).
  - intros Hget Hpost Hdel. unfold Federation.do.
    cbn. unfold mbind, Py.M_bind, Py.lift_res.
    unfold Federation.choose_requestor.
    apply String.eqb_neq in Hget, Hpost, Hdel.
    rewrite Hget, Hpost, Hdel.
    destruct (Federation.get_edumfaserver E _) as [srv|e]; cbn.
    + destruct (Federation.is_true E _), (Py.truthy _), (Py.truthy _); cbn;
        (split; [reflexivity|]); (split; [reflexivity|]);
        intros srv' _; eexists; reflexivity.
    + split; [reflexivity|]. split; [reflexivity|]. intros srv Hsrv.
      discriminate Hsrv.
Qed.

Lemma federation_forward_get_and_unsupported_witness :
  (Federation.calls
     (Py.final_state
        (Federation.do Samples.fed_env "forward" (Samples.fed_options "get")
           Samples.fed_world))
   = [ {| Federation.requestor := Federation.GET;
          Federation.call_url := "https://child.example.org/validate/check";
          Federation.params :=
            Some (<["realm" := Py.PStr "realm1"]>
                    {[ "user" := Py.PStr "cornelius" ]});
          Federation.data := None;
          Federation.call_headers := ∅;
          Federation.verify := true |} ]) /\
  (Federation.calls
     (Py.final_state
        (Federation.do Samples.fed_env "forward" (Samples.fed_options "PATCH")
           Samples.fed_world)) = []
   /\ Federation.response
        (Py.final_state
           (Federation.do Samples.fed_env "forward"
              (Samples.fed_options "PATCH") Samples.fed_world))
      = Federation.response Samples.fed_world).
Proof.
  split.
  - apply (proj1 (federation_forward_get_and_unsupported Samples.fed_env
                    (Samples.fed_options "get") Samples.fed_world)
             _ eq_refl).
    reflexivity.
  - destruct (proj2 (federation_forward_get_and_unsupported Samples.fed_env
                       (Samples.fed_options "PATCH") Samples.fed_world))
      as (Hcalls & Hresp & _).
    + vm_compute. congruence.
    + vm_compute. congruence.
    + vm_compute. congruence.
    + split; [exact Hcalls | exact Hresp].
Defined.

(** ** SMS token: what a call keeps *)

Section SmsKeeps.
Import Py SMS.

Lemma keeps_ret {A} (a : A) : keeps (mret a).
Proof. intros w. split; reflexivity. Qed.

Lemma keeps_raise {A} (e : exn) : keeps (@raise world A e).
Proof. intros w. split; reflexivity. Qed.

Lemma keeps_lift_res {A} (r : res A) : keeps (@lift_res world A r).
Proof. intros w. destruct r; split; reflexivity. Qed.

Lemma keeps_get_state : keeps (@get_state world).
Proof. intros w. split; reflexivity. Qed.

Lemma keeps_write_log l f a : keeps (write_log l f a).
Proof. intros w. split; reflexivity. Qed.

Lemma keeps_bind {A B} (m : M world A) (f : A -> M world B) :
  keeps m -> (forall a, keeps (f a)) -> keeps (m ≫= f).
Proof.
  intros Hm Hf w. unfold mbind, M_bind.
  destruct (Hm w) as [Hdb Hcount].
  destruct (m w) as [a s|e s]; cbn in *.
  - destruct (Hf a s) as [Hdb' Hcount']. split; congruence.
  - split; assumption.
Qed.

Lemma keeps_try {A} (body : M world A) (handler : exn -> M world A) :
  keeps body -> (forall e, keeps (handler e)) -> keeps (try_except body handler).
Proof.
  intros Hb Hh w. unfold try_except.
  destruct (Hb w) as [Hdb Hcount].
  destruct (body w) as [a s|e s]; cbn in *.
  - split; assumption.
  - destruct (Hh e s) as [Hdb' Hcount']. split; congruence.
Qed.

Lemma keeps_submit sms post dest message :
  keeps (submit sms post dest message).
Proof.
  intros w. unfold submit, mbind, M_bind, modify, lift_res.
  destruct (if post then _ else _); split; reflexivity.
Qed.

End SmsKeeps.

Create HintDb keeps.

#[local] Hint Resolve keeps_ret keeps_raise keeps_lift_res keeps_get_state
  keeps_write_log keeps_submit : keeps.

Ltac keeps_step :=
  first
    [ apply keeps_bind; [| intros ? ]
    | apply keeps_try; [| intros ? ]
    | solve [ auto with keeps ] ].

Lemma keeps_get_provider E self ident :
  SMS.keeps (SMS.get_provider E self ident).
Proof.
  unfold SMS.get_provider.
  destruct (Py.truthy ident); [auto with keeps|].
  apply keeps_bind; [auto with keeps|]. intros [a b].
  repeat keeps_step.
Qed.

Lemma keeps_get_destination E self o ident sms :
  SMS.keeps (SMS.get_destination E self o ident sms).
Proof.
  unfold SMS.get_destination.
  destruct (SMS.send_to_uid sms).
  - apply keeps_bind; [|intros ?; auto with keeps].
    destruct (negb _); auto with keeps.
  - apply keeps_bind.
    + destruct (SMS.is_true E _); [|auto with keeps].
      destruct (SMS.owner self) as [u|]; [|auto with keeps].
      destruct (SMS.mobile u) as [| | | |[|x l]|]; auto with keeps.
    + intros phone. apply keeps_bind; [|intros ?; auto with keeps].
      destruct (negb _); auto with keeps.
Qed.

Lemma keeps_send_sms E self message o :
  SMS.keeps (SMS._send_sms E self message o).
Proof.
  unfold SMS._send_sms, SMS.get_otp.
  repeat first
    [ apply keeps_get_provider
    | apply keeps_get_destination
    | keeps_step ].
Qed.

(** ** SMS token: [create_challenge] when the delivery raises *)

Lemma not_enrollment (E : SMS.env) (o : SMS.options) :
  Py.dict_get (SMS.vals o) "session" <> Py.PStr (SMS.ENROLLMENT E) ->
  negb (match Py.dict_get (SMS.vals o) "session" with
        | Py.PStr s => String.eqb s (SMS.ENROLLMENT E)
        | _ => false
        end) = true.
Proof.
  intros Hne. destruct (Py.dict_get (SMS.vals o) "session"); try reflexivity.
  destruct (String.eqb_spec s (SMS.ENROLLMENT E)); [congruence | reflexivity].
Qed.

Lemma create_challenge_delivery_raises
    (E : SMS.env) (self : SMS.Token) (transactionid : Py.pyval)
    (o : SMS.options) (w : SMS.world) (e : Py.exn) (w2 : SMS.world) :
  SMS.active self = true ->
  Py.dict_get (SMS.vals o) "session" <> Py.PStr (SMS.ENROLLMENT E) ->
  SMS._send_sms E self (SMS._get_sms_text o) o (SMS.at_send w)
    = Py.Raise e w2 ->
  SMS.create_challenge E self transactionid o w
  = SMS.handled E o false transactionid w2.
Proof.
  intros Hact Hses Hsend.
  destruct w as [c d ob lg].
  unfold SMS.at_send in Hsend. cbn [SMS.count SMS.db SMS.outbox SMS.log] in Hsend.
  unfold SMS.create_challenge, SMS.challenge_body, SMS.handled, SMS.ends_with.
  rewrite Hact, (not_enrollment E o Hses).
  cbv beta iota delta
    [mbind mret Py.M_bind Py.M_ret Py.try_except SMS.get_otp_count
     Py.get_state SMS.write_log SMS.inc_otp_counter Py.modify
     SMS.with_success SMS.lift_w SMS.get_success Py.raise Py.lift_res
     fst snd SMS.count SMS.db SMS.outbox SMS.log].
  rewrite Hsend.
  cbv beta iota delta [fst snd].
  destruct (SMS.is_true E (Py.dict_get (SMS.vals o) "exception"));
    [reflexivity|].
  cbv beta iota delta [fst snd].
  destruct (SMS.expiry_text E (SMS._get_sms_timeout E)); reflexivity.
Qed.

(** C1 as stated fails. The challenge row is not written when the delivery
    raised: with the gateway down, an active token and no options the
    call returns the soft message and the challenge table is still empty. *)
Lemma create_challenge_persists_counterexample :
  ~ SMS.persists_despite_failure_claim.
Proof.
  intros Hclaim.
  destruct (Hclaim (Samples.sms_env Samples.gateway_down) Samples.sms_token
              Py.PNone (Samples.sms_options ∅) Samples.sms_world
              (Py.GatewayError "no route")
              (Py.final_state
                 (SMS._send_sms (Samples.sms_env Samples.gateway_down)
                    Samples.sms_token "<otp>" (Samples.sms_options ∅)
                    (SMS.at_send Samples.sms_world))))
    as (row & s & tid & reply & w' & Hret & Hdb).
  - reflexivity.
  - vm_compute. congruence.
  - reflexivity.
  - vm_compute. reflexivity.
  - assert (Hempty : SMS.db w' = []).
    { assert (Hw : Py.final_state
                     (SMS.create_challenge
                        (Samples.sms_env Samples.gateway_down)
                        Samples.sms_token Py.PNone (Samples.sms_options ∅)
                        Samples.sms_world) = w')
        by (rewrite Hret; reflexivity).
      rewrite <- Hw. vm_compute. reflexivity. }
    rewrite Hempty in Hdb. simpl in Hdb. discriminate Hdb.
Qed.

(** C1, amended. When the delivery raises inside [_send_sms],
    [create_challenge] writes no challenge row: the challenge table is
    exactly what it was before the call, the counter advance made before
    the sending stays, and, unless the caller asked for an exception, the
    [try] statement ends with [success = False], the message "The PIN was
    correct, but the SMS could not be sent!" and the caller's transaction
    id. These are returned when the expiry date of lines 373-374 can be
    computed; an exception of that computation leaves the function. *)
Theorem create_challenge_delivery_failure_writes_no_row
    (E : SMS.env) (self : SMS.Token) (transactionid : Py.pyval)
    (o : SMS.options) (w : SMS.world) (e : Py.exn) (w2 : SMS.world) :
  SMS.active self = true ->
  Py.dict_get (SMS.vals o) "session" <> Py.PStr (SMS.ENROLLMENT E) ->
  SMS._send_sms E self (SMS._get_sms_text o) o (SMS.at_send w)
    = Py.Raise e w2 ->
  SMS.db (Py.final_state (SMS.create_challenge E self transactionid o w))
    = SMS.db w
  /\ SMS.count (Py.final_state (SMS.create_challenge E self transactionid o w))
    = SMS.count w + 1
  /\ (SMS.is_true E (Py.dict_get (SMS.vals o) "exception") = false ->
      forall valid_until,
        SMS.expiry_text E (SMS._get_sms_timeout E) = Py.Ok valid_until ->
        exists w',
          SMS.create_challenge E self transactionid o w
          = Py.Return (false, Py.PStr SMS.info_not_sent, transactionid,
                       SMS.reply_dict transactionid valid_until) w')
  /\ (SMS.is_true E (Py.dict_get (SMS.vals o) "exception") = false ->
      forall e',
        SMS.expiry_text E (SMS._get_sms_timeout E) = Py.Err e' ->
        exists w',
          SMS.create_challenge E self transactionid o w = Py.Raise e' w').
Proof.
  intros Hact Hses Hsend.
  rewrite (create_challenge_delivery_raises E self transactionid o w e w2
             Hact Hses Hsend).
  destruct (keeps_send_sms E self (SMS._get_sms_text o) o (SMS.at_send w))
    as [Hdb Hcount].
  rewrite Hsend in Hdb, Hcount. cbn in Hdb, Hcount.
  unfold SMS.handled, SMS.ends_with.
  destruct (SMS.is_true E (Py.dict_get (SMS.vals o) "exception")).
  - split; [exact Hdb|]. split; [exact Hcount|]. split; discriminate.
  - destruct (SMS.expiry_text E (SMS._get_sms_timeout E)) as [t|e0];
      (split; [exact Hdb|]); (split; [exact Hcount|]); split; intros _ x Hx;
      try discriminate Hx; injection Hx as <-; eexists; reflexivity.
Qed.

Lemma create_challenge_delivery_failure_writes_no_row_witness :
  SMS.db (Py.final_state
            (SMS.create_challenge (Samples.sms_env Samples.gateway_down)
               Samples.sms_token (Py.PStr "tx7")
               (Samples.sms_options ∅) Samples.sms_world)) = []
  /\ exists reply w',
       SMS.create_challenge (Samples.sms_env Samples.gateway_down)
         Samples.sms_token (Py.PStr "tx7") (Samples.sms_options ∅)
         Samples.sms_world
       = Py.Return (false, Py.PStr SMS.info_not_sent, Py.PStr "tx7", reply) w'.
Proof.
  destruct (create_challenge_delivery_failure_writes_no_row
              (Samples.sms_env Samples.gateway_down) Samples.sms_token
              (Py.PStr "tx7") (Samples.sms_options ∅) Samples.sms_world
              (Py.GatewayError "no route")
              (Py.final_state
                 (SMS._send_sms (Samples.sms_env Samples.gateway_down)
                    Samples.sms_token "<otp>" (Samples.sms_options ∅)
                    (SMS.at_send Samples.sms_world))))
    as (Hdb & _ & Hret & _).
  - reflexivity.
  - vm_compute. congruence.
  - vm_compute. reflexivity.
  - split; [exact Hdb|].
    destruct (Hret eq_refl "now + 300" eq_refl) as [w' Hw'].
    eexists. exists w'. exact Hw'.
Defined.

(** C5 as stated fails. A truthy "exception" option does not always make
    the failed delivery raise: the option is tested with [is_true], which
    rejects truthy values such as 2. With the gateway down and
    [exception = 2] the call returns the soft message. *)
Lemma create_challenge_truthy_exception_counterexample :
  ~ SMS.truthy_exception_raises_claim.
Proof.
  intros Hclaim.
  destruct (Hclaim (Samples.sms_env Samples.gateway_down) Samples.sms_token
              Py.PNone (Samples.sms_options {[ "exception" := Py.PInt 2 ]})
              Samples.sms_world (Py.GatewayError "no route")
              (Py.final_state
                 (SMS._send_sms (Samples.sms_env Samples.gateway_down)
                    Samples.sms_token "<otp>"
                    (Samples.sms_options {[ "exception" := Py.PInt 2 ]})
                    (SMS.at_send Samples.sms_world))))
    as (e' & w' & Hraise).
  - reflexivity.
  - vm_compute. congruence.
  - vm_compute. reflexivity.
  - reflexivity.
  - assert (Hret :
      exists r w2,
        SMS.create_challenge (Samples.sms_env Samples.gateway_down)
          Samples.sms_token Py.PNone
          (Samples.sms_options {[ "exception" := Py.PInt 2 ]})
          Samples.sms_world = Py.Return r w2)
      by (eexists; eexists; vm_compute; reflexivity).
    destruct Hret as (r & w2 & Hret). rewrite Hret in Hraise.
    discriminate Hraise.
Qed.

(** C5, amended. When the delivery raises, the caller's "exception" option
    selects the failure mode through [is_true]: if [is_true] accepts its
    value, [create_challenge] raises [Exception] with the message; if the
    option is absent or [is_true] rejects its value, truthy or not, the
    delivery failure raises nothing and the [try] statement ends with
    [success = False] and the message, which are returned once the expiry
    date is computed. *)
Theorem create_challenge_failure_mode
    (E : SMS.env) (self : SMS.Token) (transactionid : Py.pyval)
    (o : SMS.options) (w : SMS.world) (e : Py.exn) (w2 : SMS.world) :
  SMS.active self = true ->
  Py.dict_get (SMS.vals o) "session" <> Py.PStr (SMS.ENROLLMENT E) ->
  SMS._send_sms E self (SMS._get_sms_text o) o (SMS.at_send w)
    = Py.Raise e w2 ->
  (SMS.is_true E (Py.dict_get (SMS.vals o) "exception") = true ->
   exists w',
     SMS.create_challenge E self transactionid o w
     = Py.Raise (Py.Exception_ SMS.info_not_sent) w') /\
  (SMS.is_true E (Py.dict_get (SMS.vals o) "exception") = false ->
   forall valid_until,
     SMS.expiry_text E (SMS._get_sms_timeout E) = Py.Ok valid_until ->
     exists w',
       SMS.create_challenge E self transactionid o w
       = Py.Return (false, Py.PStr SMS.info_not_sent, transactionid,
                    SMS.reply_dict transactionid valid_until) w') /\
  (SMS.vals o !! "exception" = None -> SMS.is_true E Py.PNone = false ->
   forall valid_until,
     SMS.expiry_text E (SMS._get_sms_timeout E) = Py.Ok valid_until ->
     exists w',
       SMS.create_challenge E self transactionid o w
       = Py.Return (false, Py.PStr SMS.info_not_sent, transactionid,
                    SMS.reply_dict transactionid valid_until) w') /\
  (SMS.is_true E (Py.dict_get (SMS.vals o) "exception") = false ->
   forall e' w',
     SMS.create_challenge E self transactionid o w = Py.Raise e' w' ->
     SMS.expiry_text E (SMS._get_sms_timeout E) = Py.Err e').
Proof.
  intros Hact Hses Hsend.
  rewrite (create_challenge_delivery_raises E self transactionid o w e w2
             Hact Hses Hsend).
  unfold SMS.handled, SMS.ends_with.
  split; [|split; [|split]].
  - intros Hex. rewrite Hex. eexists. reflexivity.
  - intros Hex t Ht. rewrite Hex, Ht. eexists. reflexivity.
  - intros Habs Hnone t Ht. unfold Py.dict_get. rewrite Habs. cbn.
    rewrite Hnone, Ht. eexists. reflexivity.
  - intros Hex e' w' Hr. rewrite Hex in Hr.
    destruct (SMS.expiry_text E (SMS._get_sms_timeout E)) as [t|e0];
      [discriminate Hr | now injection Hr as -> _].
Qed.

Lemma create_challenge_failure_mode_witness :
  (exists w',
     SMS.create_challenge (Samples.sms_env Samples.gateway_down)
       Samples.sms_token Py.PNone
       (Samples.sms_options {[ "exception" := Py.PInt 1 ]}) Samples.sms_world
     = Py.Raise (Py.Exception_ SMS.info_not_sent) w') /\
  (exists w',
     SMS.create_challenge (Samples.sms_env Samples.gateway_down)
       Samples.sms_token Py.PNone (Samples.sms_options ∅) Samples.sms_world
     = Py.Return (false, Py.PStr SMS.info_not_sent, Py.PNone,
                  SMS.reply_dict Py.PNone "now + 300") w') /\
  (exists w',
     SMS.create_challenge (Samples.sms_env Samples.gateway_down)
       Samples.sms_token Py.PNone
       (Samples.sms_options {[ "exception" := Py.PInt 2 ]}) Samples.sms_world
     = Py.Return (false, Py.PStr SMS.info_not_sent, Py.PNone,
                  SMS.reply_dict Py.PNone "now + 300") w').
Proof.
  split; [|split].
  - refine (proj1 (create_challenge_failure_mode
              (Samples.sms_env Samples.gateway_down) Samples.sms_token
              Py.PNone (Samples.sms_options {[ "exception" := Py.PInt 1 ]})
              Samples.sms_world (Py.GatewayError "no route")
              (Py.final_state
                 (SMS._send_sms (Samples.sms_env Samples.gateway_down)
                    Samples.sms_token "<otp>"
                    (Samples.sms_options {[ "exception" := Py.PInt 1 ]})
                    (SMS.at_send Samples.sms_world))) eq_refl _ _) _).
    + vm_compute. congruence.
    + vm_compute. reflexivity.
    + reflexivity.
  - refine (proj1 (proj2 (proj2 (create_challenge_failure_mode
              (Samples.sms_env Samples.gateway_down) Samples.sms_token
              Py.PNone (Samples.sms_options ∅)
              Samples.sms_world (Py.GatewayError "no route")
              (Py.final_state
                 (SMS._send_sms (Samples.sms_env Samples.gateway_down)
                    Samples.sms_token "<otp>" (Samples.sms_options ∅)
                    (SMS.at_send Samples.sms_world))) eq_refl _ _)))
              _ _ "now + 300" _).
    + vm_compute. congruence.
    + vm_compute. reflexivity.
    + reflexivity.
    + reflexivity.
    + reflexivity.
  - refine (proj1 (proj2 (create_challenge_failure_mode
              (Samples.sms_env Samples.gateway_down) Samples.sms_token
              Py.PNone (Samples.sms_options {[ "exception" := Py.PInt 2 ]})
              Samples.sms_world (Py.GatewayError "no route")
              (Py.final_state
                 (SMS._send_sms (Samples.sms_env Samples.gateway_down)
                    Samples.sms_token "<otp>"
                    (Samples.sms_options {[ "exception" := Py.PInt 2 ]})
                    (SMS.at_send Samples.sms_world))) eq_refl _ _))
              _ "now + 300" _).
    + vm_compute. congruence.
    + vm_compute. reflexivity.
    + reflexivity.
    + reflexivity.
Defined.

(** ** SMS token: the fallback of [check_otp] to the stored challenge data *)

Lemma check_otp_fallback_outcome
    (E : SMS.env) (self : SMS.Token) (anOtpVal : string)
    (counter window : Py.pyval) (o : SMS.options) (w : SMS.world) :
  SMS.hotp_check_otp E self (SMS.count w) anOtpVal counter window < 0 ->
  SMS.is_true E (SMS.get_from_config E "sms.concurrent_challenges" Py.PNone)
    = true ->
  SMS.compare_data o anOtpVal = Py.Ok true ->
  SMS.locked self = false ->
  SMS.check_otp E self anOtpVal counter window o w
  = match SMS.after_success E self o 1 w with
    | Py.Return _ w' => Py.Return 1 w'
    | Py.Raise e w' => Py.Raise e w'
    end.
Proof.
  intros Hneg Hcfg Hcmp Hlock.
  unfold SMS.check_otp, SMS.check_token_locked. rewrite Hlock.
  unfold SMS.check_otp_body.
  cbv beta iota delta [mbind mret Py.M_bind Py.M_ret Py.get_state Py.lift_res].
  apply Z.ltb_lt in Hneg. rewrite Hneg, Hcfg, Hcmp. cbn [andb].
  change (0 <=? 1) with true. cbv beta iota.
  destruct (SMS.after_success E self o 1 w); reflexivity.
Qed.

Lemma check_otp_locked
    (E : SMS.env) (self : SMS.Token) (anOtpVal : string)
    (counter window : Py.pyval) (o : SMS.options) (w : SMS.world) :
  SMS.locked self = true ->
  SMS.check_otp E self anOtpVal counter window o w
  = Py.Raise Py.TokenAdminError w.
Proof.
  intros Hlock. unfold SMS.check_otp, SMS.check_token_locked.
  now rewrite Hlock.
Qed.

(** With the auto-send policy, a success at value [ret] leaves the counter
    at [ret + 1] when the new SMS went out. *)
Lemma after_success_auto_count
    (E : SMS.env) (self : SMS.Token) (o : SMS.options) (ret : Z)
    (w w' : SMS.world) :
  SMS._get_auto_sms o = true ->
  SMS.after_success E self o ret w = Py.Return tt w' ->
  SMS.count w' = ret + 1.
Proof.
  intros Hauto Hrun. unfold SMS.after_success in Hrun. rewrite Hauto in Hrun.
  cbv beta iota delta [mbind mret Py.M_bind Py.M_ret SMS.inc_otp_counter
                       Py.modify] in Hrun.
  destruct (keeps_send_sms E self (SMS._get_sms_text o) o
              (SMS.World (ret + 1) (SMS.db w) (SMS.outbox w) (SMS.log w)))
    as [_ Hcount].
  destruct (SMS._send_sms E self (SMS._get_sms_text o) o
              (SMS.World (ret + 1) (SMS.db w) (SMS.outbox w) (SMS.log w)))
    as [[success message] s|e s]; [|discriminate Hrun].
  cbn in Hcount. unfold SMS.write_log, Py.modify in Hrun.
  inversion Hrun; subst. exact Hcount.
Qed.

(** C4 as stated fails. The fallback does not always make [check_otp]
    return a success value: with the gateway down the post-check message cannot be sent and
    [check_otp] ends with the gateway's exception. *)
Lemma check_otp_fallback_counterexample :
  ~ SMS.fallback_returns_claim.
Proof.
  intros Hclaim.
  destruct (Hclaim (Samples.sms_env Samples.gateway_down) Samples.sms_token
              "123456" Py.PNone Py.PNone
              (Samples.sms_options {[ "data" := Py.PStr "123456" ]})
              Samples.sms_world)
    as (r & w' & Hret & _).
  - vm_compute. reflexivity.
  - reflexivity.
  - reflexivity.
  - assert (Hraise :
      exists w2,
        SMS.check_otp (Samples.sms_env Samples.gateway_down) Samples.sms_token
          "123456" Py.PNone Py.PNone
          (Samples.sms_options {[ "data" := Py.PStr "123456" ]})
          Samples.sms_world
        = Py.Raise (Py.GatewayError "no route") w2)
      by (eexists; vm_compute; reflexivity).
    destruct Hraise as [w2 Hraise]. rewrite Hraise in Hret. discriminate Hret.
Qed.

(** C4, amended. When the HOTP check finds nothing, concurrent challenges
    are switched on and the stored challenge data equals the submitted
    value, [check_otp] on a token that is not locked sets its result to 1:
    it returns 1 when the SMS that follows a success (the new OTP under the
    auto-send policy, the post-check message otherwise) goes out, and in no
    case returns a negative value. *)
Theorem check_otp_fallback_succeeds_unless_sending_raises
    (E : SMS.env) (self : SMS.Token) (anOtpVal : string)
    (counter window : Py.pyval) (o : SMS.options) (w : SMS.world) :
  SMS.hotp_check_otp E self (SMS.count w) anOtpVal counter window < 0 ->
  SMS.is_true E (SMS.get_from_config E "sms.concurrent_challenges" Py.PNone)
    = true ->
  SMS.compare_data o anOtpVal = Py.Ok true ->
  SMS.locked self = false ->
  (forall w', SMS.after_success E self o 1 w = Py.Return tt w' ->
              SMS.check_otp E self anOtpVal counter window o w
              = Py.Return 1 w') /\
  (forall r w', SMS.check_otp E self anOtpVal counter window o w
                = Py.Return r w' -> 0 <= r).
Proof.
  intros Hneg Hcfg Hcmp Hlock.
  rewrite (check_otp_fallback_outcome E self anOtpVal counter window o w
             Hneg Hcfg Hcmp Hlock).
  split.
  - intros w' Hrun. now rewrite Hrun.
  - intros r w' Hret.
    destruct (SMS.after_success E self o 1 w); inversion Hret; lia.
Qed.

Lemma check_otp_fallback_succeeds_unless_sending_raises_witness :
  exists w',
    SMS.check_otp (Samples.sms_env Samples.gateway_up) Samples.sms_token
      "123456" Py.PNone Py.PNone
      (Samples.sms_options {[ "data" := Py.PStr "123456" ]})
      Samples.sms_world
    = Py.Return 1 w'.
Proof.
  eexists.
  refine (proj1 (check_otp_fallback_succeeds_unless_sending_raises
            (Samples.sms_env Samples.gateway_up) Samples.sms_token
            "123456" Py.PNone Py.PNone
            (Samples.sms_options {[ "data" := Py.PStr "123456" ]})
            Samples.sms_world _ eq_refl eq_refl eq_refl) _ _).
  - vm_compute. reflexivity.
  - vm_compute. reflexivity.
Defined.

(** C10. Under the fallback (the HOTP check negative, concurrent challenges
    on, the stored data equal to the submitted value) every value that
    [check_otp] returns is the constant 1, whatever the counter of the
    token; on a token that is not locked it is returned as soon as the
    follow-up SMS goes out, and under the auto-send policy the counter is
    then left at 2, not at the successor of the counter that produced the
    value. *)
Theorem check_otp_fallback_returns_constant_one
    (E : SMS.env) (self : SMS.Token) (anOtpVal : string)
    (counter window : Py.pyval) (o : SMS.options) (w : SMS.world) :
  SMS.hotp_check_otp E self (SMS.count w) anOtpVal counter window < 0 ->
  SMS.is_true E (SMS.get_from_config E "sms.concurrent_challenges" Py.PNone)
    = true ->
  SMS.compare_data o anOtpVal = Py.Ok true ->
  (forall r w', SMS.check_otp E self anOtpVal counter window o w
                = Py.Return r w' -> r = 1) /\
  (SMS.locked self = false ->
   forall w', SMS.after_success E self o 1 w = Py.Return tt w' ->
              SMS.check_otp E self anOtpVal counter window o w
              = Py.Return 1 w') /\
  (SMS._get_auto_sms o = true ->
   forall r w', SMS.check_otp E self anOtpVal counter window o w
                = Py.Return r w' -> SMS.count w' = 2).
Proof.
  intros Hneg Hcfg Hcmp.
  destruct (SMS.locked self) eqn:Hlock.
  - rewrite (check_otp_locked E self anOtpVal counter window o w Hlock).
    split; [|split]; try discriminate; intros; discriminate.
  - rewrite (check_otp_fallback_outcome E self anOtpVal counter window o w
               Hneg Hcfg Hcmp Hlock).
    split; [|split].
    + intros r w' Hret.
      destruct (SMS.after_success E self o 1 w); now inversion Hret.
    + intros _ w' Hrun. now rewrite Hrun.
    + intros Hauto r w' Hret.
      destruct (SMS.after_success E self o 1 w) as [[] s|e s] eqn:Hrun;
        inversion Hret; subst.
      apply (after_success_auto_count E self o 1 w w' Hauto Hrun).
Qed.

Lemma check_otp_fallback_returns_constant_one_witness :
  (exists w',
     SMS.check_otp (Samples.sms_env Samples.gateway_up) Samples.sms_token
       "123456" Py.PNone Py.PNone
       (Samples.sms_options {[ "data" := Py.PStr "123456" ]})
       (SMS.World 41 [] [] [])
     = Py.Return 1 w') /\
  (forall r w',
     SMS.check_otp (Samples.sms_env Samples.gateway_up) Samples.sms_token
       "123456" Py.PNone Py.PNone Samples.sms_options_auto
       (SMS.World 41 [] [] [])
     = Py.Return r w' -> SMS.count w' = 2).
Proof.
  split.
  - eexists.
    refine (proj1 (proj2 (check_otp_fallback_returns_constant_one
              (Samples.sms_env Samples.gateway_up) Samples.sms_token
              "123456" Py.PNone Py.PNone
              (Samples.sms_options {[ "data" := Py.PStr "123456" ]})
              (SMS.World 41 [] [] []) _ eq_refl eq_refl)) eq_refl _ _).
    + vm_compute. reflexivity.
    + vm_compute. reflexivity.
  - refine (proj2 (proj2 (check_otp_fallback_returns_constant_one
              (Samples.sms_env Samples.gateway_up) Samples.sms_token
              "123456" Py.PNone Py.PNone Samples.sms_options_auto
              (SMS.World 41 [] [] []) _ eq_refl eq_refl)) eq_refl).
    vm_compute. reflexivity.
Defined.

(** ** SMS token: the text of the message *)

Lemma plain_text_cons (c : ascii) (s : string) :
  SMS.plain_text (String c s) = true ->
  Ascii.eqb c "<" = false /\ Ascii.eqb c "{" = false
  /\ Ascii.eqb c "}" = false /\ SMS.plain_text s = true.
Proof.
  unfold SMS.plain_text. cbn [list_ascii_of_string forallb].
  rewrite !andb_true_iff, !negb_true_iff. tauto.
Qed.









(** * Further properties of the modelled code *)

(** ** MD5 and [calcOtp]: the shape of an OTP value *)

Lemma le_bytes_length (n : nat) (x : Z) :
  List.length (MD5.le_bytes n x) = n.
Proof.
  revert x. induction n as [|n IH]; intros x; simpl; [reflexivity|].
  now rewrite IH.
Qed.

Lemma le_bytes_range (n : nat) (x b : Z) :
  b ∈ MD5.le_bytes n x -> 0 <= b < 256.
Proof.
  revert x. induction n as [|n IH]; intros x Hb; simpl in Hb.
  - inversion Hb.
  - apply elem_of_cons in Hb as [-> | Hb]; [|exact (IH _ Hb)].
    change 255 with (Z.ones 8). rewrite Z.land_ones by lia.
    apply Z.mod_pos_bound. lia.
Qed.

Lemma digest_length (msg : list Z) : List.length (MD5.digest msg) = 16%nat.
Proof.
  unfold MD5.digest.
  destruct (fold_left MD5.compress _ MD5.init) as [A B C D].
  rewrite !length_app, !le_bytes_length. reflexivity.
Qed.

Lemma digest_range (msg : list Z) (b : Z) :
  b ∈ MD5.digest msg -> 0 <= b < 256.
Proof.
  unfold MD5.digest.
  destruct (fold_left MD5.compress _ MD5.init) as [A B C D].
  rewrite !elem_of_app.
  intros [H | [H | [H | H]]]; exact (le_bytes_range _ _ _ H).
Qed.

Lemma hex_digit_is_hex (n : Z) :
  0 <= n < 16 -> Py.is_hex (MD5.hex_digit n) = true.
Proof.
  intros Hn. rewrite <- (Z2Nat.id n) by lia.
  assert (Hk : (Z.to_nat n < 16)%nat) by lia.
  clear Hn. revert Hk. generalize (Z.to_nat n). intros k Hk.
  do 16 (destruct k as [|k]; [reflexivity|]). lia.
Qed.

Lemma hex_length (bs : list Z) :
  String.length (MD5.hex bs) = (2 * List.length bs)%nat.
Proof.
  induction bs as [|b bs IH]; simpl; [reflexivity|]. rewrite IH. lia.
Qed.

Lemma hex_is_hex (bs : list Z) :
  (forall b, b ∈ bs -> 0 <= b < 256) ->
  forallb Py.is_hex (list_ascii_of_string (MD5.hex bs)) = true.
Proof.
  induction bs as [|b bs IH]; intros Hr; [reflexivity|].
  assert (Hb : 0 <= b < 256) by (apply Hr; left).
  cbn [MD5.hex list_ascii_of_string forallb].
  rewrite !hex_digit_is_hex.
  - apply IH. intros b' Hb'. apply Hr. now right.
  - change 15 with (Z.ones 4). rewrite Z.land_ones by lia.
    apply Z.mod_pos_bound. lia.
  - rewrite Z.shiftr_div_pow2 by lia. change (2 ^ 4) with 16.
    split; [apply Z.div_pos; lia | apply Z.div_lt_upper_bound; lia].
Qed.

Lemma substring_prefix_length (n : nat) (s : string) :
  String.length (String.substring 0 n s) = Nat.min n (String.length s).
Proof.
  revert s. induction n as [|n IH]; intros [|c s]; simpl; try reflexivity.
  now rewrite IH.
Qed.

Lemma substring_prefix_forallb (P : ascii -> bool) (n : nat) (s : string) :
  forallb P (list_ascii_of_string s) = true ->
  forallb P (list_ascii_of_string (String.substring 0 n s)) = true.
Proof.
  revert s. induction n as [|n IH]; intros [|c s]; simpl; intros H;
    try reflexivity.
  apply andb_true_iff in H as [Hc Hs]. rewrite Hc. now apply IH.
Qed.

Lemma hexdigest_length (data : string) :
  String.length (MD5.hexdigest data) = 32%nat.
Proof.
  unfold MD5.hexdigest. now rewrite hex_length, digest_length.
Qed.

(** X1. [calcOtp] answers a string of lowercase hexadecimal digits, cut
    from the 32 digits of the MD5 value as the slice [[:digits]] cuts:
    [digits] of them for [0 <= digits <= 32], all 32 beyond that, and for
    a negative [digits] all but the last [-digits]. *)
Theorem calcOtp_shape
    (self : MOTP.mTimeOtp) (counter : Z) (key0 pin0 : option string) :
  String.length (MOTP.calcOtp self counter key0 pin0)
  = Z.to_nat (if 0 <=? MOTP.digits self
              then Z.min (MOTP.digits self) 32
              else Z.max 0 (32 + MOTP.digits self))
  /\ forallb Py.is_hex
       (list_ascii_of_string (MOTP.calcOtp self counter key0 pin0)) = true.
Proof.
  unfold MOTP.calcOtp, Py.slice_to. split.
  - destruct (0 <=? MOTP.digits self) eqn:Hd;
      rewrite substring_prefix_length, hexdigest_length; lia.
  - destruct (0 <=? MOTP.digits self);
      apply substring_prefix_forallb; unfold MD5.hexdigest;
      apply hex_is_hex, digest_range.
Qed.

(** ** mOTP: what [checkOtp] can answer *)

Lemma scan_seqZ_spec
    (self : MOTP.mTimeOtp) (key0 pin0 : option string) (anOtpVal : string)
    (k : nat) (a r0 : Z) :
  (MOTP.scan self key0 pin0 anOtpVal (seqZ a (Z.of_nat k)) r0 = r0 /\
   forall j, a <= j < a + Z.of_nat k ->
             MOTP.matches self key0 pin0 anOtpVal j = false) \/
  (a <= MOTP.scan self key0 pin0 anOtpVal (seqZ a (Z.of_nat k)) r0
     < a + Z.of_nat k /\
   MOTP.matches self key0 pin0 anOtpVal
     (MOTP.scan self key0 pin0 anOtpVal (seqZ a (Z.of_nat k)) r0) = true /\
   forall j,
     a <= j < MOTP.scan self key0 pin0 anOtpVal (seqZ a (Z.of_nat k)) r0 ->
     MOTP.matches self key0 pin0 anOtpVal j = false).
Proof.
  revert a. induction k as [|k IH]; intros a.
  - left. split; [reflexivity | intros j Hj; lia].
  - rewrite seqZ_cons by lia.
    replace (Z.pred (Z.of_nat (S k))) with (Z.of_nat k) by lia.
    cbn [MOTP.scan].
    destruct (MOTP.matches self key0 pin0 anOtpVal a) eqn:Ha.
    + right. split; [lia|]. split; [exact Ha | intros j Hj; lia].
    + destruct (IH (Z.succ a)) as [[Heq Hno] | (Hin & Hm & Hfirst)].
      * left. split; [exact Heq|]. intros j Hj.
        destruct (Z.eq_dec j a) as [-> | Hne]; [exact Ha | apply Hno; lia].
      * right. split; [lia|]. split; [exact Hm|]. intros j Hj.
        destruct (Z.eq_dec j a) as [-> | Hne]; [exact Ha | apply Hfirst; lia].
Qed.

Lemma scan_range_spec
    (self : MOTP.mTimeOtp) (key0 pin0 : option string) (anOtpVal : string)
    (a b r0 : Z) :
  (MOTP.scan self key0 pin0 anOtpVal (Py.range a b) r0 = r0 /\
   forall j, a <= j < b -> MOTP.matches self key0 pin0 anOtpVal j = false) \/
  (a <= MOTP.scan self key0 pin0 anOtpVal (Py.range a b) r0 < b /\
   MOTP.matches self key0 pin0 anOtpVal
     (MOTP.scan self key0 pin0 anOtpVal (Py.range a b) r0) = true /\
   forall j,
     a <= j < MOTP.scan self key0 pin0 anOtpVal (Py.range a b) r0 ->
     MOTP.matches self key0 pin0 anOtpVal j = false).
Proof.
  unfold Py.range. destruct (Z_le_gt_dec 0 (b - a)) as [Hn | Hn].
  - rewrite <- (Z2Nat.id (b - a)) by exact Hn.
    destruct (scan_seqZ_spec self key0 pin0 anOtpVal (Z.to_nat (b - a)) a r0)
      as [[Heq Hno] | (Hin & Hm & Hfirst)].
    + left. split; [exact Heq | intros j Hj; apply Hno; lia].
    + right. split; [lia|]. split; [exact Hm | exact Hfirst].
  - left. rewrite seqZ_nil by lia. split; [reflexivity | intros j Hj; lia].
Qed.

Lemma checkOtp_accepts_scan
    (self : MOTP.mTimeOtp) (anOtpVal : string) (w : Z)
    (options : option (gmap string Z)) (clock : Z)
    (key0 pin0 : option string) (r : Z) :
  MOTP.secrets self = Py.Ok (key0, pin0) ->
  MOTP.checkOtp self anOtpVal w options clock = Py.Ok r ->
  r <> -1 ->
  r = MOTP.scan self key0 pin0 anOtpVal
        (Py.range (MOTP.base_slice options clock - w * 2)
                  (MOTP.base_slice options clock + w * 2)) (-1)
  /\ MOTP.oldtime self < r.
Proof.
  intros Hsec Hret Hne. unfold MOTP.checkOtp in Hret. rewrite Hsec in Hret.
  destruct (Z.leb_spec
              (MOTP.scan self key0 pin0 anOtpVal
                 (Py.range (MOTP.base_slice options clock - w * 2)
                           (MOTP.base_slice options clock + w * 2)) (-1))
              (MOTP.oldtime self)) as [Hle | Hgt];
    inversion Hret as [Hr]; [congruence|].
  split; [reflexivity | exact Hgt].
Qed.

(** X2. An answer of [checkOtp] other than -1 is sound: it is a slice of
    the scanned range [base - 2w <= r < base + 2w] whose OTP equals the
    submitted value, it lies strictly above [oldtime], and no lower slice of
    the range matches (the lowest matching slice wins). *)
Theorem checkOtp_answer_sound
    (self : MOTP.mTimeOtp) (anOtpVal : string) (w : Z)
    (options : option (gmap string Z)) (clock : Z)
    (key0 pin0 : option string) (r : Z) :
  MOTP.secrets self = Py.Ok (key0, pin0) ->
  MOTP.checkOtp self anOtpVal w options clock = Py.Ok r ->
  r <> -1 ->
  MOTP.base_slice options clock - 2 * w <= r
    < MOTP.base_slice options clock + 2 * w
  /\ MOTP.matches self key0 pin0 anOtpVal r = true
  /\ MOTP.oldtime self < r
  /\ forall j, MOTP.base_slice options clock - 2 * w <= j < r ->
               MOTP.matches self key0 pin0 anOtpVal j = false.
Proof.
  intros Hsec Hret Hne.
  destruct (checkOtp_accepts_scan self anOtpVal w options clock key0 pin0 r
              Hsec Hret Hne) as [Hr Hold].
  destruct (scan_range_spec self key0 pin0 anOtpVal
              (MOTP.base_slice options clock - w * 2)
              (MOTP.base_slice options clock + w * 2) (-1))
    as [[Heq _] | (Hin & Hm & Hfirst)]; rewrite <- Hr in *.
  - congruence.
  - split; [lia|]. split; [exact Hm|]. split; [exact Hold|].
    intros j Hj. apply Hfirst. lia.
Qed.

Lemma checkOtp_answer_sound_witness :
  MOTP.matches Samples.motp_token (Some "0123456789abcdef") (Some "1234")
    "60db3b" 129612120 = true
  /\ MOTP.oldtime Samples.motp_token < 129612120.
Proof.
  destruct (checkOtp_answer_sound Samples.motp_token "60db3b" 1
              Samples.motp_options 0 (Some "0123456789abcdef") (Some "1234")
              129612120) as (_ & Hm & Hold & _).
  - reflexivity.
  - vm_compute. reflexivity.
  - lia.
  - split; [exact Hm | exact Hold].
Defined.

(** X3. With a window parameter of zero or less the scanned range is
    empty: [checkOtp] answers -1 for every submitted value, the OTP of the
    base slice included. *)
Theorem checkOtp_empty_window
    (self : MOTP.mTimeOtp) (anOtpVal : string) (w : Z)
    (options : option (gmap string Z)) (clock : Z)
    (key0 pin0 : option string) :
  MOTP.secrets self = Py.Ok (key0, pin0) ->
  w <= 0 ->
  MOTP.checkOtp self anOtpVal w options clock = Py.Ok (-1).
Proof.
  intros Hsec Hw. unfold MOTP.checkOtp, Py.range. rewrite Hsec.
  rewrite seqZ_nil by lia. cbn [MOTP.scan].
  now destruct (-1 <=? MOTP.oldtime self).
Qed.

Lemma checkOtp_empty_window_witness :
  MOTP.checkOtp Samples.motp_token
    (MOTP.calcOtp Samples.motp_token 129612120 None None) 0
    Samples.motp_options 0 = Py.Ok (-1).
Proof.
  apply (checkOtp_empty_window Samples.motp_token _ 0 Samples.motp_options 0
           (Some "0123456789abcdef") (Some "1234")).
  - reflexivity.
  - lia.
Defined.

Lemma with_oldtime_scan
    (self : MOTP.mTimeOtp) (t : Z) (key0 pin0 : option string)
    (anOtpVal : string) (l : list Z) (r0 : Z) :
  MOTP.scan (MOTP.with_oldtime self t) key0 pin0 anOtpVal l r0
  = MOTP.scan self key0 pin0 anOtpVal l r0.
Proof.
  induction l as [|i l IH]; [reflexivity|]. cbn [MOTP.scan].
  change (MOTP.matches (MOTP.with_oldtime self t) key0 pin0 anOtpVal i)
    with (MOTP.matches self key0 pin0 anOtpVal i).
  now rewrite IH.
Qed.

(** X4. Replay protection across calls. Once [checkOtp] has accepted a
    slice [r] and the caller checks with [oldtime = r], the same value
    submitted again for the same time and window is answered with -1, and
    whatever is accepted afterwards lies strictly above [r]. *)
Theorem checkOtp_no_replay
    (self : MOTP.mTimeOtp) (anOtpVal : string) (w : Z)
    (options : option (gmap string Z)) (clock : Z) (r : Z) :
  MOTP.checkOtp self anOtpVal w options clock = Py.Ok r ->
  r <> -1 ->
  MOTP.checkOtp (MOTP.with_oldtime self r) anOtpVal w options clock
    = Py.Ok (-1)
  /\ forall (otp' : string) (w' : Z) (options' : option (gmap string Z))
            (clock' r' : Z),
       MOTP.checkOtp (MOTP.with_oldtime self r) otp' w' options' clock'
         = Py.Ok r' ->
       r' <> -1 -> r < r'.
Proof.
  intros Hret Hne.
  destruct (MOTP.secrets self) as [[key0 pin0]|e] eqn:Hsec;
    [|unfold MOTP.checkOtp in Hret; rewrite Hsec in Hret; discriminate].
  assert (Hsec' : MOTP.secrets (MOTP.with_oldtime self r)
                  = Py.Ok (key0, pin0)) by exact Hsec.
  destruct (checkOtp_accepts_scan self anOtpVal w options clock key0 pin0 r
              Hsec Hret Hne) as [Hr _].
  split.
  - unfold MOTP.checkOtp. rewrite Hsec'.
    rewrite with_oldtime_scan, <- Hr. cbn [MOTP.oldtime MOTP.with_oldtime].
    now rewrite Z.leb_refl.
  - intros otp' w' options' clock' r' Hret' Hne'.
    exact (proj2 (checkOtp_accepts_scan (MOTP.with_oldtime self r) otp' w'
                    options' clock' key0 pin0 r' Hsec' Hret' Hne')).
Qed.

Lemma checkOtp_no_replay_witness :
  MOTP.checkOtp (MOTP.with_oldtime Samples.motp_token 129612120) "60db3b" 1
    Samples.motp_options 0 = Py.Ok (-1).
Proof.
  refine (proj1 (checkOtp_no_replay Samples.motp_token "60db3b" 1
            Samples.motp_options 0 129612120 _ _)).
  - vm_compute. reflexivity.
  - lia.
Defined.

(** ** LUKS: the supported case *)

Lemma luks_supported_unfold
    (E : LUKS.env) (token_type serial : string) (challenge : option string)
    (w : LUKS.world) :
  Py.lower token_type = "totp" ->
  Py.startswith "UBOM" serial = true ->
  LUKS.get_authentication_item E token_type serial challenge w
  = let w1 := LUKS.World
                (LUKS.rng_pos w + match challenge with
                                  | None => 32
                                  | Some _ => 0
                                  end)%nat (LUKS.log w) in
    let chx := LUKS.challenge_hex_of E challenge w in
    match LUKS.get_tokens E serial true with
    | [t] =>
        match LUKS.get_otp t chx false with
        | Py.Ok (_, _, otp, _) =>
            Py.Return (<["response" := otp]> (<["challenge" := chx]> ∅)) w1
        | Py.Err e => Py.Raise e w1
        end
    | _ => Py.Return (<["challenge" := chx]> ∅) w1
    end.
Proof.
  intros Hty Hser. unfold LUKS.get_authentication_item.
  rewrite Hty, Hser. cbn [String.eqb Ascii.eqb Bool.eqb andb].
  destruct w as [pos lg].
  destruct challenge as [c|];
    cbv beta iota delta [mbind mret Py.M_bind Py.M_ret LUKS.geturandom
                         Py.lift_res Py.raise LUKS.challenge_hex_of
                         LUKS.rng_pos LUKS.log];
    rewrite ?Nat.add_0_r;
    destruct (LUKS.get_tokens E serial true) as [|t [|t' ts]];
    cbn [List.length Nat.eqb]; try reflexivity;
    destruct (LUKS.get_otp t _ false) as [[[[r_ p_] otp] c_]|e]; reflexivity.
Qed.

(** ** LUKS: the unsupported case, for the proofs below *)

Lemma luks_unsupported_args
    (E : LUKS.env) (token_type serial : string) (challenge : option string)
    (w : LUKS.world) :
  Py.lower token_type <> "totp" \/ Py.startswith "UBOM" serial = false ->
  exists line,
    LUKS.get_authentication_item E token_type serial challenge w
    = Py.Return ∅ (LUKS.World (LUKS.rng_pos w) (LUKS.log w ++ [line])%list).
Proof.
  intros Hcond. unfold LUKS.get_authentication_item.
  assert (Hguard : String.eqb (Py.lower token_type) "totp"
                   && Py.startswith "UBOM" serial = false).
  { destruct Hcond as [Hty | Hser].
    - apply String.eqb_neq in Hty. now rewrite Hty.
    - rewrite Hser. apply andb_false_r. }
  rewrite Hguard. eexists. reflexivity.
Qed.

(** X5. For type "totp", a serial starting with "UBOM" and exactly one
    active token whose [get_otp] answers, the result holds the challenge
    under "challenge" and under "response" the OTP that [get_otp] computed
    for this very challenge without truncation. *)
Theorem luks_single_token_pair
    (E : LUKS.env) (token_type serial : string) (challenge : option string)
    (w : LUKS.world) (t : LUKS.Token) (r_ : Z) (p_ otp c_ : string) :
  Py.lower token_type = "totp" ->
  Py.startswith "UBOM" serial = true ->
  LUKS.get_tokens E serial true = [t] ->
  LUKS.get_otp t (LUKS.challenge_hex_of E challenge w) false
    = Py.Ok (r_, p_, otp, c_) ->
  exists (ret : gmap string string) (w' : LUKS.world),
    LUKS.get_authentication_item E token_type serial challenge w
    = Py.Return ret w'
    /\ ret !! "challenge" = Some (LUKS.challenge_hex_of E challenge w)
    /\ ret !! "response" = Some otp
    /\ dom ret = {[ "challenge"; "response" ]}.
Proof.
  intros Hty Hser Htoks Hotp.
  rewrite (luks_supported_unfold E token_type serial challenge w Hty Hser).
  cbv zeta. rewrite Htoks, Hotp. eexists. eexists.
  split; [reflexivity|]. split; [|split].
  - rewrite lookup_insert_ne by discriminate. apply lookup_insert_eq.
  - apply lookup_insert_eq.
  - rewrite !dom_insert_L, dom_empty_L. set_solver.
Qed.

Lemma luks_single_token_pair_witness :
  exists (ret : gmap string string) (w' : LUKS.world),
    LUKS.get_authentication_item Samples.luks_env_single "totp" "UBOM0002"
      (Some "00ff") Samples.luks_world
    = Py.Return ret w'
    /\ ret !! "challenge" = Some "00ff"
    /\ ret !! "response" = Some "a1b2c3"
    /\ dom ret = {[ "challenge"; "response" ]}.
Proof.
  apply (luks_single_token_pair Samples.luks_env_single "totp" "UBOM0002"
           (Some "00ff") Samples.luks_world Samples.luks_token 1 "" "a1b2c3" "");
    reflexivity.
Defined.

(** X6. In the supported case the call draws random bytes only when no
    challenge was given: then exactly 32 bytes are taken and the challenge
    is their 64 hexadecimal digits; with a challenge from the caller the
    random source is not touched. The log stays as it was, also when
    [get_otp] raises. *)
Theorem luks_challenge_randomness
    (E : LUKS.env) (token_type serial : string) (challenge : option string)
    (w : LUKS.world) :
  Py.lower token_type = "totp" ->
  Py.startswith "UBOM" serial = true ->
  Py.final_state (LUKS.get_authentication_item E token_type serial challenge w)
  = LUKS.World (LUKS.rng_pos w + match challenge with
                                 | None => 32
                                 | Some _ => 0
                                 end)%nat (LUKS.log w)
  /\ (challenge = None ->
      String.length (LUKS.challenge_hex_of E challenge w) = 64%nat).
Proof.
  intros Hty Hser.
  rewrite (luks_supported_unfold E token_type serial challenge w Hty Hser).
  cbv zeta. split.
  - destruct (LUKS.get_tokens E serial true) as [|t [|t' ts]];
      try reflexivity.
    destruct (LUKS.get_otp t _ false) as [[[[r_ p_] otp] c_]|e]; reflexivity.
  - intros ->. unfold LUKS.challenge_hex_of, LUKS.hexlify_and_unicode.
    rewrite hex_length, length_map, length_seq. reflexivity.
Qed.

Lemma luks_challenge_randomness_witness :
  Py.final_state
    (LUKS.get_authentication_item Samples.luks_env_single "totp" "UBOM0002"
       None Samples.luks_world)
  = LUKS.World 32 [].
Proof.
  refine (proj1 (luks_challenge_randomness Samples.luks_env_single "totp"
            "UBOM0002" None Samples.luks_world _ _)); reflexivity.
Defined.

(** X7. [get_authentication_item] raises in one situation only: the type
    and serial are supported, exactly one active token is found and the
    [get_otp] of that token raises; the exception is the one of
    [get_otp]. *)
Theorem luks_raises_only_from_get_otp
    (E : LUKS.env) (token_type serial : string) (challenge : option string)
    (w : LUKS.world) (e : Py.exn) :
  (exists w', LUKS.get_authentication_item E token_type serial challenge w
              = Py.Raise e w')
  <-> (Py.lower token_type = "totp"
       /\ Py.startswith "UBOM" serial = true
       /\ exists t, LUKS.get_tokens E serial true = [t]
                    /\ LUKS.get_otp t (LUKS.challenge_hex_of E challenge w)
                         false = Py.Err e).
Proof.
  split.
  - intros [w' Hraise].
    destruct (String.eqb_spec (Py.lower token_type) "totp") as [Hty | Hty].
    + destruct (Py.startswith "UBOM" serial) eqn:Hser.
      * rewrite (luks_supported_unfold E token_type serial challenge w
                   Hty Hser) in Hraise.
        cbv zeta in Hraise. split; [exact Hty|]. split; [reflexivity|].
        destruct (LUKS.get_tokens E serial true) as [|t [|t' ts]];
          try discriminate Hraise.
        exists t. split; [reflexivity|].
        destruct (LUKS.get_otp t _ false) as [[[[r_ p_] otp] c_]|e'];
          inversion Hraise. reflexivity.
      * destruct (luks_unsupported_args E token_type serial challenge w)
          as [line Hret]; [now right|].
        rewrite Hret in Hraise. discriminate Hraise.
    + destruct (luks_unsupported_args E token_type serial challenge w)
        as [line Hret]; [now left|].
      rewrite Hret in Hraise. discriminate Hraise.
  - intros (Hty & Hser & t & Htoks & Hotp).
    rewrite (luks_supported_unfold E token_type serial challenge w Hty Hser).
    cbv zeta. rewrite Htoks, Hotp. eexists. reflexivity.
Qed.

(** ** Machine applications: the registry of base.py *)

Lemma rsplit1_cons (sep c : ascii) (r : string) :
  Py.rsplit1 sep (String c r)
  = match Py.rsplit1 sep r with
    | Some (a, b) => Some (String c a, b)
    | None => if Ascii.eqb c sep then Some (EmptyString, r) else None
    end.
Proof. reflexivity. Qed.

Lemma rsplit1_no_sep (sep : ascii) (b : string) :
  forallb (fun c => negb (Ascii.eqb c sep)) (list_ascii_of_string b) = true ->
  Py.rsplit1 sep b = None.
Proof.
  induction b as [|c b IH]; intros H; [reflexivity|].
  cbn in H. apply andb_true_iff in H as [Hc Hb].
  rewrite rsplit1_cons, (IH Hb).
  apply negb_true_iff in Hc. now rewrite Hc.
Qed.

Lemma rsplit1_app (sep : ascii) (a b : string) :
  forallb (fun c => negb (Ascii.eqb c sep)) (list_ascii_of_string b) = true ->
  Py.rsplit1 sep (a ++ String sep b) = Some (a, b).
Proof.
  intros Hb. induction a as [|c a IH].
  - change (Py.rsplit1 sep (String sep b) = Some (EmptyString, b)).
    rewrite rsplit1_cons, (rsplit1_no_sep sep b Hb).
    now rewrite Ascii.eqb_refl.
  - change (Py.rsplit1 sep (String c (a ++ String sep b))
            = Some (String c a, b)).
    now rewrite rsplit1_cons, IH.
Qed.

Lemma string_app_assoc (a b c : string) : (a ++ b) ++ c = a ++ (b ++ c).
Proof.
  induction a as [|x a IH]; [reflexivity|].
  change (String x ((a ++ b) ++ c) = String x (a ++ (b ++ c))).
  now rewrite IH.
Qed.

Lemma string_app_length (a b : string) :
  String.length (a ++ b) = (String.length a + String.length b)%nat.
Proof.
  induction a as [|x a IH]; [reflexivity|].
  change (S (String.length (a ++ b))
          = S (String.length a + String.length b)).
  now rewrite IH.
Qed.

Lemma rsplit1_inv (sep : ascii) (s a b : string) :
  Py.rsplit1 sep s = Some (a, b) ->
  s = a ++ String sep b
  /\ forallb (fun c => negb (Ascii.eqb c sep)) (list_ascii_of_string b) = true.
Proof.
  revert a. induction s as [|c s IH]; intros a H; [discriminate H|].
  rewrite rsplit1_cons in H.
  destruct (Py.rsplit1 sep s) as [[a' b']|] eqn:Hs.
  - inversion H; subst. destruct (IH a' eq_refl) as [-> Hb].
    split; [reflexivity | exact Hb].
  - destruct (Ascii.eqb_spec c sep) as [-> | Hne]; [|discriminate H].
    inversion H; subst. split; [reflexivity|].
    clear IH H. induction b as [|c b IHb]; [reflexivity|].
    rewrite rsplit1_cons in Hs.
    destruct (Py.rsplit1 sep b) as [[a' b']|]; [discriminate Hs|].
    destruct (Ascii.eqb c sep) eqn:Hc; [discriminate Hs|].
    cbn. rewrite Hc. cbn. now apply IHb.
Qed.

Lemma module_name_of_class (m : string) :
  Applications.module_name_of
    (Applications.package ++ m ++ ".MachineApplication")
  = Applications.package ++ m.
Proof.
  unfold Applications.module_name_of.
  change ".MachineApplication" with (String "." "MachineApplication").
  rewrite <- string_app_assoc. now rewrite rsplit1_app.
Qed.

(** X8. The class list and the class dict agree on module names: the list
    holds one name "edumfa.lib.applications.<m>.MachineApplication" for
    every directory entry that ends with ".py" and is not "__init__.py"
    (so base.py is listed, and non-Python files are not), where [m] is the
    entry up to its first dot, and the module that the class dict imports
    for such a name is "edumfa.lib.applications.<m>". *)
Theorem class_list_names (E : Applications.env) (long : string) :
  In long (Applications.get_machine_application_class_list E)
  <-> exists f,
        In f (Applications.listdir E)
        /\ Py.endswith ".py" f = true
        /\ f <> "__init__.py"
        /\ long = Applications.package ++ Applications.first_part f
                    ++ ".MachineApplication"
        /\ Applications.module_name_of long
           = Applications.package ++ Applications.first_part f.
Proof.
  unfold Applications.get_machine_application_class_list.
  rewrite in_map_iff. split.
  - intros (m & <- & Hm). apply in_map_iff in Hm as (f & <- & Hf).
    apply filter_In in Hf as [Hin Hc].
    apply andb_true_iff in Hc as [Hpy Hinit].
    exists f. split; [exact Hin|]. split; [exact Hpy|].
    split; [|split; [reflexivity | apply module_name_of_class]].
    apply negb_true_iff, String.eqb_neq in Hinit. exact Hinit.
  - intros (f & Hin & Hpy & Hinit & -> & _).
    exists (Applications.first_part f). split; [reflexivity|].
    apply in_map_iff. exists f. split; [reflexivity|].
    apply filter_In. split; [exact Hin|].
    rewrite Hpy. apply String.eqb_neq in Hinit. now rewrite Hinit.
Qed.

Lemma class_dict_loop_keys
    (E : Applications.env) (names : list string)
    (ret d : gmap string Applications.AppClass)
    (app : string) (c : Applications.AppClass) :
  Applications.class_dict_loop E names ret = Py.Ok d ->
  d !! app = Some c ->
  ret !! app = Some c
  \/ exists long,
       In long names
       /\ Applications.import_module E (Applications.module_name_of long)
          = Py.Ok c
       /\ Applications.application_name c = app.
Proof.
  revert ret. induction names as [|long names IH]; intros ret Hloop Hd.
  - inversion Hloop; subst. now left.
  - cbn [Applications.class_dict_loop] in Hloop.
    destruct (Applications.import_module E (Applications.module_name_of long))
      as [c0|e] eqn:Himp; [|discriminate Hloop].
    destruct (IH _ Hloop Hd) as [Hret | (long' & Hin & Himp' & Hname)].
    + destruct (decide (Applications.application_name c0 = app)) as [Heq|Hne].
      * rewrite Heq, lookup_insert_eq in Hret. injection Hret as <-.
        right. exists long. split; [now left|]. split; [exact Himp|exact Heq].
      * rewrite lookup_insert_ne in Hret by exact Hne. now left.
    + right. exists long'. split; [now right|]. split; assumption.
Qed.

Lemma class_dict_loop_total
    (E : Applications.env) (names : list string)
    (ret : gmap string Applications.AppClass) :
  (forall long, In long names ->
     exists c, Applications.import_module E (Applications.module_name_of long)
               = Py.Ok c) ->
  exists d, Applications.class_dict_loop E names ret = Py.Ok d.
Proof.
  revert ret. induction names as [|long names IH]; intros ret Hok.
  - eexists. reflexivity.
  - cbn [Applications.class_dict_loop].
    destruct (Hok long) as [c Hc]; [now left|]. rewrite Hc.
    apply IH. intros long' Hin. apply Hok. now right.
Qed.

Lemma class_dict_loop_fails
    (E : Applications.env) (l1 l2 : list string) (long : string)
    (ret : gmap string Applications.AppClass) (e : Py.exn) :
  (forall x, In x l1 ->
     exists c, Applications.import_module E (Applications.module_name_of x)
               = Py.Ok c) ->
  Applications.import_module E (Applications.module_name_of long) = Py.Err e ->
  Applications.class_dict_loop E (l1 ++ long :: l2)%list ret = Py.Err e.
Proof.
  revert ret. induction l1 as [|x l1 IH]; intros ret Hok Herr.
  - cbn [app Applications.class_dict_loop]. now rewrite Herr.
  - cbn [app Applications.class_dict_loop].
    destruct (Hok x) as [c Hc]; [now left|]. rewrite Hc.
    apply IH; [|exact Herr]. intros y Hy. apply Hok. now right.
Qed.

(** X9. An application that no module of the package declares is not
    answered with an empty result: when every listed module imports and
    none of the classes carries the requested name, [get_auth_item] raises
    AttributeError, and the world is as before. *)
Theorem get_auth_item_unknown_application
    (E : Applications.env) (application token_type serial : string)
    (challenge : option string) (options : option (gmap string Py.pyval))
    (filter_param : Py.pyval) (w : LUKS.world) :
  (forall long, In long (Applications.get_machine_application_class_list E) ->
     exists c, Applications.import_module E (Applications.module_name_of long)
               = Py.Ok c
               /\ Applications.application_name c <> application) ->
  Applications.get_auth_item E application token_type serial challenge
    options filter_param w
  = Py.Raise Py.AttributeError w.
Proof.
  intros Hmods. unfold Applications.get_auth_item,
    Applications.get_machine_application_class_dict.
  destruct (class_dict_loop_total E
              (Applications.get_machine_application_class_list E) ∅)
    as [d Hd].
  { intros long Hin. destruct (Hmods long Hin) as (c & Hc & _). now exists c. }
  cbv beta iota delta [mbind Py.M_bind Py.lift_res]. rewrite Hd.
  destruct (d !! application) as [c|] eqn:Hlook; [|reflexivity].
  destruct (class_dict_loop_keys E _ ∅ d application c Hd Hlook)
    as [Hempty | (long & Hin & Himp & Hname)].
  - rewrite lookup_empty in Hempty. discriminate Hempty.
  - destruct (Hmods long Hin) as (c' & Hc' & Hne).
    rewrite Himp in Hc'. inversion Hc'; subst. contradiction.
Qed.

Lemma get_auth_item_unknown_application_witness :
  Applications.get_auth_item Samples.apps_env "ssh" "totp" "UBOM0002" None
    None Py.PNone Samples.luks_world
  = Py.Raise Py.AttributeError Samples.luks_world.
Proof.
  apply (get_auth_item_unknown_application Samples.apps_env "ssh").
  intros long Hin. cbn in Hin.
  destruct Hin as [<- | [<- | []]]; eexists; (split; [reflexivity|]);
    cbn; discriminate.
Defined.

(** X10. The class dict is built without a guard: when the import of one
    listed module raises (the modules before it having been imported),
    [get_auth_item] ends with that exception for every application, the
    ones of other modules included, and no handler runs. *)
Theorem get_auth_item_import_failure
    (E : Applications.env) (l1 l2 : list string) (long : string)
    (e : Py.exn) (application token_type serial : string)
    (challenge : option string) (options : option (gmap string Py.pyval))
    (filter_param : Py.pyval) (w : LUKS.world) :
  Applications.get_machine_application_class_list E
    = (l1 ++ long :: l2)%list ->
  (forall x, In x l1 ->
     exists c, Applications.import_module E (Applications.module_name_of x)
               = Py.Ok c) ->
  Applications.import_module E (Applications.module_name_of long) = Py.Err e ->
  Applications.get_auth_item E application token_type serial challenge
    options filter_param w
  = Py.Raise e w.
Proof.
  intros Hlist Hok Herr. unfold Applications.get_auth_item,
    Applications.get_machine_application_class_dict.
  rewrite Hlist, (class_dict_loop_fails E l1 l2 long ∅ e Hok Herr).
  reflexivity.
Qed.

Lemma get_auth_item_import_failure_witness :
  Applications.get_auth_item Samples.apps_env_broken "luks" "totp" "UBOM0002"
    None None Py.PNone Samples.luks_world
  = Py.Raise (Py.Exception_ "No module named") Samples.luks_world.
Proof.
  apply (get_auth_item_import_failure Samples.apps_env_broken
           ["edumfa.lib.applications.base.MachineApplication"]
           ["edumfa.lib.applications.luks.MachineApplication"]
           "edumfa.lib.applications.broken.MachineApplication").
  - reflexivity.
  - intros x [<- | []]. eexists. reflexivity.
  - reflexivity.
Defined.

Lemma types_loop_spec
    (E : Applications.env) (files : list string)
    (ret : gmap string Py.pyval) (w : LUKS.world) :
  exists ret' w',
    Applications.types_loop E files ret w = Py.Return ret' w'
    /\ LUKS.rng_pos w' = LUKS.rng_pos w
    /\ forall name v,
         ret' !! name = Some v ->
         ret !! name = Some v
         \/ exists f c opts,
              In f files /\ f <> "base" /\ f <> "__init__"
              /\ Applications.import_module E (Applications.package ++ f)
                 = Py.Ok c
              /\ Applications.application_name c = name
              /\ Applications.get_options c = Py.Ok opts
              /\ v = Py.PDict {[ "options" := opts ]}.
Proof.
  revert ret w. induction files as [|f files IH]; intros ret w.
  - exists ret, w. split; [reflexivity|]. split; [reflexivity|].
    intros name v Hv. now left.
  - cbn [Applications.types_loop].
    destruct (String.eqb_spec f "base") as [Hb | Hb].
    { cbn [orb negb]. destruct (IH ret w) as (ret' & w' & Hrun & Hpos & Hkeys).
      exists ret', w'. split; [exact Hrun|]. split; [exact Hpos|].
      intros name v Hv. destruct (Hkeys name v Hv)
        as [Hl | (f' & c & opts & Hin & Hrest)]; [now left|].
      right. exists f', c, opts. split; [now right | exact Hrest]. }
    destruct (String.eqb_spec f "__init__") as [Hi | Hi].
    { cbn [orb negb]. destruct (IH ret w) as (ret' & w' & Hrun & Hpos & Hkeys).
      exists ret', w'. split; [exact Hrun|]. split; [exact Hpos|].
      intros name v Hv. destruct (Hkeys name v Hv)
        as [Hl | (f' & c & opts & Hin & Hrest)]; [now left|].
      right. exists f', c, opts. split; [now right | exact Hrest]. }
    cbn [orb negb].
    destruct (Applications.import_module E (Applications.package ++ f))
      as [c|e] eqn:Himp.
    + destruct (Applications.get_options c) as [opts|e] eqn:Hopt.
      * destruct (IH (<[Applications.application_name c
                         := Py.PDict {[ "options" := opts ]}]> ret) w)
          as (ret' & w' & Hrun & Hpos & Hkeys).
        exists ret', w'. split; [exact Hrun|]. split; [exact Hpos|].
        intros name v Hv. destruct (Hkeys name v Hv)
          as [Hl | (f' & c' & opts' & Hin & Hrest)].
        -- destruct (decide (Applications.application_name c = name))
             as [Heq | Hne].
           ++ rewrite Heq, lookup_insert_eq in Hl. injection Hl as <-.
              right. exists f, c, opts. repeat split; try assumption.
              now left.
           ++ rewrite lookup_insert_ne in Hl by exact Hne. now left.
        -- right. exists f', c', opts'. split; [now right | exact Hrest].
      * cbv beta iota delta [mbind Py.M_bind LUKS.log_info Py.modify].
        destruct (IH ret (LUKS.World (LUKS.rng_pos w)
                            (LUKS.log w ++
                             [Py.Log Py.INFO
                                "Can not get application type: {exx!s}" []])%list))
          as (ret' & w' & Hrun & Hpos & Hkeys).
        exists ret', w'. split; [exact Hrun|]. split; [exact Hpos|].
        intros name v Hv. destruct (Hkeys name v Hv)
          as [Hl | (f' & c' & opts' & Hin & Hrest)]; [now left|].
        right. exists f', c', opts'. split; [now right | exact Hrest].
    + cbv beta iota delta [mbind Py.M_bind LUKS.log_info Py.modify].
      destruct (IH ret (LUKS.World (LUKS.rng_pos w)
                          (LUKS.log w ++
                           [Py.Log Py.INFO
                              "Can not get application type: {exx!s}" []])%list))
        as (ret' & w' & Hrun & Hpos & Hkeys).
      exists ret', w'. split; [exact Hrun|]. split; [exact Hpos|].
      intros name v Hv. destruct (Hkeys name v Hv)
        as [Hl | (f' & c' & opts' & Hin & Hrest)]; [now left|].
      right. exists f', c', opts'. split; [now right | exact Hrest].
Qed.

(** X11. [get_application_types] never raises: a module whose import or
    whose [get_options] raises is skipped. Every entry of the result comes
    from a directory entry ending in ".py" whose name without these three
    characters is neither "base" nor "__init__", and holds the options of
    the class of that module under the name of its application. *)
Theorem get_application_types_never_raises
    (E : Applications.env) (w : LUKS.world) :
  exists ret w',
    Applications.get_application_types E w = Py.Return ret w'
    /\ LUKS.rng_pos w' = LUKS.rng_pos w
    /\ forall name v,
         ret !! name = Some v ->
         exists f c opts,
           In f (Applications.listdir E)
           /\ Py.endswith ".py" f = true
           /\ Py.slice_to (-3) f <> "base"
           /\ Py.slice_to (-3) f <> "__init__"
           /\ Applications.import_module E
                (Applications.package ++ Py.slice_to (-3) f) = Py.Ok c
           /\ Applications.application_name c = name
           /\ Applications.get_options c = Py.Ok opts
           /\ v = Py.PDict {[ "options" := opts ]}.
Proof.
  unfold Applications.get_application_types.
  destruct (types_loop_spec E
              (List.map (Py.slice_to (-3))
                 (List.filter (fun f => Py.endswith ".py" f)
                    (Applications.listdir E))) ∅ w)
    as (ret & w' & Hrun & Hpos & Hkeys).
  exists ret, w'. split; [exact Hrun|]. split; [exact Hpos|].
  intros name v Hv.
  destruct (Hkeys name v Hv)
    as [Hempty | (f' & c & opts & Hin & Hb & Hi & Himp & Hname & Hopt & Hval)].
  - rewrite lookup_empty in Hempty. discriminate Hempty.
  - apply in_map_iff in Hin as (f & <- & Hf).
    apply filter_In in Hf as [Hdir Hpy].
    exists f, c, opts. repeat split; assumption.
Qed.

(** ** Federation handler: the course of a forward *)

Lemma do_forward_unfold
    (E : Federation.env) (o : Federation.options) (w : Federation.world)
    (srv : Federation.Server) :
  Federation.get_edumfaserver E
    (Py.dict_get (Federation.handler_options o) "eduMFA") = Py.Ok srv ->
  Federation.do E "forward" o w
  = let w1 := Federation.before_relay E o srv w in
    match Federation.choose_requestor
            (Federation.method (Federation.request o)) with
    | None =>
        Py.Return true
          (Federation.World (Federation.all_data w1) (Federation.response w1)
             (Federation.calls w1)
             (Federation.log w1 ++
              [Py.Log Py.WARNING "Unsupported method: {method!r}"
                 [Federation.method (Federation.request o)]])%list)
    | Some v =>
        let c := Federation.relay_call E o srv v (Federation.all_data w1) in
        let w2 := Federation.World (Federation.all_data w1)
                    (Federation.response w1)
                    (Federation.calls w1 ++ [c])%list (Federation.log w1) in
        match Federation.send E c with
        | Py.Err e => Py.Raise e w2
        | Py.Ok r =>
            match Federation.json_loads E (Federation.text r) with
            | Py.Err e => Py.Raise e w2
            | Py.Ok j =>
                match Federation.add_origin j (Federation.relay_url srv o) with
                | Py.Err e => Py.Raise e w2
                | Py.Ok j' =>
                    Py.Return true
                      (Federation.World (Federation.all_data w1)
                         {| Federation.body := Federation.json_dumps E j';
                            Federation.mimetype := "application/json";
                            Federation.response_status :=
                              Federation.status_code r |}
                         (Federation.calls w1 ++ [c])%list
                         (Federation.log w1))
                end
            end
        end
    end.
Proof.
  intros Hsrv. destruct w as [d resp cs lg].
  unfold Federation.do, Federation.before_relay, Federation.relay_call,
    Federation.forwarded_payload, Federation.forwarded_headers,
    Federation.relay_url.
  cbn. unfold mbind, Py.M_bind, Py.lift_res. rewrite Hsrv. cbn.
  destruct (Federation.is_true E
              (Py.dict_get_default (Federation.handler_options o)
                 "forward_client_ip" (Py.PBool false))),
    (Py.truthy (Py.dict_get (Federation.handler_options o) "realm")),
    (Py.truthy (Py.dict_get (Federation.handler_options o) "resolver")); cbn;
    (destruct (Federation.choose_requestor
                 (Federation.method (Federation.request o))) as [v|];
     [|reflexivity]);
    destruct v; cbn; unfold Federation.perform; cbn;
    unfold mbind, Py.M_bind, Py.lift_res; cbn;
    (destruct (Federation.send E _) as [r|e]; cbn; [|reflexivity]);
    (destruct (Federation.json_loads E _) as [j|e]; cbn; [|reflexivity]);
    (destruct (Federation.add_origin j _) as [j'|e]; cbn; reflexivity).
Qed.

Lemma do_other_action
    (E : Federation.env) (action : string) (o : Federation.options)
    (w : Federation.world) :
  action <> "forward" -> Federation.do E action o w = Py.Return true w.
Proof.
  intros Hne. unfold Federation.do. apply String.eqb_neq in Hne.
  rewrite Hne. reflexivity.
Qed.

Lemma do_lookup_fails
    (E : Federation.env) (o : Federation.options) (w : Federation.world)
    (e : Py.exn) :
  Federation.get_edumfaserver E
    (Py.dict_get (Federation.handler_options o) "eduMFA") = Py.Err e ->
  Federation.do E "forward" o w = Py.Raise e w.
Proof.
  intros Hsrv. unfold Federation.do. cbn.
  unfold mbind, Py.M_bind, Py.lift_res. now rewrite Hsrv.
Qed.

(** X12. For a method that reads "POST" or "DELETE" the forward makes
    exactly one call, with [requests.post] or [requests.delete], and the
    payload travels as [data], not as [params]. *)
Theorem federation_post_delete_send_body
    (E : Federation.env) (o : Federation.options) (w : Federation.world)
    (srv : Federation.Server) (v : Federation.verb) :
  Federation.get_edumfaserver E
    (Py.dict_get (Federation.handler_options o) "eduMFA") = Py.Ok srv ->
  (v = Federation.POST
   /\ Py.upper (Federation.method (Federation.request o)) = "POST")
  \/ (v = Federation.DELETE
      /\ Py.upper (Federation.method (Federation.request o)) = "DELETE") ->
  Federation.calls (Py.final_state (Federation.do E "forward" o w))
  = (Federation.calls w ++
     [ {| Federation.requestor := v;
          Federation.call_url := Federation.relay_url srv o;
          Federation.params := None;
          Federation.data :=
            Some (Federation.forwarded_payload E o (Federation.all_data w));
          Federation.call_headers := Federation.forwarded_headers E o;
          Federation.verify := Federation.tls srv |} ])%list.
Proof.
  intros Hsrv Hv. rewrite (do_forward_unfold E o w srv Hsrv). cbv zeta.
  assert (Hch : Federation.choose_requestor
                  (Federation.method (Federation.request o)) = Some v).
  { unfold Federation.choose_requestor.
    destruct Hv as [[-> ->] | [-> ->]]; reflexivity. }
  rewrite Hch.
  assert (Hcall :
    Federation.relay_call E o srv v
      (Federation.all_data (Federation.before_relay E o srv w))
    = {| Federation.requestor := v;
         Federation.call_url := Federation.relay_url srv o;
         Federation.params := None;
         Federation.data :=
           Some (Federation.forwarded_payload E o (Federation.all_data w));
         Federation.call_headers := Federation.forwarded_headers E o;
         Federation.verify := Federation.tls srv |}).
  { destruct Hv as [[-> _] | [-> _]]; reflexivity. }
  rewrite Hcall.
  destruct (Federation.send E _) as [r|e]; [|reflexivity].
  destruct (Federation.json_loads E _) as [j|e]; [|reflexivity].
  destruct (Federation.add_origin j _) as [j'|e]; reflexivity.
Qed.

Lemma federation_post_delete_send_body_witness :
  Federation.calls
    (Py.final_state
       (Federation.do Samples.fed_env "forward" (Samples.fed_options "post")
          Samples.fed_world))
  = [ {| Federation.requestor := Federation.POST;
         Federation.call_url := "https://child.example.org/validate/check";
         Federation.params := None;
         Federation.data :=
           Some (<["realm" := Py.PStr "realm1"]>
                   {[ "user" := Py.PStr "cornelius" ]});
         Federation.call_headers := ∅;
         Federation.verify := true |} ].
Proof.
  apply (federation_post_delete_send_body Samples.fed_env
           (Samples.fed_options "post") Samples.fed_world _ Federation.POST
           eq_refl).
  left. split; reflexivity.
Defined.

(** X13. When the child server answers a JSON object whose "detail" is an
    object, the handler returns [True] and replaces [options["response"]]
    by a JSON response with the status code of the child: the body is the
    child's object with "origin" set to the forward URL inside "detail",
    all other entries kept. *)
Theorem federation_relay_adds_origin
    (E : Federation.env) (o : Federation.options) (w : Federation.world)
    (srv : Federation.Server) (v : Federation.verb)
    (r : Federation.HttpResponse) (d detail : gmap string Py.pyval) :
  Federation.get_edumfaserver E
    (Py.dict_get (Federation.handler_options o) "eduMFA") = Py.Ok srv ->
  Federation.choose_requestor (Federation.method (Federation.request o))
    = Some v ->
  Federation.send E
    (Federation.relay_call E o srv v
       (Federation.forwarded_payload E o (Federation.all_data w)))
    = Py.Ok r ->
  Federation.json_loads E (Federation.text r) = Py.Ok (Py.PDict d) ->
  d !! "detail" = Some (Py.PDict detail) ->
  exists w',
    Federation.do E "forward" o w = Py.Return true w'
    /\ Federation.response w'
       = {| Federation.body :=
              Federation.json_dumps E
                (Py.PDict
                   (<["detail" :=
                        Py.PDict (<["origin" :=
                                      Py.PStr (Federation.relay_url srv o)]>
                                    detail)]> d));
            Federation.mimetype := "application/json";
            Federation.response_status := Federation.status_code r |}.
Proof.
  intros Hsrv Hch Hsend Hjson Hdetail.
  rewrite (do_forward_unfold E o w srv Hsrv). cbv zeta. rewrite Hch.
  change (Federation.all_data (Federation.before_relay E o srv w))
    with (Federation.forwarded_payload E o (Federation.all_data w)).
  rewrite Hsend, Hjson. unfold Federation.add_origin, Federation.has_detail.
  rewrite Hdetail. cbn. eexists. split; reflexivity.
Qed.

Lemma federation_relay_adds_origin_witness :
  exists w',
    Federation.do Samples.fed_env "forward" (Samples.fed_options "POST")
      Samples.fed_world = Py.Return true w'
    /\ Federation.response w'
       = {| Federation.body := "{}";
            Federation.mimetype := "application/json";
            Federation.response_status := 200 |}.
Proof.
  apply (federation_relay_adds_origin Samples.fed_env
           (Samples.fed_options "POST") Samples.fed_world _ Federation.POST
           _ {[ "detail" := Py.PDict ∅ ]} ∅ eq_refl eq_refl eq_refl eq_refl).
  reflexivity.
Defined.

(** X14. When the child server answers a JSON object without "detail",
    nothing is added: the body of the new response is the child's object
    as it came, with the child's status code. *)
Theorem federation_relay_without_detail
    (E : Federation.env) (o : Federation.options) (w : Federation.world)
    (srv : Federation.Server) (v : Federation.verb)
    (r : Federation.HttpResponse) (d : gmap string Py.pyval) :
  Federation.get_edumfaserver E
    (Py.dict_get (Federation.handler_options o) "eduMFA") = Py.Ok srv ->
  Federation.choose_requestor (Federation.method (Federation.request o))
    = Some v ->
  Federation.send E
    (Federation.relay_call E o srv v
       (Federation.forwarded_payload E o (Federation.all_data w)))
    = Py.Ok r ->
  Federation.json_loads E (Federation.text r) = Py.Ok (Py.PDict d) ->
  d !! "detail" = None ->
  exists w',
    Federation.do E "forward" o w = Py.Return true w'
    /\ Federation.response w'
       = {| Federation.body := Federation.json_dumps E (Py.PDict d);
            Federation.mimetype := "application/json";
            Federation.response_status := Federation.status_code r |}.
Proof.
  intros Hsrv Hch Hsend Hjson Hdetail.
  rewrite (do_forward_unfold E o w srv Hsrv). cbv zeta. rewrite Hch.
  change (Federation.all_data (Federation.before_relay E o srv w))
    with (Federation.forwarded_payload E o (Federation.all_data w)).
  rewrite Hsend, Hjson. unfold Federation.add_origin, Federation.has_detail.
  rewrite Hdetail. cbn. eexists. split; reflexivity.
Qed.

Lemma federation_relay_without_detail_witness :
  exists w',
    Federation.do Samples.fed_env_plain "forward" (Samples.fed_options "GET")
      Samples.fed_world = Py.Return true w'
    /\ Federation.response w'
       = {| Federation.body := "{}";
            Federation.mimetype := "application/json";
            Federation.response_status := 404 |}.
Proof.
  apply (federation_relay_without_detail Samples.fed_env_plain
           (Samples.fed_options "GET") Samples.fed_world _ Federation.GET
           _ {[ "result" := Py.PNone ]} eq_refl eq_refl eq_refl eq_refl).
  reflexivity.
Defined.

(** X15. [options["response"]] is replaced only by a relay that went
    through: whenever [do] ends with an exception (the server is unknown,
    the network fails, the answer is no JSON, the detail takes no item),
    the response is the one the caller passed in. *)
Theorem federation_exception_keeps_response
    (E : Federation.env) (action : string) (o : Federation.options)
    (w w' : Federation.world) (e : Py.exn) :
  Federation.do E action o w = Py.Raise e w' ->
  Federation.response w' = Federation.response w.
Proof.
  intros Hraise.
  destruct (String.eqb_spec action "forward") as [-> | Hne];
    [|rewrite (do_other_action E action o w Hne) in Hraise;
      discriminate Hraise].
  destruct (Federation.get_edumfaserver E
              (Py.dict_get (Federation.handler_options o) "eduMFA"))
    as [srv|e0] eqn:Hsrv.
  - rewrite (do_forward_unfold E o w srv Hsrv) in Hraise. cbv zeta in Hraise.
    destruct (Federation.choose_requestor _) as [v|]; [|discriminate Hraise].
    destruct (Federation.send E _) as [r|e1];
      [|inversion Hraise; reflexivity].
    destruct (Federation.json_loads E _) as [j|e1];
      [|inversion Hraise; reflexivity].
    destruct (Federation.add_origin j _) as [j'|e1];
      [discriminate Hraise | inversion Hraise; reflexivity].
  - rewrite (do_lookup_fails E o w e0 Hsrv) in Hraise.
    inversion Hraise; reflexivity.
Qed.

Lemma federation_exception_keeps_response_witness :
  Federation.response
    (Py.final_state
       (Federation.do Samples.fed_env_null "forward"
          (Samples.fed_options "GET") Samples.fed_world))
  = Federation.response Samples.fed_world.
Proof.
  apply (federation_exception_keeps_response Samples.fed_env_null "forward"
           (Samples.fed_options "GET") Samples.fed_world _ Py.TypeError).
  vm_compute. reflexivity.
Defined.

(** X16. The handler writes into the payload dict of the request itself:
    once the child server is known, [request.all_data] holds the additions
    of the handler options after the call, for every method, the
    unsupported ones included, and however the relay ends. With client
    forwarding on, its "client" entry is the client address of this
    request, whatever "client" the caller sent. *)
Theorem federation_payload_changed_in_place
    (E : Federation.env) (o : Federation.options) (w : Federation.world)
    (srv : Federation.Server) :
  Federation.get_edumfaserver E
    (Py.dict_get (Federation.handler_options o) "eduMFA") = Py.Ok srv ->
  Federation.all_data (Py.final_state (Federation.do E "forward" o w))
  = Federation.forwarded_payload E o (Federation.all_data w)
  /\ (Federation.is_true E
        (Py.dict_get_default (Federation.handler_options o)
           "forward_client_ip" (Py.PBool false)) = true ->
      Federation.forwarded_payload E o (Federation.all_data w) !! "client"
      = Some (Federation.g_client_ip o)).
Proof.
  intros Hsrv. split.
  - rewrite (do_forward_unfold E o w srv Hsrv). cbv zeta.
    destruct (Federation.choose_requestor _) as [v|]; [|reflexivity].
    destruct (Federation.send E _) as [r|e]; [|reflexivity].
    destruct (Federation.json_loads E _) as [j|e]; [|reflexivity].
    destruct (Federation.add_origin j _) as [j'|e]; reflexivity.
  - intros Hip. unfold Federation.forwarded_payload. rewrite Hip.
    destruct (Py.truthy (Py.dict_get (Federation.handler_options o) "realm")),
      (Py.truthy (Py.dict_get (Federation.handler_options o) "resolver"));
      repeat (rewrite lookup_insert_ne by discriminate);
      apply lookup_insert_eq.
Qed.

Lemma federation_payload_changed_in_place_witness :
  Federation.all_data
    (Py.final_state
       (Federation.do Samples.fed_env "forward" (Samples.fed_options "PATCH")
          Samples.fed_world))
  = <["realm" := Py.PStr "realm1"]> {[ "user" := Py.PStr "cornelius" ]}.
Proof.
  apply (proj1 (federation_payload_changed_in_place Samples.fed_env
                  (Samples.fed_options "PATCH") Samples.fed_world _ eq_refl)).
Defined.

(** X17. The guard ["detail" in response_dict] does not cover a detail
    that is no object: when the child's JSON object holds "detail" with
    [null], a number, a string or a list, the call has been made, [do] ends
    with TypeError. *)
Theorem federation_detail_not_an_object
    (E : Federation.env) (o : Federation.options) (w : Federation.world)
    (srv : Federation.Server) (v : Federation.verb)
    (r : Federation.HttpResponse) (d : gmap string Py.pyval)
    (detail : Py.pyval) :
  Federation.get_edumfaserver E
    (Py.dict_get (Federation.handler_options o) "eduMFA") = Py.Ok srv ->
  Federation.choose_requestor (Federation.method (Federation.request o))
    = Some v ->
  Federation.send E
    (Federation.relay_call E o srv v
       (Federation.forwarded_payload E o (Federation.all_data w)))
    = Py.Ok r ->
  Federation.json_loads E (Federation.text r) = Py.Ok (Py.PDict d) ->
  d !! "detail" = Some detail ->
  (forall x, detail <> Py.PDict x) ->
  exists w',
    Federation.do E "forward" o w = Py.Raise Py.TypeError w'
    /\ Federation.calls w'
       = (Federation.calls w ++
          [Federation.relay_call E o srv v
             (Federation.forwarded_payload E o (Federation.all_data w))])%list.
Proof.
  intros Hsrv Hch Hsend Hjson Hdetail Hnot.
  rewrite (do_forward_unfold E o w srv Hsrv). cbv zeta. rewrite Hch.
  change (Federation.all_data (Federation.before_relay E o srv w))
    with (Federation.forwarded_payload E o (Federation.all_data w)).
  rewrite Hsend, Hjson. unfold Federation.add_origin, Federation.has_detail.
  rewrite Hdetail. cbn.
  destruct detail as [| | | | |x]; try (eexists; split; reflexivity).
  exfalso. exact (Hnot x eq_refl).
Qed.

Lemma federation_detail_not_an_object_witness :
  exists w',
    Federation.do Samples.fed_env_null "forward" (Samples.fed_options "GET")
      Samples.fed_world = Py.Raise Py.TypeError w'
    /\ List.length (Federation.calls w') = 1%nat.
Proof.
  destruct (federation_detail_not_an_object Samples.fed_env_null
              (Samples.fed_options "GET") Samples.fed_world _ Federation.GET
              _ {[ "detail" := Py.PNone ]} Py.PNone
              eq_refl eq_refl eq_refl eq_refl eq_refl)
    as (w' & Hraise & Hcalls).
  - intros x. discriminate.
  - exists w'. split; [exact Hraise|]. rewrite Hcalls. reflexivity.
Defined.

(** X18. Without a relay nothing is touched: an action other than
    "forward" is accepted with [True] and no effect at all, and when the
    look-up of the child server raises, that exception ends [do] before the
    payload, the log or the response have been written to. *)
Theorem federation_no_relay_no_effect
    (E : Federation.env) (action : string) (o : Federation.options)
    (w : Federation.world) :
  (action <> "forward" -> Federation.do E action o w = Py.Return true w) /\
  (forall e,
     Federation.get_edumfaserver E
       (Py.dict_get (Federation.handler_options o) "eduMFA") = Py.Err e ->
     Federation.do E "forward" o w = Py.Raise e w).
Proof.
  split.
  - intros Hne. unfold Federation.do. apply String.eqb_neq in Hne.
    rewrite Hne. reflexivity.
  - intros e Hsrv. unfold Federation.do. cbn.
    unfold mbind, Py.M_bind, Py.lift_res. rewrite Hsrv. reflexivity.
Qed.

Lemma federation_no_relay_no_effect_witness :
  Federation.do Samples.fed_env "notify" (Samples.fed_options "GET")
    Samples.fed_world = Py.Return true Samples.fed_world.
Proof.
  apply (proj1 (federation_no_relay_no_effect Samples.fed_env "notify"
                  (Samples.fed_options "GET") Samples.fed_world)).
  discriminate.
Defined.

(** ** SMS token: the messages handed to the gateway *)

Section SmsOutbox.
Import Py SMS.

Lemma outbox_ret {A} (a : A) : keeps_outbox (mret a).
Proof. intros w. reflexivity. Qed.

Lemma outbox_raise {A} (e : exn) : keeps_outbox (@raise world A e).
Proof. intros w. reflexivity. Qed.

Lemma outbox_lift_res {A} (r : res A) : keeps_outbox (@lift_res world A r).
Proof. intros w. destruct r; reflexivity. Qed.

Lemma outbox_write_log l f a : keeps_outbox (write_log l f a).
Proof. intros w. reflexivity. Qed.

Lemma outbox_bind {A B} (m : M world A) (f : A -> M world B) :
  keeps_outbox m -> (forall a, keeps_outbox (f a)) -> keeps_outbox (m ≫= f).
Proof.
  intros Hm Hf w. unfold mbind, M_bind.
  specialize (Hm w). destruct (m w) as [a s|e s]; cbn in *.
  - rewrite (Hf a s). exact Hm.
  - exact Hm.
Qed.

Lemma outbox_try {A} (body : M world A) (handler : exn -> M world A) :
  keeps_outbox body -> (forall e, keeps_outbox (handler e)) ->
  keeps_outbox (try_except body handler).
Proof.
  intros Hb Hh w. unfold try_except.
  specialize (Hb w). destruct (body w) as [a s|e s]; cbn in *.
  - exact Hb.
  - rewrite (Hh e s). exact Hb.
Qed.

End SmsOutbox.

Create HintDb outbox.

#[local] Hint Resolve outbox_ret outbox_raise outbox_lift_res
  outbox_write_log : outbox.

Ltac outbox_step :=
  first
    [ apply outbox_bind; [| intros ? ]
    | apply outbox_try; [| intros ? ]
    | solve [ auto with outbox ] ].

Lemma outbox_get_provider E self ident :
  SMS.keeps_outbox (SMS.get_provider E self ident).
Proof.
  unfold SMS.get_provider.
  destruct (Py.truthy ident); [auto with outbox|].
  apply outbox_bind; [auto with outbox|]. intros [a b].
  repeat outbox_step.
Qed.

Lemma outbox_get_destination E self o ident sms :
  SMS.keeps_outbox (SMS.get_destination E self o ident sms).
Proof.
  unfold SMS.get_destination.
  destruct (SMS.send_to_uid sms).
  - apply outbox_bind; [|intros ?; auto with outbox].
    destruct (negb _); auto with outbox.
  - apply outbox_bind.
    + destruct (SMS.is_true E _); [|auto with outbox].
      destruct (SMS.owner self) as [u|]; [|auto with outbox].
      destruct (SMS.mobile u) as [| | | |[|x l]|]; auto with outbox.
    + intros phone. apply outbox_bind; [|intros ?; auto with outbox].
      destruct (negb _); auto with outbox.
Qed.

(** What [_send_sms] hands to the gateway: nothing when the text cannot be
    rendered or no provider or destination is found, and otherwise the one
    rendered message, flagged as the options say. *)
Lemma send_sms_outbox
    (E : SMS.env) (self : SMS.Token) (message : string) (o : SMS.options)
    (w : SMS.world) :
  match SMS.render_message E message (SMS.hotp E (SMS.count w))
          (SMS.serial self) o with
  | Py.Err e =>
      exists w', SMS._send_sms E self message o w = Py.Raise e w'
                 /\ SMS.outbox w' = SMS.outbox w
  | Py.Ok text =>
      match SMS._send_sms E self message o w with
      | Py.Return (_, sent) w' =>
          sent = text /\
          exists dest,
            SMS.outbox w'
            = (SMS.outbox w
                 ++ [SMS.Build_Sms
                       (Py.truthy (Py.dict_get (SMS.vals o)
                                     "smstoken_post_check"))
                       dest text])%list
      | Py.Raise _ w' =>
          SMS.outbox w' = SMS.outbox w \/
          exists dest,
            SMS.outbox w'
            = (SMS.outbox w
                 ++ [SMS.Build_Sms
                       (Py.truthy (Py.dict_get (SMS.vals o)
                                     "smstoken_post_check"))
                       dest text])%list
      end
  end.
Proof.
  destruct w as [c d ob lg].
  unfold SMS._send_sms.
  cbv beta iota delta
    [mbind mret Py.M_bind Py.M_ret SMS.get_otp Py.get_state SMS.write_log
     Py.modify Py.lift_res].
  cbn [SMS.count SMS.db SMS.outbox SMS.log].
  destruct (SMS.render_message E message (SMS.hotp E c) (SMS.serial self) o)
    as [text|e]; [|eexists; split; reflexivity].
  set (ident := Py.py_or _ _).
  set (w1 := SMS.World c d ob _).
  pose proof (outbox_get_provider E self ident w1) as Hp.
  destruct (SMS.get_provider E self ident w1) as [sms s1|e s1];
    subst w1; cbn in Hp; [|left; exact Hp].
  pose proof (outbox_get_destination E self o ident sms s1) as Hd.
  destruct (SMS.get_destination E self o ident sms s1) as [dest s2|e s2];
    cbn in Hd; [|left; congruence].
  unfold SMS.submit.
  cbv beta iota delta
    [mbind mret Py.M_bind Py.M_ret Py.modify Py.lift_res].
  rewrite Hd, Hp.
  destruct (if Py.truthy _ then _ else _) as [ret|e].
  - split; [reflexivity|]. exists dest. reflexivity.
  - right. exists dest. reflexivity.
Qed.

(** ** SMS token: the outcomes of [create_challenge] *)

Lemma py_or_idem (a b : Py.pyval) :
  Py.py_or a (Py.py_or a b) = Py.py_or a b.
Proof. unfold Py.py_or. destruct (Py.truthy a); reflexivity. Qed.

Lemma session_cases (E : SMS.env) (o : SMS.options) :
  Py.dict_get (SMS.vals o) "session" = Py.PStr (SMS.ENROLLMENT E)
  \/ Py.dict_get (SMS.vals o) "session" <> Py.PStr (SMS.ENROLLMENT E).
Proof.
  destruct (Py.dict_get (SMS.vals o) "session") as [| | |s| |];
    try (right; discriminate).
  destruct (String.eqb_spec s (SMS.ENROLLMENT E)) as [-> | Hne];
    [left; reflexivity | right; congruence].
Qed.

Ltac run_create_challenge :=
  cbv beta iota delta
    [mbind mret Py.M_bind Py.M_ret Py.try_except SMS.get_otp_count
     Py.get_state SMS.write_log SMS.inc_otp_counter Py.modify
     SMS.with_success SMS.lift_w SMS.set_success SMS.get_success
     SMS.get_otp_again SMS.save_challenge Py.raise Py.lift_res negb
     fst snd];
  cbn [SMS.count SMS.db SMS.outbox SMS.log SMS.ch_transaction_id].

(** An inactive token: the [try] statement is skipped. *)
Lemma create_challenge_inactive
    (E : SMS.env) (self : SMS.Token) (transactionid : Py.pyval)
    (o : SMS.options) (w : SMS.world) :
  SMS.active self = false ->
  SMS.create_challenge E self transactionid o w
  = SMS.ends_with E false
      (Py.py_or (SMS.challenge_text E o)
         (Py.PStr "Enter the OTP from the SMS:"))
      transactionid transactionid w.
Proof.
  intros Hact. unfold SMS.create_challenge, SMS.ends_with. rewrite Hact.
  run_create_challenge.
  destruct (SMS.expiry_text E (SMS._get_sms_timeout E)); reflexivity.
Qed.

(** An enrollment session on an active token: the row is saved without any
    sending, if the database takes it. *)
Lemma create_challenge_enrollment
    (E : SMS.env) (self : SMS.Token) (transactionid : Py.pyval)
    (o : SMS.options) (w : SMS.world) :
  SMS.active self = true ->
  Py.dict_get (SMS.vals o) "session" = Py.PStr (SMS.ENROLLMENT E) ->
  SMS.create_challenge E self transactionid o w
  = match SMS.db_save E
            (SMS.challenge_row E self transactionid o Py.PNone w) with
    | Py.Ok _ =>
        SMS.ends_with E false
          (Py.py_or (SMS.challenge_text E o)
             (Py.PStr "Enter the OTP from the SMS:"))
          (SMS.ch_transaction_id
             (SMS.challenge_row E self transactionid o Py.PNone w))
          transactionid
          (SMS.World (SMS.count w)
             (SMS.db w
                ++ [SMS.challenge_row E self transactionid o Py.PNone w])%list
             (SMS.outbox w) (SMS.log (SMS.at_try w)))
    | Py.Err _ => SMS.handled E o false transactionid (SMS.at_try w)
    end.
Proof.
  intros Hact Hses. destruct w as [c d ob lg].
  unfold SMS.create_challenge, SMS.challenge_body, SMS.challenge_row,
    SMS.handled, SMS.ends_with, SMS.at_try, SMS.after_handler.
  rewrite Hact, Hses, String.eqb_refl.
  run_create_challenge.
  destruct (SMS.db_save E _) as [[]|e]; run_create_challenge.
  - rewrite py_or_idem.
    destruct (SMS.expiry_text E (SMS._get_sms_timeout E)); reflexivity.
  - destruct (SMS.is_true E (Py.dict_get (SMS.vals o) "exception"));
      [reflexivity|]. run_create_challenge.
    destruct (SMS.expiry_text E (SMS._get_sms_timeout E)); reflexivity.
Qed.

(** An active token outside an enrollment session: the sending, the read of
    the data and the saving decide the outcome, in this order; from the
    sending on, [success] holds the gateway's answer. *)
Lemma create_challenge_sending
    (E : SMS.env) (self : SMS.Token) (transactionid : Py.pyval)
    (o : SMS.options) (w : SMS.world) :
  SMS.active self = true ->
  Py.dict_get (SMS.vals o) "session" <> Py.PStr (SMS.ENROLLMENT E) ->
  SMS.create_challenge E self transactionid o w
  = match SMS._send_sms E self (SMS._get_sms_text o) o (SMS.at_send w) with
    | Py.Raise _ w2 => SMS.handled E o false transactionid w2
    | Py.Return (success, _) w2 =>
        match SMS.challenge_data E w with
        | Py.Err _ => SMS.handled E o success transactionid w2
        | Py.Ok data =>
            match SMS.db_save E
                    (SMS.challenge_row E self transactionid o data w) with
            | Py.Err _ => SMS.handled E o success transactionid w2
            | Py.Ok _ =>
                SMS.ends_with E success
                  (Py.py_or (SMS.challenge_text E o)
                     (Py.PStr "Enter the OTP from the SMS:"))
                  (SMS.ch_transaction_id
                     (SMS.challenge_row E self transactionid o data w))
                  transactionid
                  (SMS.World (SMS.count w + 1)
                     (SMS.db w
                        ++ [SMS.challenge_row E self transactionid o data w])%list
                     (SMS.outbox w2) (SMS.log w2))
            end
        end
    end.
Proof.
  intros Hact Hses.
  destruct (SMS._send_sms E self (SMS._get_sms_text o) o (SMS.at_send w))
    as [[success sent] w2|e w2] eqn:Hsend;
    [|exact (create_challenge_delivery_raises E self transactionid o w e w2
               Hact Hses Hsend)].
  destruct (keeps_send_sms E self (SMS._get_sms_text o) o (SMS.at_send w))
    as [Hdb Hcount].
  rewrite Hsend in Hdb, Hcount.
  destruct w as [c d ob lg]. destruct w2 as [c2 d2 ob2 lg2].
  unfold SMS.at_send in *.
  cbn [Py.final_state SMS.count SMS.db SMS.outbox SMS.log] in *.
  subst c2 d2.
  unfold SMS.create_challenge, SMS.challenge_body, SMS.challenge_row,
    SMS.challenge_data, SMS.handled, SMS.ends_with, SMS.after_handler.
  rewrite Hact, (not_enrollment E o Hses).
  run_create_challenge. rewrite Hsend. run_create_challenge.
  destruct (SMS.is_true E (SMS.get_from_config E _ _)); run_create_challenge.
  - destruct (SMS.get_otp_data E (c + 1)) as [v|e]; run_create_challenge.
    + destruct (SMS.db_save E _) as [[]|e]; run_create_challenge.
      * rewrite py_or_idem.
        destruct (SMS.expiry_text E (SMS._get_sms_timeout E)); reflexivity.
      * destruct (SMS.is_true E (Py.dict_get (SMS.vals o) "exception"));
          [reflexivity|]. run_create_challenge.
        destruct (SMS.expiry_text E (SMS._get_sms_timeout E)); reflexivity.
    + destruct (SMS.is_true E (Py.dict_get (SMS.vals o) "exception"));
        [reflexivity|]. run_create_challenge.
      destruct (SMS.expiry_text E (SMS._get_sms_timeout E)); reflexivity.
  - destruct (SMS.db_save E _) as [[]|e]; run_create_challenge.
    + rewrite py_or_idem.
      destruct (SMS.expiry_text E (SMS._get_sms_timeout E)); reflexivity.
    + destruct (SMS.is_true E (Py.dict_get (SMS.vals o) "exception"));
        [reflexivity|]. run_create_challenge.
      destruct (SMS.expiry_text E (SMS._get_sms_timeout E)); reflexivity.
Qed.

(** However [create_challenge] goes, it ends in one of two ways: past the
    [try] statement with at most one row more, or through the handler with
    the table as it was. *)
Lemma create_challenge_shape
    (E : SMS.env) (self : SMS.Token) (transactionid : Py.pyval)
    (o : SMS.options) (w : SMS.world) :
  (exists success message tid w',
      SMS.create_challenge E self transactionid o w
      = SMS.ends_with E success message tid transactionid w'
      /\ (SMS.db w' = SMS.db w
          \/ exists row,
               SMS.db w' = (SMS.db w ++ [row])%list
               /\ SMS.ch_serial row = SMS.serial self
               /\ SMS.ch_validitytime row = SMS._get_sms_timeout E
               /\ SMS.ch_session row = Py.dict_get (SMS.vals o) "session")
      /\ (SMS.count w' = SMS.count w \/ SMS.count w' = SMS.count w + 1))
  \/ (SMS.active self = true
      /\ exists success w2,
           SMS.create_challenge E self transactionid o w
           = SMS.handled E o success transactionid w2
           /\ SMS.db w2 = SMS.db w
           /\ (SMS.count w2 = SMS.count w \/ SMS.count w2 = SMS.count w + 1)).
Proof.
  destruct (SMS.active self) eqn:Hact.
  - destruct (session_cases E o) as [Hses | Hses].
    + rewrite (create_challenge_enrollment E self transactionid o w Hact Hses).
      destruct (SMS.db_save E _) as [[]|e].
      * left. do 3 eexists. eexists. split; [reflexivity|].
        split; [right | left; reflexivity].
        eexists. split; [reflexivity|]. repeat split; reflexivity.
      * right. split; [reflexivity|]. exists false, (SMS.at_try w).
        split; [reflexivity|]. split; [reflexivity | left; reflexivity].
    + rewrite (create_challenge_sending E self transactionid o w Hact Hses).
      destruct (keeps_send_sms E self (SMS._get_sms_text o) o (SMS.at_send w))
        as [Hdb Hcount].
      destruct (SMS._send_sms E self (SMS._get_sms_text o) o (SMS.at_send w))
        as [[success sent] w2|e w2]; cbn [Py.final_state] in Hdb, Hcount;
        change (SMS.db (SMS.at_send w)) with (SMS.db w) in Hdb;
        change (SMS.count (SMS.at_send w)) with (SMS.count w + 1) in Hcount.
      * destruct (SMS.challenge_data E w) as [data|e].
        -- destruct (SMS.db_save E _) as [[]|e].
           ++ left. do 3 eexists. eexists. split; [reflexivity|].
              split; [right | right; reflexivity].
              eexists. split; [reflexivity|]. repeat split; reflexivity.
           ++ right. split; [reflexivity|]. exists success, w2.
              split; [reflexivity|]. split; [exact Hdb | right; exact Hcount].
        -- right. split; [reflexivity|]. exists success, w2.
           split; [reflexivity|]. split; [exact Hdb | right; exact Hcount].
      * right. split; [reflexivity|]. exists false, w2.
        split; [reflexivity|]. split; [exact Hdb | right; exact Hcount].
  - left. rewrite (create_challenge_inactive E self transactionid o w Hact).
    do 3 eexists. exists w. split; [reflexivity|].
    split; left; reflexivity.
Qed.

(** X19. When the sending returns, [create_challenge] on an active token
    still has the data to read and the row to save, inside the same [try].
    If both succeed, exactly one row is saved: with the serial of the
    token, the caller's transaction id or else a generated one, and as data
    the OTP value at the advanced counter if concurrent challenges are on
    and nothing otherwise; the gateway's answer is the [success] of the
    result and the "state" of the reply is the id the caller passed, not
    the generated one. If one of them raises, no row is written, and unless
    the caller asked for an exception the call returns the gateway's answer
    as [success] together with the failure message. In both cases the
    counter has advanced by one. *)
Theorem create_challenge_sent
    (E : SMS.env) (self : SMS.Token) (transactionid : Py.pyval)
    (o : SMS.options) (w : SMS.world) (success : bool) (sent : string)
    (w2 : SMS.world) (valid_until : string) :
  SMS.active self = true ->
  Py.dict_get (SMS.vals o) "session" <> Py.PStr (SMS.ENROLLMENT E) ->
  SMS._send_sms E self (SMS._get_sms_text o) o (SMS.at_send w)
    = Py.Return (success, sent) w2 ->
  SMS.expiry_text E (SMS._get_sms_timeout E) = Py.Ok valid_until ->
  (forall data,
      SMS.challenge_data E w = Py.Ok data ->
      SMS.db_save E (SMS.challenge_row E self transactionid o data w)
      = Py.Ok tt ->
      exists w',
        SMS.create_challenge E self transactionid o w
        = Py.Return
            (success,
             Py.py_or (SMS.challenge_text E o)
               (Py.PStr "Enter the OTP from the SMS:"),
             Py.py_or transactionid
               (Py.PStr (SMS.create_transaction_id E
                           (List.length (SMS.db w)))),
             SMS.reply_dict transactionid valid_until) w'
        /\ SMS.db w'
           = (SMS.db w
                ++ [SMS.challenge_row E self transactionid o data w])%list
        /\ SMS.count w' = SMS.count w + 1
        /\ SMS.outbox w' = SMS.outbox w2) /\
  (forall e,
      SMS.challenge_data E w = Py.Err e
      \/ (exists data,
            SMS.challenge_data E w = Py.Ok data
            /\ SMS.db_save E (SMS.challenge_row E self transactionid o data w)
               = Py.Err e) ->
      SMS.is_true E (Py.dict_get (SMS.vals o) "exception") = false ->
      exists w',
        SMS.create_challenge E self transactionid o w
        = Py.Return
            (success, Py.PStr SMS.info_not_sent, transactionid,
             SMS.reply_dict transactionid valid_until) w'
        /\ SMS.db w' = SMS.db w
        /\ SMS.count w' = SMS.count w + 1
        /\ SMS.outbox w' = SMS.outbox w2).
Proof.
  intros Hact Hses Hsend Hexp.
  rewrite (create_challenge_sending E self transactionid o w Hact Hses).
  destruct (keeps_send_sms E self (SMS._get_sms_text o) o (SMS.at_send w))
    as [Hdb Hcount].
  rewrite Hsend in Hdb, Hcount |- *. cbn [Py.final_state] in Hdb, Hcount.
  change (SMS.db (SMS.at_send w)) with (SMS.db w) in Hdb.
  change (SMS.count (SMS.at_send w)) with (SMS.count w + 1) in Hcount.
  unfold SMS.handled, SMS.ends_with. rewrite Hexp. split.
  - intros data Hdata Hsave. rewrite Hdata, Hsave.
    eexists. split; [reflexivity|]. repeat split; reflexivity.
  - intros e Hfail Hexc. rewrite Hexc.
    destruct Hfail as [Hdata | (data & Hdata & Hsave)].
    + rewrite Hdata. eexists. split; [reflexivity|].
      split; [exact Hdb|]. split; [exact Hcount | reflexivity].
    + rewrite Hdata, Hsave. eexists. split; [reflexivity|].
      split; [exact Hdb|]. split; [exact Hcount | reflexivity].
Qed.

Lemma create_challenge_sent_witness :
  (exists w',
     SMS.create_challenge (Samples.sms_env Samples.gateway_up)
       Samples.sms_token Py.PNone (Samples.sms_options ∅) Samples.sms_world
     = Py.Return
         (true, Py.PStr "Enter the OTP from the SMS:", Py.PStr "tx0",
          SMS.reply_dict Py.PNone "now + 300") w'
     /\ SMS.db w'
        = [ {| SMS.ch_serial := "SMS0001";
               SMS.ch_transaction_id := Py.PStr "tx0";
               SMS.ch_challenge := Py.PNone;
               SMS.ch_data := Py.PStr "123457";
               SMS.ch_session := Py.PNone;
               SMS.ch_validitytime := 300 |} ]
     /\ SMS.count w' = 1
     /\ SMS.outbox w'
        = [ {| SMS.post_check := false;
               SMS.destination := Py.PStr "+4915100000";
               SMS.sms_text := "123457" |} ]) /\
  (exists w',
     SMS.create_challenge (Samples.sms_env_db_down Samples.gateway_up)
       Samples.sms_token Py.PNone (Samples.sms_options ∅) Samples.sms_world
     = Py.Return
         (true, Py.PStr SMS.info_not_sent, Py.PNone,
          SMS.reply_dict Py.PNone "now + 300") w'
     /\ SMS.db w' = []
     /\ SMS.count w' = 1
     /\ SMS.outbox w'
        = [ {| SMS.post_check := false;
               SMS.destination := Py.PStr "+4915100000";
               SMS.sms_text := "123457" |} ]).
Proof.
  split.
  - refine (proj1 (create_challenge_sent (Samples.sms_env Samples.gateway_up)
              Samples.sms_token Py.PNone (Samples.sms_options ∅)
              Samples.sms_world true "123457"
              (SMS.World 1 []
                 [ {| SMS.post_check := false;
                      SMS.destination := Py.PStr "+4915100000";
                      SMS.sms_text := "123457" |} ]
                 (SMS.log
                    (Py.final_state
                       (SMS._send_sms (Samples.sms_env Samples.gateway_up)
                          Samples.sms_token "<otp>" (Samples.sms_options ∅)
                          (SMS.at_send Samples.sms_world)))))
              "now + 300" eq_refl _ _ eq_refl)
              (Py.PStr "123457") eq_refl eq_refl).
    + vm_compute. congruence.
    + vm_compute. reflexivity.
  - refine (proj2 (create_challenge_sent
              (Samples.sms_env_db_down Samples.gateway_up)
              Samples.sms_token Py.PNone (Samples.sms_options ∅)
              Samples.sms_world true "123457"
              (SMS.World 1 []
                 [ {| SMS.post_check := false;
                      SMS.destination := Py.PStr "+4915100000";
                      SMS.sms_text := "123457" |} ]
                 (SMS.log
                    (Py.final_state
                       (SMS._send_sms
                          (Samples.sms_env_db_down Samples.gateway_up)
                          Samples.sms_token "<otp>" (Samples.sms_options ∅)
                          (SMS.at_send Samples.sms_world)))))
              "now + 300" eq_refl _ _ eq_refl)
              (Py.Exception_ "database is down") _ eq_refl).
    + vm_compute. congruence.
    + vm_compute. reflexivity.
    + right. exists (Py.PStr "123457"). split; reflexivity.
Defined.

(** X20. [create_challenge] sends nothing when the token is inactive or the
    session is an enrollment session: however the call ends, no message has
    been handed to the gateway and the counter is as it was. When the
    expiry date can be computed, the inactive token gets [success = False],
    the ordinary prompt and its transaction id back, with the world
    untouched, and the enrollment session on an active token whose row the
    database takes gets [success = False], the prompt and the transaction
    id of the one row that was saved, without data. *)
Theorem create_challenge_without_sending
    (E : SMS.env) (self : SMS.Token) (transactionid : Py.pyval)
    (o : SMS.options) (w : SMS.world) :
  SMS.active self = false
  \/ Py.dict_get (SMS.vals o) "session" = Py.PStr (SMS.ENROLLMENT E) ->
  SMS.outbox (Py.final_state (SMS.create_challenge E self transactionid o w))
    = SMS.outbox w
  /\ SMS.count (Py.final_state (SMS.create_challenge E self transactionid o w))
     = SMS.count w
  /\ (SMS.active self = false ->
      forall valid_until,
        SMS.expiry_text E (SMS._get_sms_timeout E) = Py.Ok valid_until ->
        SMS.create_challenge E self transactionid o w
        = Py.Return
            (false,
             Py.py_or (SMS.challenge_text E o)
               (Py.PStr "Enter the OTP from the SMS:"),
             transactionid,
             SMS.reply_dict transactionid valid_until) w)
  /\ (SMS.active self = true ->
      forall valid_until,
        SMS.expiry_text E (SMS._get_sms_timeout E) = Py.Ok valid_until ->
        SMS.db_save E (SMS.challenge_row E self transactionid o Py.PNone w)
        = Py.Ok tt ->
        exists w',
          SMS.create_challenge E self transactionid o w
          = Py.Return
              (false,
               Py.py_or (SMS.challenge_text E o)
                 (Py.PStr "Enter the OTP from the SMS:"),
               Py.py_or transactionid
                 (Py.PStr (SMS.create_transaction_id E
                             (List.length (SMS.db w)))),
               SMS.reply_dict transactionid valid_until) w'
          /\ SMS.db w'
             = (SMS.db w
                  ++ [SMS.challenge_row E self transactionid o Py.PNone w])%list).
Proof.
  intros Hno. destruct (SMS.active self) eqn:Hact.
  - destruct Hno as [Hno | Hses]; [discriminate Hno|].
    rewrite (create_challenge_enrollment E self transactionid o w Hact Hses).
    unfold SMS.handled, SMS.ends_with.
    destruct (SMS.db_save E _) as [[]|e].
    + destruct (SMS.expiry_text E (SMS._get_sms_timeout E)) as [t|e];
        (split; [reflexivity|]); (split; [reflexivity|]);
        (split; [discriminate|]); intros _ t' Ht' Hsave;
        [|discriminate Ht'].
      injection Ht' as <-. eexists. split; reflexivity.
    + destruct (SMS.is_true E _);
        [|destruct (SMS.expiry_text E (SMS._get_sms_timeout E))];
        (split; [reflexivity|]); (split; [reflexivity|]);
        (split; [discriminate|]); intros _ t' Ht' Hsave;
        discriminate Hsave.
  - rewrite (create_challenge_inactive E self transactionid o w Hact).
    unfold SMS.ends_with.
    destruct (SMS.expiry_text E (SMS._get_sms_timeout E)) as [t|e];
      (split; [reflexivity|]); (split; [reflexivity|]);
      (split; [|discriminate]); intros _ t' Ht';
      [now injection Ht' as <- | discriminate Ht'].
Qed.

Lemma create_challenge_without_sending_witness :
  SMS.outbox
    (Py.final_state
       (SMS.create_challenge (Samples.sms_env Samples.gateway_down)
          Samples.sms_token Py.PNone
          (Samples.sms_options {[ "session" := Py.PStr "enrollment" ]})
          Samples.sms_world)) = []
  /\ exists w',
       SMS.create_challenge (Samples.sms_env Samples.gateway_down)
         Samples.sms_token Py.PNone
         (Samples.sms_options {[ "session" := Py.PStr "enrollment" ]})
         Samples.sms_world
       = Py.Return
           (false, Py.PStr "Enter the OTP from the SMS:", Py.PStr "tx0",
            SMS.reply_dict Py.PNone "now + 300") w'
       /\ SMS.db w'
          = [ {| SMS.ch_serial := "SMS0001";
                 SMS.ch_transaction_id := Py.PStr "tx0";
                 SMS.ch_challenge := Py.PNone;
                 SMS.ch_data := Py.PNone;
                 SMS.ch_session := Py.PStr "enrollment";
                 SMS.ch_validitytime := 300 |} ].
Proof.
  destruct (create_challenge_without_sending
              (Samples.sms_env Samples.gateway_down) Samples.sms_token
              Py.PNone
              (Samples.sms_options {[ "session" := Py.PStr "enrollment" ]})
              Samples.sms_world)
    as (Hout & _ & _ & Hrow).
  - right. reflexivity.
  - split; [exact Hout|].
    apply (Hrow eq_refl "now + 300"); reflexivity.
Defined.

(** X21. [create_challenge] raises in two ways only. On request: the
    exception is [Exception] with the message "The PIN was correct, but the
    SMS could not be sent!", [is_true] accepted the caller's "exception"
    option, something inside the [try] had raised, and no row has been
    written. Or from the expiry date, which is computed outside the [try].
    So if [is_true] rejects the option and the expiry date can be computed,
    the call returns whatever fails inside the [try]. *)
Theorem create_challenge_raises_only_on_request
    (E : SMS.env) (self : SMS.Token) (transactionid : Py.pyval)
    (o : SMS.options) (w : SMS.world) :
  (SMS.is_true E (Py.dict_get (SMS.vals o) "exception") = false ->
   forall valid_until,
     SMS.expiry_text E (SMS._get_sms_timeout E) = Py.Ok valid_until ->
     exists r w', SMS.create_challenge E self transactionid o w
                  = Py.Return r w') /\
  (forall e w',
      SMS.create_challenge E self transactionid o w = Py.Raise e w' ->
      (e = Py.Exception_ SMS.info_not_sent
       /\ SMS.is_true E (Py.dict_get (SMS.vals o) "exception") = true
       /\ SMS.active self = true
       /\ SMS.db w' = SMS.db w)
      \/ SMS.expiry_text E (SMS._get_sms_timeout E) = Py.Err e).
Proof.
  destruct (create_challenge_shape E self transactionid o w)
    as [(s & m & t & w1 & Hrun & _)
       | (Hact & s & w2 & Hrun & Hdb & _)]; rewrite Hrun;
    unfold SMS.handled, SMS.ends_with.
  - split.
    + intros _ v Hv. rewrite Hv. eexists. eexists. reflexivity.
    + intros e w' Hr. right.
      destruct (SMS.expiry_text E (SMS._get_sms_timeout E));
        [discriminate Hr | now injection Hr as -> _].
  - destruct (SMS.is_true E (Py.dict_get (SMS.vals o) "exception")).
    + split; [discriminate|]. intros e w' Hr. left.
      injection Hr as <- <-.
      split; [reflexivity|]. split; [reflexivity|].
      split; [exact Hact | exact Hdb].
    + split.
      * intros _ v Hv. rewrite Hv. eexists. eexists. reflexivity.
      * intros e w' Hr. right.
        destruct (SMS.expiry_text E (SMS._get_sms_timeout E));
          [discriminate Hr | now injection Hr as -> _].
Qed.

Lemma create_challenge_raises_only_on_request_witness :
  (exists r w',
     SMS.create_challenge (Samples.sms_env Samples.gateway_down)
       Samples.sms_token Py.PNone (Samples.sms_options ∅) Samples.sms_world
     = Py.Return r w') /\
  SMS.expiry_text (Samples.sms_env_overflow Samples.gateway_up)
    (SMS._get_sms_timeout (Samples.sms_env_overflow Samples.gateway_up))
  = Py.Err (Py.OverflowError "date value out of range").
Proof.
  split.
  - refine (proj1 (create_challenge_raises_only_on_request
                     (Samples.sms_env Samples.gateway_down) Samples.sms_token
                     Py.PNone (Samples.sms_options ∅) Samples.sms_world)
              _ "now + 300" _); reflexivity.
  - destruct (proj2 (create_challenge_raises_only_on_request
                       (Samples.sms_env_overflow Samples.gateway_up)
                       Samples.sms_token Py.PNone (Samples.sms_options ∅)
                       Samples.sms_world)
                (Py.OverflowError "date value out of range")
                (Py.final_state
                   (SMS.create_challenge
                      (Samples.sms_env_overflow Samples.gateway_up)
                      Samples.sms_token Py.PNone (Samples.sms_options ∅)
                      Samples.sms_world)))
      as [(Hexn & _) | Hexp].
    + vm_compute. reflexivity.
    + discriminate Hexn.
    + exact Hexp.
Defined.

(** X22. However [create_challenge] ends, the rows that were in the
    challenge table stay as they are and at most one row is added, which
    carries the serial of the token and the configured validity; the
    counter is either unchanged or advanced by exactly one. *)
Theorem create_challenge_table_grows_by_at_most_one
    (E : SMS.env) (self : SMS.Token) (transactionid : Py.pyval)
    (o : SMS.options) (w : SMS.world) :
  (SMS.db (Py.final_state (SMS.create_challenge E self transactionid o w))
   = SMS.db w
   \/ exists row,
        SMS.db (Py.final_state (SMS.create_challenge E self transactionid o w))
        = (SMS.db w ++ [row])%list
        /\ SMS.ch_serial row = SMS.serial self
        /\ SMS.ch_validitytime row = SMS._get_sms_timeout E
        /\ SMS.ch_session row = Py.dict_get (SMS.vals o) "session") /\
  (SMS.count (Py.final_state (SMS.create_challenge E self transactionid o w))
   = SMS.count w
   \/ SMS.count (Py.final_state (SMS.create_challenge E self transactionid o w))
      = SMS.count w + 1).
Proof.
  destruct (create_challenge_shape E self transactionid o w)
    as [(s & m & t & w1 & Hrun & Hdb & Hcount)
       | (Hact & s & w2 & Hrun & Hdb & Hcount)]; rewrite Hrun;
    unfold SMS.handled, SMS.ends_with.
  - destruct (SMS.expiry_text E (SMS._get_sms_timeout E));
      cbn [Py.final_state]; split; assumption.
  - destruct (SMS.is_true E _);
      [|destruct (SMS.expiry_text E (SMS._get_sms_timeout E))];
      cbn [Py.final_state];
      change (SMS.db (SMS.after_handler w2)) with (SMS.db w2);
      change (SMS.count (SMS.after_handler w2)) with (SMS.count w2);
      (split; [left; exact Hdb | exact Hcount]).
Qed.

(** ** SMS token: what [check_otp] does besides answering *)

Lemma outbox_not_grown (ob : list SMS.Sms) (a b : SMS.Sms) :
  (ob ++ [a])%list = (ob ++ [b])%list -> a = b.
Proof.
  intros H. apply app_inv_head in H. now inversion H.
Qed.

Lemma outbox_grown_ne (ob : list SMS.Sms) (a : SMS.Sms) :
  ob <> (ob ++ [a])%list.
Proof.
  intros H. apply (f_equal (@List.length _)) in H.
  rewrite length_app in H. cbn in H. lia.
Qed.

(** What follows a success: the counter that the call leaves, and the one
    message that may have been handed to the gateway. *)
Lemma after_success_spec
    (E : SMS.env) (self : SMS.Token) (o : SMS.options) (ret : Z)
    (w : SMS.world) :
  SMS.db (Py.final_state (SMS.after_success E self o ret w)) = SMS.db w
  /\ SMS.count (Py.final_state (SMS.after_success E self o ret w))
     = (if SMS._get_auto_sms o then ret + 1 else SMS.count w)
  /\ (SMS.outbox (Py.final_state (SMS.after_success E self o ret w))
      = SMS.outbox w
      \/ exists dest text,
           SMS.render_message E
             (SMS._get_sms_text
                (if SMS._get_auto_sms o then o else SMS.post_check_options o))
             (SMS.hotp E (if SMS._get_auto_sms o then ret + 1 else SMS.count w))
             (SMS.serial self)
             (if SMS._get_auto_sms o then o else SMS.post_check_options o)
           = Py.Ok text
           /\ SMS.outbox (Py.final_state (SMS.after_success E self o ret w))
              = (SMS.outbox w
                   ++ [SMS.Build_Sms
                         (if SMS._get_auto_sms o
                          then Py.truthy (Py.dict_get (SMS.vals o)
                                            "smstoken_post_check")
                          else true)
                         dest text])%list)
  /\ (forall w', SMS.after_success E self o ret w = Py.Return tt w' ->
                 SMS.outbox w' <> SMS.outbox w).
Proof.
  destruct w as [c d ob lg]. unfold SMS.after_success.
  destruct (SMS._get_auto_sms o).
  - cbv beta iota delta
      [mbind mret Py.M_bind Py.M_ret SMS.inc_otp_counter Py.modify
       SMS.write_log].
    cbn [SMS.count SMS.db SMS.outbox SMS.log].
    destruct (keeps_send_sms E self (SMS._get_sms_text o) o
                (SMS.World (ret + 1) d ob lg)) as [Hdb Hcount].
    pose proof (send_sms_outbox E self (SMS._get_sms_text o) o
                  (SMS.World (ret + 1) d ob lg)) as Hout.
    cbn [SMS.count SMS.db SMS.outbox SMS.log] in Hdb, Hcount, Hout.
    destruct (SMS.render_message E (SMS._get_sms_text o)
                (SMS.hotp E (ret + 1)) (SMS.serial self) o) as [text|e].
    + destruct (SMS._send_sms E self (SMS._get_sms_text o) o
                  (SMS.World (ret + 1) d ob lg)) as [[s m] w2|e w2];
        cbn [Py.final_state] in *.
      * destruct Hout as [-> [dest Hob]]. cbn [SMS.db SMS.count SMS.outbox].
        split; [exact Hdb|]. split; [exact Hcount|].
        split; [right; exists dest, text; split; [reflexivity | exact Hob]|].
        intros w' Hr. injection Hr as <-. cbn [SMS.outbox]. rewrite Hob.
        intros Heq. symmetry in Heq. exact (outbox_grown_ne _ _ Heq).
      * split; [exact Hdb|]. split; [exact Hcount|].
        split; [|discriminate].
        destruct Hout as [Hob | [dest Hob]]; [left; exact Hob|].
        right. exists dest, text. split; [reflexivity | exact Hob].
    + destruct Hout as (w' & Hrun & Hob). rewrite Hrun in *.
      cbn [Py.final_state] in *.
      split; [exact Hdb|]. split; [exact Hcount|].
      split; [left; exact Hob | discriminate].
  - change (SMS.Build_options (SMS.user o) (SMS.g o)
              (<["smstoken_post_check" := Py.PInt 1]> (SMS.vals o)))
      with (SMS.post_check_options o).
    cbv beta iota delta [mbind mret Py.M_bind Py.M_ret].
    destruct (keeps_send_sms E self
                (SMS._get_sms_text (SMS.post_check_options o))
                (SMS.post_check_options o) (SMS.World c d ob lg))
      as [Hdb Hcount].
    pose proof (send_sms_outbox E self
                  (SMS._get_sms_text (SMS.post_check_options o))
                  (SMS.post_check_options o) (SMS.World c d ob lg)) as Hout.
    assert (Hflag :
      Py.truthy (Py.dict_get (SMS.vals (SMS.post_check_options o))
                   "smstoken_post_check") = true).
    { unfold SMS.post_check_options, Py.dict_get. cbn [SMS.vals].
      now rewrite lookup_insert_eq. }
    rewrite Hflag in Hout.
    cbn [SMS.count SMS.db SMS.outbox SMS.log] in Hdb, Hcount, Hout |- *.
    destruct (SMS.render_message E
                (SMS._get_sms_text (SMS.post_check_options o))
                (SMS.hotp E c) (SMS.serial self) (SMS.post_check_options o))
      as [text|e].
    + destruct (SMS._send_sms E self
                  (SMS._get_sms_text (SMS.post_check_options o))
                  (SMS.post_check_options o) (SMS.World c d ob lg))
        as [[s m] w2|e w2]; cbn [Py.final_state] in *.
      * destruct Hout as [-> [dest Hob]].
        split; [exact Hdb|]. split; [exact Hcount|].
        split; [right; exists dest, text; split; [reflexivity | exact Hob]|].
        intros w' Hr. injection Hr as <-. rewrite Hob.
        intros Heq. symmetry in Heq. exact (outbox_grown_ne _ _ Heq).
      * split; [exact Hdb|]. split; [exact Hcount|].
        split; [|discriminate].
        destruct Hout as [Hob | [dest Hob]]; [left; exact Hob|].
        right. exists dest, text. split; [reflexivity | exact Hob].
    + destruct Hout as (w' & Hrun & Hob). rewrite Hrun in *.
      cbn [Py.final_state] in *.
      split; [exact Hdb|]. split; [exact Hcount|].
      split; [left; exact Hob | discriminate].
Qed.

(** [check_otp] on a token that is not locked, by the result of the HOTP
    check. *)
Lemma check_otp_unfold
    (E : SMS.env) (self : SMS.Token) (anOtpVal : string)
    (counter window : Py.pyval) (o : SMS.options) (w : SMS.world) :
  SMS.locked self = false ->
  SMS.check_otp E self anOtpVal counter window o w
  = if (SMS.hotp_check_otp E self (SMS.count w) anOtpVal counter window <? 0)
       && SMS.is_true E
            (SMS.get_from_config E "sms.concurrent_challenges" Py.PNone)
    then
      match SMS.compare_data o anOtpVal with
      | Py.Ok true =>
          match SMS.after_success E self o 1 w with
          | Py.Return _ w' => Py.Return 1 w'
          | Py.Raise e w' => Py.Raise e w'
          end
      | Py.Ok false =>
          Py.Return
            (SMS.hotp_check_otp E self (SMS.count w) anOtpVal counter window) w
      | Py.Err e => Py.Raise e w
      end
    else if 0 <=? SMS.hotp_check_otp E self (SMS.count w) anOtpVal counter
                    window
    then
      match SMS.after_success E self o
              (SMS.hotp_check_otp E self (SMS.count w) anOtpVal counter window)
              w with
      | Py.Return _ w' =>
          Py.Return
            (SMS.hotp_check_otp E self (SMS.count w) anOtpVal counter window)
            w'
      | Py.Raise e w' => Py.Raise e w'
      end
    else
      Py.Return
        (SMS.hotp_check_otp E self (SMS.count w) anOtpVal counter window) w.
Proof.
  intros Hlock. unfold SMS.check_otp, SMS.check_token_locked. rewrite Hlock.
  unfold SMS.check_otp_body.
  cbv beta iota delta [mbind mret Py.M_bind Py.M_ret Py.get_state Py.lift_res].
  set (ret := SMS.hotp_check_otp E self (SMS.count w) anOtpVal counter window).
  destruct (ret <? 0) eqn:Hneg; cbn [andb].
  - destruct (SMS.is_true E _).
    + destruct (SMS.compare_data o anOtpVal) as [[|]|e]; cbv beta iota.
      * change (0 <=? 1) with true. cbv beta iota.
        destruct (SMS.after_success E self o 1 w); reflexivity.
      * apply Z.ltb_lt in Hneg.
        destruct (Z.leb_spec 0 ret) as [Hge|_]; [lia | reflexivity].
      * reflexivity.
    + cbv beta iota. apply Z.ltb_lt in Hneg.
      destruct (Z.leb_spec 0 ret) as [Hge|_]; [lia | reflexivity].
  - cbv beta iota. destruct (0 <=? ret).
    + destruct (SMS.after_success E self o ret w); reflexivity.
    + reflexivity.
Qed.

(** X23. What [check_otp] does besides answering, for every input: it never
    touches the challenge table; a negative answer comes with no effect at
    all; every answer that is a success comes with exactly one message
    handed to the gateway; and a locked token is refused before anything
    happens. *)
Theorem check_otp_effects
    (E : SMS.env) (self : SMS.Token) (anOtpVal : string)
    (counter window : Py.pyval) (o : SMS.options) (w : SMS.world) :
  SMS.db (Py.final_state (SMS.check_otp E self anOtpVal counter window o w))
    = SMS.db w
  /\ (forall r w',
        SMS.check_otp E self anOtpVal counter window o w = Py.Return r w' ->
        (r < 0 -> w' = w)
        /\ (0 <= r -> exists sms, SMS.outbox w' = (SMS.outbox w ++ [sms])%list))
  /\ (SMS.locked self = true ->
      SMS.check_otp E self anOtpVal counter window o w
      = Py.Raise Py.TokenAdminError w).
Proof.
  destruct (SMS.locked self) eqn:Hlock.
  - rewrite (check_otp_locked E self anOtpVal counter window o w Hlock).
    split; [reflexivity|]. split; [discriminate | reflexivity].
  - rewrite (check_otp_unfold E self anOtpVal counter window o w Hlock).
    set (ret := SMS.hotp_check_otp E self (SMS.count w) anOtpVal counter
                  window).
    assert (Hafter : forall v,
      0 <= v ->
      SMS.db (Py.final_state
                match SMS.after_success E self o v w with
                | Py.Return _ w' => Py.Return v w'
                | Py.Raise e w' => Py.Raise e w'
                end) = SMS.db w
      /\ forall r w',
           match SMS.after_success E self o v w with
           | Py.Return _ w' => Py.Return v w'
           | Py.Raise e w' => Py.Raise e w'
           end = Py.Return r w' ->
           (r < 0 -> w' = w)
           /\ (0 <= r ->
               exists sms, SMS.outbox w' = (SMS.outbox w ++ [sms])%list)).
    { intros v Hv.
      destruct (after_success_spec E self o v w) as (Hdb & _ & Hout & Hret).
      destruct (SMS.after_success E self o v w) as [[] w1|e w1];
        cbn [Py.final_state] in *.
      - split; [exact Hdb|]. intros r w' Hr. injection Hr as <- <-.
        split; [lia|]. intros _.
        destruct Hout as [Hout | (dest & text & _ & Hout)].
        + destruct (Hret w1 eq_refl Hout).
        + eexists. exact Hout.
      - split; [exact Hdb | discriminate]. }
    destruct ((ret <? 0) && SMS.is_true E _) eqn:Hfall.
    + apply andb_true_iff in Hfall as [Hneg _]. apply Z.ltb_lt in Hneg.
      destruct (SMS.compare_data o anOtpVal) as [[|]|e].
      * destruct (Hafter 1 ltac:(lia)) as [Hdb Hret].
        split; [exact Hdb|]. split; [exact Hret | discriminate].
      * split; [reflexivity|]. split; [|discriminate].
        intros r w' Hr. injection Hr as <- <-.
        split; [reflexivity | lia].
      * split; [reflexivity|]. split; discriminate.
    + destruct (Z.leb_spec 0 ret) as [Hge | Hlt].
      * destruct (Hafter ret Hge) as [Hdb Hret].
        split; [exact Hdb|]. split; [exact Hret | discriminate].
      * split; [reflexivity|]. split; [|discriminate].
        intros r w' Hr. injection Hr as <- <-.
        split; [reflexivity | lia].
Qed.

(** X24. When the HOTP check finds nothing and the fallback does not
    apply, because concurrent challenges are switched off (the stored data
    is then not looked at) or because the stored data differs from the
    submitted value, [check_otp] on a token that is not locked returns the
    negative result of the HOTP check and changes nothing: no SMS, the
    counter as it was. *)
Theorem check_otp_not_found
    (E : SMS.env) (self : SMS.Token) (anOtpVal : string)
    (counter window : Py.pyval) (o : SMS.options) (w : SMS.world) :
  SMS.locked self = false ->
  SMS.hotp_check_otp E self (SMS.count w) anOtpVal counter window < 0 ->
  SMS.is_true E (SMS.get_from_config E "sms.concurrent_challenges" Py.PNone)
    = false
  \/ SMS.compare_data o anOtpVal = Py.Ok false ->
  SMS.check_otp E self anOtpVal counter window o w
  = Py.Return
      (SMS.hotp_check_otp E self (SMS.count w) anOtpVal counter window) w.
Proof.
  intros Hlock Hneg Hno.
  rewrite (check_otp_unfold E self anOtpVal counter window o w Hlock).
  destruct (Z.ltb_spec
              (SMS.hotp_check_otp E self (SMS.count w) anOtpVal counter window)
              0) as [_ | Hge]; [|lia].
  destruct (Z.leb_spec 0
              (SMS.hotp_check_otp E self (SMS.count w) anOtpVal counter
                 window)) as [Hge | _]; [lia|].
  destruct Hno as [Hoff | Hdiff].
  - rewrite Hoff. reflexivity.
  - rewrite Hdiff. destruct (SMS.is_true E _); reflexivity.
Qed.

Lemma check_otp_not_found_witness :
  SMS.check_otp (Samples.sms_env Samples.gateway_up) Samples.sms_token
    "123456" Py.PNone Py.PNone
    (Samples.sms_options {[ "data" := Py.PStr "654321" ]}) Samples.sms_world
  = Py.Return (-1) Samples.sms_world.
Proof.
  apply (check_otp_not_found (Samples.sms_env Samples.gateway_up)
           Samples.sms_token "123456" Py.PNone Py.PNone
           (Samples.sms_options {[ "data" := Py.PStr "654321" ]})
           Samples.sms_world eq_refl).
  - reflexivity.
  - right. reflexivity.
Defined.

(** X25. When the HOTP check succeeds with value [ret], [check_otp] on a
    token that is not locked answers [ret], not the 1 of the fallback (the
    stored challenge data is not consulted), or raises from the sending;
    when it answers, one message has been handed to the gateway. Without
    the auto-send policy that message is flagged as post-check message and
    its text is the post-check text policy rendered with an OTP value; with
    the policy it is flagged as the caller's options say and its text is
    the text policy rendered with an OTP value. *)
Theorem check_otp_success_follow_up
    (E : SMS.env) (self : SMS.Token) (anOtpVal : string)
    (counter window : Py.pyval) (o : SMS.options) (w : SMS.world) :
  SMS.locked self = false ->
  0 <= SMS.hotp_check_otp E self (SMS.count w) anOtpVal counter window ->
  (forall r w',
      SMS.check_otp E self anOtpVal counter window o w = Py.Return r w' ->
      r = SMS.hotp_check_otp E self (SMS.count w) anOtpVal counter window
      /\ exists sms, SMS.outbox w' = (SMS.outbox w ++ [sms])%list) /\
  (SMS._get_auto_sms o = true ->
   forall sms,
     SMS.outbox (Py.final_state
                   (SMS.check_otp E self anOtpVal counter window o w))
     = (SMS.outbox w ++ [sms])%list ->
     SMS.post_check sms
     = Py.truthy (Py.dict_get (SMS.vals o) "smstoken_post_check")
     /\ exists otp,
          SMS.render_message E (SMS._get_sms_text o) otp (SMS.serial self) o
          = Py.Ok (SMS.sms_text sms)) /\
  (SMS._get_auto_sms o = false ->
   forall sms,
     SMS.outbox (Py.final_state
                   (SMS.check_otp E self anOtpVal counter window o w))
     = (SMS.outbox w ++ [sms])%list ->
     SMS.post_check sms = true
     /\ exists otp,
          SMS.render_message E
            (SMS._get_sms_text (SMS.post_check_options o)) otp
            (SMS.serial self) (SMS.post_check_options o)
          = Py.Ok (SMS.sms_text sms)).
Proof.
  intros Hlock Hge.
  rewrite (check_otp_unfold E self anOtpVal counter window o w Hlock).
  set (ret := SMS.hotp_check_otp E self (SMS.count w) anOtpVal counter
                window) in *.
  destruct (Z.ltb_spec ret 0) as [Hlt | _]; [lia|]. cbn [andb].
  destruct (Z.leb_spec 0 ret) as [_ | Hlt]; [|lia].
  destruct (after_success_spec E self o ret w) as (_ & _ & Hout & Hsent).
  assert (Hfin :
    Py.final_state
      match SMS.after_success E self o ret w with
      | Py.Return _ w' => Py.Return ret w'
      | Py.Raise e w' => Py.Raise e w'
      end = Py.final_state (SMS.after_success E self o ret w))
    by (destruct (SMS.after_success E self o ret w); reflexivity).
  rewrite Hfin. split; [|split].
  - intros r w' Hr.
    destruct (SMS.after_success E self o ret w) as [[] w1|e w1];
      [|discriminate Hr].
    injection Hr as <- <-. split; [reflexivity|].
    cbn [Py.final_state] in Hout.
    destruct Hout as [Hout | (dest & text & _ & Hout)];
      [destruct (Hsent w1 eq_refl Hout) | eexists; exact Hout].
  - intros Hauto. rewrite Hauto in Hout. intros sms Hsms.
    destruct Hout as [Hout | (dest & text & Hren & Hout)].
    + rewrite Hout in Hsms. destruct (outbox_grown_ne _ _ Hsms).
    + rewrite Hout in Hsms. apply outbox_not_grown in Hsms. subst sms.
      split; [reflexivity | eexists; exact Hren].
  - intros Hauto. rewrite Hauto in Hout. intros sms Hsms.
    destruct Hout as [Hout | (dest & text & Hren & Hout)].
    + rewrite Hout in Hsms. destruct (outbox_grown_ne _ _ Hsms).
    + rewrite Hout in Hsms. apply outbox_not_grown in Hsms. subst sms.
      split; [reflexivity | eexists; exact Hren].
Qed.

Lemma check_otp_success_follow_up_witness :
  (exists otp,
     SMS.render_message (Samples.sms_env_hit Samples.gateway_up)
       "Next: <otp>" otp "SMS0001" (Samples.sms_options_policy 1)
     = Py.Ok "Next: 123460") /\
  (exists otp,
     SMS.render_message (Samples.sms_env_hit Samples.gateway_up)
       "Used: <otp> on <serial>" otp "SMS0001"
       (SMS.post_check_options (Samples.sms_options_policy 0))
     = Py.Ok "Used: 123456 on SMS0001").
Proof.
  split.
  - refine (proj2 (proj1 (proj2 (check_otp_success_follow_up
              (Samples.sms_env_hit Samples.gateway_up) Samples.sms_token
              "123459" Py.PNone Py.PNone (Samples.sms_options_policy 1)
              Samples.sms_world eq_refl _)) eq_refl
              {| SMS.post_check := false;
                 SMS.destination := Py.PStr "+4915100000";
                 SMS.sms_text := "Next: 123460" |} _)).
    + vm_compute. congruence.
    + vm_compute. reflexivity.
  - refine (proj2 (proj2 (proj2 (check_otp_success_follow_up
              (Samples.sms_env_hit Samples.gateway_up) Samples.sms_token
              "123459" Py.PNone Py.PNone (Samples.sms_options_policy 0)
              Samples.sms_world eq_refl _)) eq_refl
              {| SMS.post_check := true;
                 SMS.destination := Py.PStr "+4915100000";
                 SMS.sms_text := "Used: 123456 on SMS0001" |} _)).
    + vm_compute. congruence.
    + vm_compute. reflexivity.
Defined.

(** X26. [_send_sms] keeps the counter and the challenge table and hands at
    most one message to the gateway. The text is rendered with the OTP
    value at the current counter before any provider is looked up: if the
    rendering fails, that exception is raised and nothing is handed over;
    if the call returns, exactly one message has been handed over, its
    text is the rendered text and is the second component of the result,
    and it is flagged as post-check message exactly when the options carry
    a truthy "smstoken_post_check". *)
Theorem send_sms_hands_over_rendered_text
    (E : SMS.env) (self : SMS.Token) (message : string) (o : SMS.options)
    (w : SMS.world) :
  SMS.db (Py.final_state (SMS._send_sms E self message o w)) = SMS.db w
  /\ SMS.count (Py.final_state (SMS._send_sms E self message o w))
     = SMS.count w
  /\ (forall e,
        SMS.render_message E message (SMS.hotp E (SMS.count w))
          (SMS.serial self) o = Py.Err e ->
        exists w', SMS._send_sms E self message o w = Py.Raise e w'
                   /\ SMS.outbox w' = SMS.outbox w)
  /\ (forall ret sent w',
        SMS._send_sms E self message o w = Py.Return (ret, sent) w' ->
        SMS.render_message E message (SMS.hotp E (SMS.count w))
          (SMS.serial self) o = Py.Ok sent
        /\ exists dest,
             SMS.outbox w'
             = (SMS.outbox w
                  ++ [SMS.Build_Sms
                        (Py.truthy (Py.dict_get (SMS.vals o)
                                      "smstoken_post_check"))
                        dest sent])%list)
  /\ (SMS.outbox (Py.final_state (SMS._send_sms E self message o w))
      = SMS.outbox w
      \/ exists sms,
           SMS.outbox (Py.final_state (SMS._send_sms E self message o w))
           = (SMS.outbox w ++ [sms])%list).
Proof.
  destruct (keeps_send_sms E self message o w) as [Hdb Hcount].
  pose proof (send_sms_outbox E self message o w) as Hout.
  split; [exact Hdb|]. split; [exact Hcount|].
  destruct (SMS.render_message E message (SMS.hotp E (SMS.count w))
              (SMS.serial self) o) as [text|e0].
  - split; [discriminate|].
    destruct (SMS._send_sms E self message o w) as [[ret sent] w1|e w1];
      cbn [Py.final_state].
    + destruct Hout as [-> [dest Hob]]. split.
      * intros r s w' Hr. injection Hr as <- <- <-.
        split; [reflexivity | exists dest; exact Hob].
      * right. eexists. exact Hob.
    + split; [discriminate|].
      destruct Hout as [Hob | [dest Hob]];
        [left; exact Hob | right; eexists; exact Hob].
  - destruct Hout as (w1 & Hrun & Hob). rewrite Hrun. split.
    + intros e He. injection He as <-. exists w1.
      split; [reflexivity | exact Hob].
    + split; [discriminate | left; exact Hob].
Qed.

(** ** SMS token: templates without placeholders, and the default one *)

Lemma string_app_nil_r (s : string) : s ++ "" = s.
Proof.
  induction s as [|c s IH]; [reflexivity|].
  change (String c (s ++ "") = String c s). now rewrite IH.
Qed.

(** A text without "<" holds no placeholder that starts with "<". *)
Lemma replace_plain (old new s : string) :
  SMS.plain_text s = true ->
  Py.replace (String "<" old) new s = s.
Proof.
  unfold Py.replace. induction s as [|c s IH]; intros Hs; [reflexivity|].
  destruct (plain_text_cons c s Hs) as (Hlt & _ & _ & Hrest).
  cbn [Py.replace_from String.prefix].
  destruct (ascii_dec "<" c) as [<- | _]; [discriminate Hlt|].
  now rewrite (IH Hrest).
Qed.

Lemma pieces_plain (s : string) :
  SMS.plain_text s = true ->
  Py.pieces Py.Text s = List.map Py.Lit (list_ascii_of_string s).
Proof.
  induction s as [|c s IH]; intros Hs; [reflexivity|].
  destruct (plain_text_cons c s Hs) as (_ & Hopen & Hclose & Hrest).
  cbn [Py.pieces list_ascii_of_string List.map].
  now rewrite Hopen, Hclose, (IH Hrest).
Qed.

Lemma render_literals (kwargs : gmap string Py.pyval) (s : string) :
  Py.render kwargs (List.map Py.Lit (list_ascii_of_string s)) = Py.Ok s.
Proof.
  induction s as [|c s IH]; [reflexivity|].
  cbn [list_ascii_of_string List.map Py.render]. now rewrite IH.
Qed.

(** X27. A template without "<", "{" and "}" is sent as it is, and the
    default template "<otp>" becomes exactly the OTP value (an OTP value
    holds none of the three characters): provided [create_tag_dict] yields
    no tag named "otp", which would clash with the keyword of the same
    name, the rendering cannot fail on such texts. *)
Theorem render_message_plain_text
    (E : SMS.env) (otp serial0 : string) (o : SMS.options) :
  SMS.tags_of E serial0 o !! "otp" = None ->
  (forall message,
      SMS.plain_text message = true ->
      SMS.render_message E message otp serial0 o = Py.Ok message) /\
  (SMS.plain_text otp = true ->
   SMS.render_message E "<otp>" otp serial0 o = Py.Ok otp).
Proof.
  intros Htag.
  assert (Hplain : forall text,
    SMS.plain_text text = true ->
    Py.format (Py.replace "<serial>" serial0 text)
      (<["otp" := Py.PStr otp]> (SMS.tags_of E serial0 o)) = Py.Ok text).
  { intros text Ht. rewrite (replace_plain "serial>" serial0 text Ht).
    unfold Py.format. rewrite (pieces_plain text Ht).
    apply render_literals. }
  split.
  - intros message Hm. unfold SMS.render_message. rewrite Htag.
    rewrite (replace_plain "otp>" otp message Hm). exact (Hplain message Hm).
  - intros Hotp. unfold SMS.render_message. rewrite Htag.
    change (Py.replace "<otp>" otp "<otp>") with (otp ++ "").
    rewrite string_app_nil_r. exact (Hplain otp Hotp).
Qed.

Lemma render_message_plain_text_witness :
  SMS.render_message (Samples.sms_env Samples.gateway_up)
    "Your one-time password has been used." "123456" "SMS0001"
    (Samples.sms_options ∅)
  = Py.Ok "Your one-time password has been used."
  /\ SMS.render_message (Samples.sms_env Samples.gateway_up) "<otp>" "123456"
       "SMS0001" (Samples.sms_options ∅)
     = Py.Ok "123456".
Proof.
  split.
  - apply (proj1 (render_message_plain_text
                    (Samples.sms_env Samples.gateway_up) "123456" "SMS0001"
                    (Samples.sms_options ∅) eq_refl)).
    reflexivity.
  - apply (proj2 (render_message_plain_text
                    (Samples.sms_env Samples.gateway_up) "123456" "SMS0001"
                    (Samples.sms_options ∅) eq_refl)).
    reflexivity.
Defined.

(** ** SMS token: the provider of the old configuration style *)

(** X28. [_get_sms_provider] cuts the configured "sms.provider" at its last
    dot: the two parts joined with a dot give the configured text back and
    the class part holds no dot. Without a configured value the parts are
    those of the HTTP provider, and a configured text without any dot is a
    ValueError, which [_send_sms] does not catch. *)
Theorem get_sms_provider_splits_at_last_dot (E : SMS.env) :
  (forall a b,
      SMS._get_sms_provider E = Py.Ok (a, b) ->
      SMS.get_from_config E "sms.provider"
        (Py.PStr "edumfa.lib.smsprovider.HttpSMSProvider.HttpSMSProvider")
      = Py.PStr (a ++ String "." b)
      /\ forallb (fun c => negb (Ascii.eqb c "."))
           (list_ascii_of_string b) = true) /\
  (SMS.config E !! "sms.provider" = None ->
   SMS._get_sms_provider E
   = Py.Ok ("edumfa.lib.smsprovider.HttpSMSProvider", "HttpSMSProvider")) /\
  (forall s,
      SMS.config E !! "sms.provider" = Some (Py.PStr s) ->
      forallb (fun c => negb (Ascii.eqb c ".")) (list_ascii_of_string s)
      = true ->
      SMS._get_sms_provider E
      = Py.Err (Py.ValueError "not enough values to unpack")) /\
  (forall a b,
      SMS.config E !! "sms.provider" = Some (Py.PStr (a ++ String "." b)) ->
      forallb (fun c => negb (Ascii.eqb c ".")) (list_ascii_of_string b)
      = true ->
      SMS._get_sms_provider E = Py.Ok (a, b)).
Proof.
  unfold SMS._get_sms_provider, SMS.get_from_config, Py.dict_get_default.
  split; [|split; [|split]].
  - intros a b Hret.
    destruct (default _ (SMS.config E !! "sms.provider"))
      as [| | |s| |]; try discriminate Hret.
    destruct (Py.rsplit1 "." s) as [[a' b']|] eqn:Hsplit;
      [|discriminate Hret].
    injection Hret as <- <-.
    destruct (rsplit1_inv "." s a' b' Hsplit) as [-> Hb].
    split; [reflexivity | exact Hb].
  - intros Hnone. rewrite Hnone. reflexivity.
  - intros s Hs Hdot. rewrite Hs.
    change (default _ (Some (Py.PStr s))) with (Py.PStr s). cbv beta iota.
    now rewrite (rsplit1_no_sep "." s Hdot).
  - intros a b Hs Hdot. rewrite Hs.
    change (default _ (Some (Py.PStr (a ++ String "." b))))
      with (Py.PStr (a ++ String "." b)). cbv beta iota.
    now rewrite (rsplit1_app "." a b Hdot).
Qed.

(** ** SMS token: enrollment through the validate endpoint *)

(** X29. After [enroll_via_validate_2nd_step] the token no longer follows
    the phone number of its user: the entry "dynamic_phone" is gone, "phone"
    holds the number that was entered, and with a provider that does not
    send to a uid the destination of the next SMS is that number, whatever
    the token held before. [is_true(None)] is taken to be false. *)
Theorem enroll_2nd_step_sets_destination
    (E : SMS.env) (self : SMS.Token) (passw : string) (o : SMS.options)
    (ident : Py.pyval) (sms : SMS.Provider) (w : SMS.world) :
  SMS.is_true E Py.PNone = false ->
  SMS.send_to_uid sms = false ->
  passw <> "" ->
  SMS.get_tokeninfo (SMS.enroll_via_validate_2nd_step self passw)
    "dynamic_phone" = Py.PNone
  /\ SMS.get_tokeninfo (SMS.enroll_via_validate_2nd_step self passw) "phone"
     = Py.PStr passw
  /\ SMS.get_destination E (SMS.enroll_via_validate_2nd_step self passw) o
       ident sms w
     = Py.Return (Py.PStr passw) w.
Proof.
  intros Hnone Huid Hpassw.
  assert (Hdyn :
    SMS.get_tokeninfo (SMS.enroll_via_validate_2nd_step self passw)
      "dynamic_phone" = Py.PNone).
  { unfold SMS.get_tokeninfo, SMS.enroll_via_validate_2nd_step,
      SMS.add_tokeninfo, SMS.del_tokeninfo, Py.dict_get.
    cbn [SMS.tokeninfo].
    rewrite lookup_insert_ne by discriminate.
    now rewrite lookup_delete_eq. }
  assert (Hphone :
    SMS.get_tokeninfo (SMS.enroll_via_validate_2nd_step self passw) "phone"
    = Py.PStr passw).
  { unfold SMS.get_tokeninfo, SMS.enroll_via_validate_2nd_step,
      SMS.add_tokeninfo, Py.dict_get.
    cbn [SMS.tokeninfo]. now rewrite lookup_insert_eq. }
  split; [exact Hdyn|]. split; [exact Hphone|].
  unfold SMS.get_destination. rewrite Huid, Hdyn, Hnone, Hphone.
  cbv beta iota delta [mbind mret Py.M_bind Py.M_ret].
  cbn [Py.truthy].
  destruct (String.eqb_spec passw "") as [Heq | _]; [contradiction|].
  reflexivity.
Qed.

Lemma enroll_2nd_step_sets_destination_witness :
  SMS.get_destination (Samples.sms_env Samples.gateway_up)
    (SMS.enroll_via_validate_2nd_step
       {| SMS.serial := "SMS0002"; SMS.active := true; SMS.locked := false;
          SMS.tokeninfo := {[ "dynamic_phone" := Py.PBool true ]};
          SMS.owner := None |}
       "+4917012345")
    (Samples.sms_options ∅) (Py.PStr "gw") Samples.gateway_up
    Samples.sms_world
  = Py.Return (Py.PStr "+4917012345") Samples.sms_world.
Proof.
  refine (proj2 (proj2 (enroll_2nd_step_sets_destination
            (Samples.sms_env Samples.gateway_up)
            {| SMS.serial := "SMS0002"; SMS.active := true;
               SMS.locked := false;
               SMS.tokeninfo := {[ "dynamic_phone" := Py.PBool true ]};
               SMS.owner := None |}
            "+4917012345" (Samples.sms_options ∅) (Py.PStr "gw")
            Samples.gateway_up Samples.sms_world eq_refl eq_refl _))).
  discriminate.
Defined.

(** X30. [prepare_verify_enrollment] calls [create_challenge] without
    options, so (with [is_true(None)] false) nothing that fails inside the
    [try] makes it raise: it raises only from the expiry date, and returns
    the message dict whenever that date can be computed; the challenge
    table then holds at most one row more. On an active token the counter
    advances by one, and since no policy object reaches [_get_sms_text] a
    message that is handed to the gateway is rendered from the default
    template "<otp>" with the OTP value at the advanced counter and is not
    flagged as post-check message. *)
Theorem prepare_verify_enrollment_outcome
    (E : SMS.env) (self : SMS.Token) (VERIFY_ENROLLMENT_MESSAGE : Py.pyval)
    (w : SMS.world) :
  SMS.is_true E Py.PNone = false ->
  (forall valid_until,
      SMS.expiry_text E (SMS._get_sms_timeout E) = Py.Ok valid_until ->
      exists w',
        SMS.prepare_verify_enrollment E self VERIFY_ENROLLMENT_MESSAGE w
        = Py.Return {[ "message" := VERIFY_ENROLLMENT_MESSAGE ]} w'
        /\ (SMS.db w' = SMS.db w
            \/ exists row, SMS.db w' = (SMS.db w ++ [row])%list)
        /\ (SMS.active self = false -> w' = w)) /\
  (forall e w',
      SMS.prepare_verify_enrollment E self VERIFY_ENROLLMENT_MESSAGE w
      = Py.Raise e w' ->
      SMS.expiry_text E (SMS._get_sms_timeout E) = Py.Err e) /\
  (SMS.active self = true ->
   SMS.count
     (Py.final_state
        (SMS.prepare_verify_enrollment E self VERIFY_ENROLLMENT_MESSAGE w))
   = SMS.count w + 1
   /\ forall sms,
        SMS.outbox
          (Py.final_state
             (SMS.prepare_verify_enrollment E self
                VERIFY_ENROLLMENT_MESSAGE w))
        = (SMS.outbox w ++ [sms])%list ->
        SMS.post_check sms = false
        /\ SMS.render_message E "<otp>" (SMS.hotp E (SMS.count w + 1))
             (SMS.serial self) (SMS.Build_options None None ∅)
           = Py.Ok (SMS.sms_text sms)).
Proof.
  intros Hnone. unfold SMS.prepare_verify_enrollment.
  set (o := SMS.Build_options None None ∅).
  assert (Hexc : SMS.is_true E (Py.dict_get (SMS.vals o) "exception") = false)
    by exact Hnone.
  assert (Hses : Py.dict_get (SMS.vals o) "session"
                 <> Py.PStr (SMS.ENROLLMENT E)) by discriminate.
  cbv beta iota delta [mbind mret Py.M_bind Py.M_ret].
  assert (Hshape : exists s m t w1,
    SMS.create_challenge E self Py.PNone o w
    = SMS.ends_with E s m t Py.PNone w1
    /\ (SMS.db w1 = SMS.db w
        \/ exists row, SMS.db w1 = (SMS.db w ++ [row])%list)
    /\ (SMS.active self = false -> w1 = w)
    /\ (SMS.active self = true ->
        SMS.count w1 = SMS.count w + 1
        /\ SMS.outbox w1
           = SMS.outbox
               (Py.final_state
                  (SMS._send_sms E self "<otp>" o (SMS.at_send w))))).
  { destruct (SMS.active self) eqn:Hact.
    - rewrite (create_challenge_sending E self Py.PNone o w Hact Hses).
      destruct (keeps_send_sms E self (SMS._get_sms_text o) o (SMS.at_send w))
        as [Hdb Hcount].
      change (SMS.count (SMS.at_send w)) with (SMS.count w + 1) in Hcount.
      change (SMS.db (SMS.at_send w)) with (SMS.db w) in Hdb.
      change (SMS._get_sms_text o) with "<otp>" in *.
      unfold SMS.handled. rewrite Hexc.
      destruct (SMS._send_sms E self "<otp>" o (SMS.at_send w))
        as [[s m] w2|e w2]; cbn [Py.final_state] in *.
      + destruct (SMS.challenge_data E w) as [data|e];
          [destruct (SMS.db_save E _) as [[]|e]|].
        * do 3 eexists. eexists. split; [reflexivity|].
          split; [right; eexists; reflexivity|].
          split; [discriminate|]. intros _. split; reflexivity.
        * do 3 eexists. exists (SMS.after_handler w2).
          split; [reflexivity|]. split; [left; exact Hdb|].
          split; [discriminate|]. intros _. split; [exact Hcount|reflexivity].
        * do 3 eexists. exists (SMS.after_handler w2).
          split; [reflexivity|]. split; [left; exact Hdb|].
          split; [discriminate|]. intros _. split; [exact Hcount|reflexivity].
      + do 3 eexists. exists (SMS.after_handler w2).
        split; [reflexivity|]. split; [left; exact Hdb|].
        split; [discriminate|]. intros _. split; [exact Hcount|reflexivity].
    - rewrite (create_challenge_inactive E self Py.PNone o w Hact).
      do 3 eexists. exists w. split; [reflexivity|].
      split; [left; reflexivity|]. split; [reflexivity | discriminate]. }
  destruct Hshape as (s & m & t & w1 & Hrun & Hdb & Hoff & Hon).
  rewrite Hrun. unfold SMS.ends_with.
  assert (Hsms : SMS.active self = true ->
    forall sms,
      SMS.outbox w1 = (SMS.outbox w ++ [sms])%list ->
      SMS.post_check sms = false
      /\ SMS.render_message E "<otp>" (SMS.hotp E (SMS.count w + 1))
           (SMS.serial self) o = Py.Ok (SMS.sms_text sms)).
  { intros Hact sms Hob. destruct (Hon Hact) as [_ Hout1].
    rewrite Hout1 in Hob.
    pose proof (send_sms_outbox E self "<otp>" o (SMS.at_send w)) as Hout.
    change (SMS.count (SMS.at_send w)) with (SMS.count w + 1) in Hout.
    change (SMS.outbox (SMS.at_send w)) with (SMS.outbox w) in Hout.
    change (Py.truthy (Py.dict_get (SMS.vals o) "smstoken_post_check"))
      with false in Hout.
    destruct (SMS.render_message E "<otp>" (SMS.hotp E (SMS.count w + 1))
                (SMS.serial self) o) as [text|e].
    - destruct (SMS._send_sms E self "<otp>" o (SMS.at_send w))
        as [[s0 m0] w3|e w3]; cbn [Py.final_state] in Hob.
      + destruct Hout as [_ [dest Hout]]. rewrite Hout in Hob.
        apply outbox_not_grown in Hob. subst sms. split; reflexivity.
      + destruct Hout as [Hout | [dest Hout]]; rewrite Hout in Hob.
        * destruct (outbox_grown_ne _ _ Hob).
        * apply outbox_not_grown in Hob. subst sms. split; reflexivity.
    - destruct Hout as (w3 & Hsend & Hout). rewrite Hsend in Hob.
      cbn [Py.final_state] in Hob. rewrite Hout in Hob.
      destruct (outbox_grown_ne _ _ Hob). }
  destruct (SMS.expiry_text E (SMS._get_sms_timeout E)) as [v|e'];
    cbn [Py.final_state].
  - split; [|split].
    + intros v' _. exists w1. split; [reflexivity|].
      split; [exact Hdb | exact Hoff].
    + discriminate.
    + intros Hact. split; [exact (proj1 (Hon Hact)) | exact (Hsms Hact)].
  - split; [|split].
    + discriminate.
    + intros x w' Hr. now injection Hr as -> _.
    + intros Hact. split; [exact (proj1 (Hon Hact)) | exact (Hsms Hact)].
Qed.

Lemma prepare_verify_enrollment_outcome_witness :
  exists w',
    SMS.prepare_verify_enrollment (Samples.sms_env Samples.gateway_down)
      Samples.sms_token (Py.PStr "Please enter a valid OTP value")
      Samples.sms_world
    = Py.Return {[ "message" := Py.PStr "Please enter a valid OTP value" ]} w'.
Proof.
  destruct (proj1 (prepare_verify_enrollment_outcome
                     (Samples.sms_env Samples.gateway_down) Samples.sms_token
                     (Py.PStr "Please enter a valid OTP value")
                     Samples.sms_world eq_refl) "now + 300" eq_refl)
    as (w' & Hrun & _).
  exists w'. exact Hrun.
Defined.
